(** * Evaluation utilities of HDAID2021 ([utils/evaluation.py])

    A shallow embedding of the two functions of the module,
    [draw_confusion_matrix] and [all_together], and the properties of
    their specification.

    Conventions of the embedding.
    - Python floats (and NumPy [float64] scalars) are binary64 numbers:
      the primitive floats of the kernel, with their IEEE operations.
    - Python integers are [Z]; NumPy [int64] arithmetic is [Z] arithmetic
      followed by [wrap64].
    - An exception is a value of [exception]; a computation that can raise
      returns a [result].  Code that updates local variables or a shared
      array before it may raise runs in [Exec], which keeps the state
      reached at the point of the raise.
    - The numeric kernels of the tensor framework (softmax, the losses,
      element-wise products), whose rounding is that of the framework, and
      the helpers of [models.functional], which are not part of this
      module, are operations of the classes [Torch] and [ModelsFunctional].
      Shapes, devices, [clamp], [argmax], flattening, concatenation and
      the confusion matrix are defined here.
    - The plotting calls of [matplotlib] and [seaborn] are operations of
      the class [Pyplot]; each may raise.
    - An iterator is the list of the outcomes of its [next] calls;
      [StopIteration] among them, like the end of the list, ends a
      [for] loop without an exception. *)

From Stdlib Require Import ZArith List Floats Ascii.
From stdpp Require Import gmap strings list pretty.

Set Default Proof Using "Type".

(* ================================================================== *)
(** * Exceptions and the two monads *)

(** The exception classes the module and its collaborators raise.  A
    constructor stands for the class and its subclasses; [OtherError]
    is any class that derives from none of the named ones. *)
Inductive exception : Type :=
  | TypeError (msg : string)
  | ValueError (msg : string)
  | ImportError (msg : string)
  | IndexError (msg : string)
  | KeyError (msg : string)
  | RuntimeError (msg : string)
  | ZeroDivisionError (msg : string)
  | OverflowError (msg : string)
  | StopIteration (msg : string)
  | OtherError (cls msg : string).

Definition result (A : Type) : Type := (exception + A)%type.

Definition raise {A : Type} (e : exception) : result A := inl e.

#[global] Instance result_ret : MRet result := fun A a => inr a.
#[global] Instance result_bind : MBind result :=
  fun A B k m => match m with inl e => inl e | inr a => k a end.

(** State and exceptions: the state is returned also when the
    computation raises, as it was when the exception left. *)
Definition Exec (S A : Type) : Type := S -> S * result A.

#[global] Instance exec_ret {S : Type} : MRet (Exec S) :=
  fun A a s => (s, inr a).
#[global] Instance exec_bind {S : Type} : MBind (Exec S) :=
  fun A B k m s =>
    match m s with
    | (s', inl e) => (s', inl e)
    | (s', inr a) => k a s'
    end.

Definition lift {S A : Type} (r : result A) : Exec S A := fun s => (s, r).
Definition modify {S : Type} (f : S -> S) : Exec S unit :=
  fun s => (f s, inr tt).

(* ================================================================== *)
(** * Numbers *)

Open Scope float_scope.

(** Conversion of a Python integer to a float: the nearest binary64
    number, ties to even. *)
Definition Z2float (n : Z) : float :=
  SF2Prim (binary_normalize prec emax n 0 false).

(** [float(n)] as Python performs it in mixed arithmetic: an integer
    beyond the binary64 range raises [OverflowError]. *)
Definition float_of_int (n : Z) : result float :=
  let f := Z2float n in
  if is_infinity f
  then raise (OverflowError "int too large to convert to float")
  else mret f.

(** [f / n] for a float [f] and an integer [n]. *)
Definition float_truediv_int (f : float) (n : Z) : result float :=
  d ← float_of_int n;
  if (n =? 0)%Z then raise (ZeroDivisionError "float division by zero")
  else mret (f / d).

(** [f * n] for a float [f] and an integer [n]. *)
Definition float_mul_int (f : float) (n : Z) : result float :=
  d ← float_of_int n; mret (f * d).

(** [n - f] for an integer [n] and a float [f]. *)
Definition int_sub_float (n : Z) (f : float) : result float :=
  d ← float_of_int n; mret (d - f).

(** NumPy [int64]: two's complement wrap-around. *)
Definition wrap64 (z : Z) : Z :=
  ((z + 2 ^ 63) mod 2 ^ 64 - 2 ^ 63)%Z.

Definition int64 (z : Z) : Prop := (- 2 ^ 63 <= z < 2 ^ 63)%Z.

(** Rounding of a binary64 value to binary32 and back, the value a
    [float32] tensor element holds. *)
Definition round_binary32 (v : float) : float :=
  match Prim2SF v with
  | S754_finite s m e =>
      SF2Prim (binary_normalize 24 128 (cond_Zopp s (Zpos m)) e s)
  | _ => v
  end.

(* ================================================================== *)
(** * [str.format] of floats *)

Definition nl : string := String (Ascii.ascii_of_nat 10) EmptyString.

Definition pad_left (width : nat) (c : Ascii.ascii) (s : string) : string :=
  String.string_of_list_ascii (replicate (width - String.length s) c) +:+ s.

(** The integer nearest to [num / den], ties to the even one
    ([0 <= num], [0 < den]). *)
Definition round_half_even (num den : Z) : Z :=
  let q := (num / den)%Z in
  let r := (num mod den)%Z in
  if (2 * r <? den)%Z then q
  else if (den <? 2 * r)%Z then (q + 1)%Z
  else if Z.even q then q else (q + 1)%Z.

(** [m * 2^e * 10^prec], rounded to an integer. *)
Definition scaled (m : positive) (e : Z) (prec : nat) : Z :=
  let n := (Zpos m * 10 ^ Z.of_nat prec)%Z in
  if (0 <=? e)%Z then (n * 2 ^ e)%Z else round_half_even n (2 ^ (- e))%Z.

(** The digits of [n / 10^prec] with [prec] digits after the point. *)
Definition fixed_digits (n : Z) (prec : nat) : string :=
  let ds := pad_left (S prec) "0"%char (pretty (Z.to_N n)) in
  if (prec =? 0)%nat then ds
  else
    let k := (String.length ds - prec)%nat in
    String.substring 0 k ds +:+ "." +:+ String.substring k prec ds.

Definition sign_text (s : bool) : string := if s then "-" else "".

(** ["{:W.Pf}".format(v)]: the decimal with [prec] digits after the
    point nearest to the exact value of [v], right-aligned in [width]
    columns. *)
Definition format_f (width prec : nat) (v : float) : string :=
  pad_left width " "%char
    match Prim2SF v with
    | S754_nan => "nan"
    | S754_infinity s => sign_text s +:+ "inf"
    | S754_zero s => sign_text s +:+ fixed_digits 0 prec
    | S754_finite s m e => sign_text s +:+ fixed_digits (scaled m e prec) prec
    end.

(** ["{:.P%}".format(v)]. *)
Definition format_percent (prec : nat) (v : float) : string :=
  format_f 0 prec (v * 100) +:+ "%".

(* ================================================================== *)
(** * Tensors *)

Inductive device : Type := cpu | cuda (index : nat).

(** A floating-point tensor: its shape, its elements in row-major
    order and the device that holds it. *)
Record Tensor : Type := mkTensor {
  shape : list nat;
  data : list float;
  dev : device
}.

(** An integer ([int64]) tensor, as [argmax] returns. *)
Record LongTensor : Type := mkLong {
  lshape : list nat;
  ldata : list Z;
  ldev : device
}.

Definition ndim (t : Tensor) : nat := length (shape t).

(** [t.size(0)]. *)
Definition size0 (t : Tensor) : Z := Z.of_nat (nth 0 (shape t) 0%nat).

(** [t.unsqueeze(0)]: a leading axis of length one. *)
Definition unsqueeze0 (t : Tensor) : Tensor :=
  mkTensor (1%nat :: shape t) (data t) (dev t).

(** [t.to(device)]. *)
Definition to (d : device) (t : Tensor) : Tensor :=
  mkTensor (shape t) (data t) d.

(** [t.float()]. *)
Definition tensor_float (t : Tensor) : Tensor :=
  mkTensor (shape t) (map round_binary32 (data t)) (dev t).

Definition clamp_value (lo hi v : float) : float :=
  if is_nan v then v
  else if v <? lo then lo
  else if hi <? v then hi
  else v.

(** [t.clamp(lo, hi)]. *)
Definition clamp (lo hi : float) (t : Tensor) : Tensor :=
  mkTensor (shape t) (map (clamp_value lo hi) (data t)) (dev t).

(** The index of the greatest element of a non-empty sequence, the
    first one when several are equal; a NaN counts as greater than any
    number.  [best] and [besti] are the greatest element so far and its
    index, [i] the index of the head of [vs]. *)
Fixpoint argmax_from (best : float) (besti i : Z) (vs : list float) : Z :=
  match vs with
  | [] => besti
  | v :: vs' =>
      if (best <? v) || (is_nan v && negb (is_nan best))
      then argmax_from v i (i + 1)%Z vs'
      else argmax_from best besti (i + 1)%Z vs'
  end.

Definition argmax_list (vs : list float) : Z :=
  match vs with
  | [] => 0%Z
  | v :: vs' => argmax_from v 0%Z 1%Z vs'
  end.

Definition product (l : list nat) : nat := fold_right Nat.mul 1%nat l.

(** [t.argmax(dim=-3)]: for a shape [pre ++ [c; h; w]] the result has
    shape [pre ++ [h; w]]. *)
Definition argmax_dim3 (t : Tensor) : result LongTensor :=
  match rev (shape t) with
  | w :: h :: c :: rpre =>
      if (c =? 0)%nat
      then raise (IndexError "argmax(): Expected reduction dim -3 to have non-zero size.")
      else
        let inner := (h * w)%nat in
        let outer := product rpre in
        mret (mkLong (rev rpre ++ [h; w])
                (flat_map (fun o =>
                   map (fun i =>
                     argmax_list
                       (map (fun k => nth ((o * c + k) * inner + i) (data t) nan)
                            (seq 0 c)))
                     (seq 0 inner))
                   (seq 0 outer))
                (dev t))
  | _ => raise (IndexError "Dimension out of range (expected to be in range of [-2, 1], but got -3)")
  end.

(** [t.size(dim=-3)]. *)
Definition size_dim3 (t : Tensor) : result nat :=
  match rev (shape t) with
  | _ :: _ :: c :: _ => mret c
  | _ => raise (IndexError "Dimension out of range (expected to be in range of [-2, 1], but got -3)")
  end.

(** [t.view(-1)]. *)
Definition view_flat (t : LongTensor) : LongTensor :=
  mkLong [length (ldata t)] (ldata t) (ldev t).

(** [torch.cat(ts)] for one-dimensional tensors. *)
Definition torch_cat (ts : list LongTensor) : result LongTensor :=
  match ts with
  | [] => raise (RuntimeError "torch.cat(): expected a non-empty list of Tensors")
  | t :: _ =>
      let all := concat (map ldata ts) in
      mret (mkLong [length all] all (ldev t))
  end.

(** [t.cpu().numpy()] of a one-dimensional integer tensor. *)
Definition numpy (t : LongTensor) : list Z := ldata t.

(* ================================================================== *)
(** * NumPy arrays and [sklearn.metrics.confusion_matrix] *)

(** A two-dimensional [int64] array, as a list of rows. *)
Abbreviation ndarray := (list (list Z)).

Definition zeros (r c : nat) : ndarray := replicate r (replicate c 0%Z).

(** [range(n)]. *)
Definition range (n : nat) : list Z := map Z.of_nat (seq 0 n).

(** The dictionary [{y: x for x, y in enumerate(labels)}]. *)
Definition label_to_ind (labels : list Z) : gmap Z nat :=
  fold_left (fun m xy => <[xy.2 := xy.1]> m) (imap pair labels) ∅.

(** One more observation in cell [(i, j)]. *)
Definition cm_incr (i j : nat) (cm : ndarray) : ndarray :=
  alter (alter Z.succ j) i cm.

(** The samples whose two labels are both among [labels], as pairs of
    indices (true, predicted). *)
Definition known_pairs (m : gmap Z nat) (y_true y_pred : list Z)
  : list (nat * nat) :=
  omap (fun tp => match m !! tp.1, m !! tp.2 with
                  | Some i, Some j => Some (i, j)
                  | _, _ => None
                  end) (zip y_true y_pred).

(** [confusion_matrix(y_true, y_pred, labels=labels)]: one row and one
    column per label; samples with a label outside [labels] are
    dropped.  A count is at most the length of the arrays, which NumPy
    keeps below [2 ^ 63], so no addition wraps. *)
Definition confusion_matrix (y_true y_pred labels : list Z) : result ndarray :=
  if negb (length y_true =? length y_pred)%nat
  then raise (ValueError "Found input variables with inconsistent numbers of samples")
  else
    let n_labels := length labels in
    if (n_labels =? 0)%nat
    then raise (ValueError "'labels' should contains at least one label.")
    else if (length y_true =? 0)%nat
    then mret (zeros n_labels n_labels)
    else if forallb (fun y => negb (bool_decide (y ∈ labels))) y_true
    then raise (ValueError "At least one label specified must be in y_true")
    else
      mret (fold_left (fun cm ij => cm_incr ij.1 ij.2 cm)
              (known_pairs (label_to_ind labels) y_true y_pred)
              (zeros n_labels n_labels)).

(* ================================================================== *)
(** * The collaborators of [all_together] *)

(** The numeric kernels of the tensor framework that the loop calls.
    Each may raise. *)
Class Torch : Type := {
  (** [t.softmax(dim=d)] *)
  softmax : Tensor -> Z -> result Tensor;
  (** [F.binary_cross_entropy(input, target, reduction='mean').item()] *)
  binary_cross_entropy : Tensor -> Tensor -> result float;
  (** [torch.eq(a, b).float().mean().item()] *)
  eq_float_mean : LongTensor -> LongTensor -> result float;
  (** [a * b] and [a + b] on tensors *)
  tensor_mul : Tensor -> Tensor -> result Tensor;
  tensor_add : Tensor -> Tensor -> result Tensor
}.

(** The helpers of [models.functional] ([f] in the source), which this
    module imports and which lie outside it. *)
Class ModelsFunctional : Type := {
  (** [f.one_hot_nd(labels, n, nd=nd).to(dtype)]; zero and one are
      the same in every dtype *)
  one_hot_nd : LongTensor -> nat -> nat -> result Tensor;
  (** [f._dice_loss(mul, add, nd=nd, reduction='mean').item()] *)
  _dice_loss : Tensor -> Tensor -> nat -> result float;
  (** [f._iou_loss(mul, add, nd=nd, reduction='mean').item()] *)
  _iou_loss : Tensor -> Tensor -> nat -> result float
}.

(** A model: the name of its class, what [model.eval().to(device)]
    does, and its forward function in evaluation mode, which returns a
    dictionary of tensors. *)
Record Model : Type := mkModel {
  class_name : string;
  eval_to : device -> result unit;
  forward : Tensor -> result (gmap string Tensor)
}.

(** ** Iteration

    An iterator is known by the outcomes of the successive calls of
    [next] on it: an item, or the exception the call raises.
    [StopIteration] is the end of the iteration, as is the end of the
    list: a [for] statement leaves its loop there without an exception,
    and calls [next] no more. *)
Definition stops {A : Type} (outcome : result A) : bool :=
  match outcome with
  | inl (StopIteration _) => true
  | _ => false
  end.

(** The outcomes a loop over the iterator meets: those before the end
    of the iteration. *)
Fixpoint iterate {A : Type} (outcomes : list (result A)) : list (result A) :=
  match outcomes with
  | [] => []
  | outcome :: rest => if stops outcome then [] else outcome :: iterate rest
  end.

(** [iter(obj)] for an object that has [__getitem__] and no [__iter__],
    from the outcomes of [obj[0]], [obj[1]], ...: the sequence iterator
    of Python ends the iteration when [__getitem__] raises [IndexError]
    or [StopIteration], and hands on every other outcome. *)
Definition sequence_next {A : Type} (outcome : result A) : result A :=
  match outcome with
  | inl (IndexError _) | inl (StopIteration _) => inl (StopIteration "")
  | _ => outcome
  end.

Definition sequence_iterator {A : Type} (getitem : list (result A))
  : list (result A) :=
  map sequence_next getitem.

(** A dataset: what [len(dataset)] does, and the outcomes of the
    successive calls of [next] on [iter(dataset)]; an outcome is a pair
    of tensors, or the exception the call raises. *)
Record Dataset : Type := mkDataset {
  ds_len : result Z;
  ds_next : list (result (Tensor * Tensor))
}.

(** What iterating over the dataset yields, item by item, up to the
    end of the iteration; an item is a pair of tensors, or the
    exception its production raises. *)
Definition ds_items (dataset : Dataset) : list (result (Tensor * Tensor)) :=
  iterate (ds_next dataset).

(** What the function finds in its environment. *)
Record environment : Type := mkEnv {
  (** the outcome of [from tqdm.notebook import tqdm] *)
  import_tqdm : result unit;
  (** the outcome of building the progress bar *)
  tqdm_bar : result unit;
  (** [torch.cuda.is_available()] *)
  cuda_is_available : bool
}.

(** [d[key]]. *)
Definition getitem (d : gmap string Tensor) (key : string) : result Tensor :=
  match d !! key with
  | Some t => mret t
  | None => raise (KeyError key)
  end.

(* ================================================================== *)
(** * [all_together] *)

(** The local accumulators of the loop. *)
Record locals : Type := mkLocals {
  logits : list LongTensor;
  targets : list LongTensor;
  total : Z;
  correct : float;
  bce : float;
  dice : float;
  iou : float
}.

(** [logits, targets = [], []; total = correct = 0; bce = dice = iou = 0.]
    ([correct] is the integer zero until the first addition of a float
    converts it, to the same value as [0.]). *)
Definition initial : locals := mkLocals [] [] 0 0 0 0 0.

Definition append_logits (t : LongTensor) (s : locals) : locals :=
  mkLocals (logits s ++ [t]) (targets s) (total s) (correct s) (bce s) (dice s) (iou s).
Definition append_targets (t : LongTensor) (s : locals) : locals :=
  mkLocals (logits s) (targets s ++ [t]) (total s) (correct s) (bce s) (dice s) (iou s).
Definition add_total (n : Z) (s : locals) : locals :=
  mkLocals (logits s) (targets s) (total s + n) (correct s) (bce s) (dice s) (iou s).
Definition add_correct (v : float) (s : locals) : locals :=
  mkLocals (logits s) (targets s) (total s) (correct s + v) (bce s) (dice s) (iou s).
Definition add_bce (v : float) (s : locals) : locals :=
  mkLocals (logits s) (targets s) (total s) (correct s) (bce s + v) (dice s) (iou s).
Definition add_dice (v : float) (s : locals) : locals :=
  mkLocals (logits s) (targets s) (total s) (correct s) (bce s) (dice s + v) (iou s).
Definition add_iou (v : float) (s : locals) : locals :=
  mkLocals (logits s) (targets s) (total s) (correct s) (bce s) (dice s) (iou s + v).

(** The exceptions the [except] clause around the progress bar
    catches. *)
Definition caught (e : exception) : bool :=
  match e with
  | ImportError _ | TypeError _ | ValueError _ => true
  | _ => false
  end.

(** Lines 117-121: the progress bar over the dataset, or the plain
    iterator when its construction raises one of the caught
    exceptions.  Both yield the items of the dataset, and end where
    the iteration over the dataset ends. *)
Definition make_iterator (env : environment) (dataset : Dataset)
  : result (list (result (Tensor * Tensor))) :=
  match (import_tqdm env;; ds_len dataset;; tqdm_bar env) with
  | inr _ => mret (ds_items dataset)
  | inl e => if caught e then mret (ds_items dataset) else raise e
  end.

(** [device or torch.device('cuda:0' if torch.cuda.is_available() else 'cpu')]. *)
Definition resolve_device (env : environment) (d : option device) : device :=
  match d with
  | Some d => d
  | None => if cuda_is_available env then cuda 0 else cpu
  end.

(** Lines 128-135: a four-dimensional input is a batch, a
    three-dimensional one becomes a batch of one. *)
Definition as_batch (x true_ : Tensor) : result (Tensor * Tensor * Z) :=
  if (ndim x =? 4)%nat then mret (x, true_, size0 x)
  else if (ndim x =? 3)%nat then mret (unsqueeze0 x, unsqueeze0 true_, 1%Z)
  else raise (TypeError "Invalid Input Dim").

Section AllTogether.
Context `{Torch} `{ModelsFunctional}.
Variable model : Model.
Variable dev_ : device.

(** The body of the loop, lines 128-151, statement by statement. *)
Definition loop_body (x true_ : Tensor) : Exec locals unit :=
  '(x, true_, size) ← lift (as_batch x true_);
  let x := tensor_float (to dev_ x) in
  let true_ := tensor_float (to dev_ (clamp 0 1 true_)) in
  pred ← lift (forward model x);
  pred ← lift (getitem pred "out");
  p ← lift (softmax pred (-3));
  l ← lift (binary_cross_entropy p true_);
  v ← lift (float_mul_int l size);
  modify (add_bce v);;
  true_argmax ← lift (argmax_dim3 true_);
  pred_argmax ← lift (argmax_dim3 pred);
  modify (append_logits (view_flat pred_argmax));;
  modify (append_targets (view_flat true_argmax));;
  a ← lift (eq_float_mean pred_argmax true_argmax);
  v ← lift (float_mul_int a size);
  modify (add_correct v);;
  c ← lift (size_dim3 pred);
  pred ← lift (one_hot_nd pred_argmax c 2);
  mul ← lift (tensor_mul pred true_);
  add ← lift (tensor_add pred true_);
  d ← lift (_dice_loss mul add 2);
  v ← lift (float_mul_int d size);
  modify (add_dice v);;
  i ← lift (_iou_loss mul add 2);
  v ← lift (float_mul_int i size);
  modify (add_iou v);;
  modify (add_total size).

(** [for x, true in iterator: ...]: the loop ends without an
    exception when [next] raises [StopIteration]; any other exception
    of [next] leaves the loop, as one of the body does. *)
Fixpoint for_loop (iterator : list (result (Tensor * Tensor)))
  : Exec locals unit :=
  match iterator with
  | [] => mret tt
  | item :: rest =>
      if stops item then mret tt
      else
        '(x, true_) ← lift item;
        loop_body x true_;;
        for_loop rest
  end.

(** The text [print] writes, lines 160-167. *)
Definition summary (bce dice iou correct : float) : result string :=
  d ← int_sub_float 1 dice;
  i ← int_sub_float 1 iou;
  c ← float_mul_int correct 100;
  mret ("Model Architecture:      " +:+ class_name model +:+ nl +:+
        "Binary Cross Entropy:    " +:+ format_f 7 5 bce +:+ nl +:+
        "Dice-Coefficient:        " +:+ format_f 7 5 d +:+ nl +:+
        "Intersection over Union: " +:+ format_f 7 5 i +:+ nl +:+
        "Pixel-Wise Accuracy:     " +:+ format_f 7 4 c +:+ "%").

(** Lines 152-168, from the accumulators the loop leaves: the lines
    printed and the tuple returned. *)
Definition finish (verbose : bool) (s : locals)
  : result (list string * (float * float * float * float * ndarray)) :=
  logits ← torch_cat (logits s);
  targets ← torch_cat (targets s);
  cm ← confusion_matrix (numpy targets) (numpy logits) (range 6);
  correct ← float_truediv_int (correct s) (total s);
  bce ← float_truediv_int (bce s) (total s);
  dice ← float_truediv_int (dice s) (total s);
  iou ← float_truediv_int (iou s) (total s);
  out ← (if verbose : bool
         then line ← summary bce dice iou correct; mret [line]
         else mret []);
  mret (out, (bce, dice, iou, correct, cm)).
End AllTogether.

(** [all_together(model, dataset, device, verbose)]: the lines printed
    and the tuple returned, or the exception raised. *)
Definition all_together `{Torch} `{ModelsFunctional}
    (env : environment) (model : Model) (dataset : Dataset)
    (device_ : option device) (verbose : bool)
  : result (list string * (float * float * float * float * ndarray)) :=
  iterator ← make_iterator env dataset;
  let device_ := resolve_device env device_ in
  eval_to model device_;;
  match for_loop model device_ iterator initial with
  | (_, inl e) => raise e
  | (s, inr _) => finish model verbose s
  end.

(* ================================================================== *)
(** * [draw_confusion_matrix] *)

(** The caller's arrays live in a heap; [cf] is a reference into it. *)
Abbreviation loc := positive.
Abbreviation heap := (gmap positive (list (list Z))).

Definition load (l : loc) : Exec heap ndarray :=
  fun h => match h !! l with
           | Some a => (h, inr a)
           | None => (h, inl (OtherError "ReferenceError" "dangling array"))
           end.

Definition store (l : loc) (a : ndarray) : Exec heap unit :=
  fun h => (<[l := a]> h, inr tt).

(** ** NumPy operations on a two-dimensional [int64] array *)

(** [a.shape[0]] and [a.shape[1]]; an array with no row has no column. *)
Definition nrows (a : ndarray) : nat := length a.
Definition ncols (a : ndarray) : nat :=
  match a with [] => 0%nat | r :: _ => length r end.

(** [a.size] and [a.flatten()]. *)
Definition np_size (a : ndarray) : nat := (nrows a * ncols a)%nat.
Definition flatten (a : ndarray) : list Z := concat a.

(** A sum of [int64] values, wrapping at each addition; Python's [sum]
    over [int64] scalars and [np.sum] agree on it. *)
Definition sum64 (l : list Z) : Z :=
  fold_left (fun acc v => wrap64 (acc + v)) l 0%Z.

(** [np.diagonal(a)]: the entries [a[i, i]]. *)
Definition np_diagonal (a : ndarray) : list Z :=
  omap id (imap (fun i row => row !! i) a).

Definition np_trace (a : ndarray) : Z := sum64 (np_diagonal a).
Definition np_sum (a : ndarray) : Z := sum64 (flatten a).

(** [a[i, j]], [a[i, :]] and [a[:, j]]. *)
Definition item (a : ndarray) (i j : nat) : result Z :=
  match a !! i ≫= (.!! j) with
  | Some v => mret v
  | None => raise (IndexError "index is out of bounds")
  end.

Definition row (a : ndarray) (i : nat) : result (list Z) :=
  match a !! i with
  | Some r => mret r
  | None => raise (IndexError "index is out of bounds")
  end.

Definition column (a : ndarray) (j : nat) : result (list Z) :=
  if (j <? ncols a)%nat then mret (omap (.!! j) a)
  else raise (IndexError "index is out of bounds").

(** [x / y] on [int64] scalars: the quotient of the two as binary64
    numbers, NaN or an infinity when [y] is zero. *)
Definition true_divide (x y : Z) : float := Z2float x / Z2float y.

(** [a -= np.diagflat(np.diagonal(a))]: the new contents of [a].  The
    square matrix that carries the diagonal is broadcast to the shape
    of [a], which NumPy refuses unless the shapes agree or the diagonal
    has a single entry. *)
Definition isub_diagflat (a : ndarray) : result ndarray :=
  let d := np_diagonal a in
  let m := length d in
  if ((m =? nrows a)%nat || (m =? 1)%nat) && ((m =? ncols a)%nat || (m =? 1)%nat)
  then
    mret (imap (fun i r =>
            imap (fun j v =>
              let bi := if (m =? 1)%nat then 0%nat else i in
              let bj := if (m =? 1)%nat then 0%nat else j in
              wrap64 (v - (if (bi =? bj)%nat then nth bi d 0%Z else 0%Z)))
              r) a)
  else raise (ValueError "operands could not be broadcast together").

(** ** Text of the boxes *)

Definition is_space (c : ascii) : bool :=
  let n := nat_of_ascii c in
  ((9 <=? n) && (n <=? 13) || (28 <=? n) && (n <=? 32))%nat.

Fixpoint lstrip (s : string) : string :=
  match s with
  | String c s' => if is_space c then lstrip s' else s
  | EmptyString => EmptyString
  end.

Fixpoint rstrip (s : string) : string :=
  match s with
  | String c s' =>
      match rstrip s' with
      | EmptyString => if is_space c then EmptyString else String c EmptyString
      | t => String c t
      end
  | EmptyString => EmptyString
  end.

(** [s.strip()], for ASCII text. *)
Definition strip (s : string) : string := rstrip (lstrip s).

(** [l.reshape(r, c)] of a list of [r * c] items. *)
Fixpoint reshape {A : Type} (r c : nat) (l : list A) : list (list A) :=
  match r with
  | O => []
  | S r' => take c l :: reshape r' c (drop c l)
  end.

Fixpoint zip3 (l1 l2 l3 : list string) : list (string * string * string) :=
  match l1, l2, l3 with
  | a :: l1', b :: l2', c :: l3' => (a, b, c) :: zip3 l1' l2' l3'
  | _, _, _ => []
  end.

(** ** The figure *)

(** The [categories] argument: ['auto'], a list of names, or [False]. *)
Inductive ticklabels : Type :=
  | ticks_auto
  | ticks_names (names : list string)
  | ticks_off.

(** What the call draws when every plotting call returns: the
    arguments of [plt.figure] and [sns.heatmap], and the labels set
    afterwards. *)
Record figure : Type := mkFigure {
  fig_figsize : float * float;
  heat_data : ndarray;
  heat_annot : list (list string);
  heat_cmap : string;
  heat_cbar : bool;
  heat_ticklabels : ticklabels;
  fig_ylabel : option string;
  fig_xlabel : string;
  fig_title : option string
}.

(** Lines 44-59: the text of the summary statistics. *)
Definition stats_text (a : ndarray) (sum_stats omit_diagonal : bool)
  : result string :=
  if negb omit_diagonal && sum_stats then
    let accuracy := Z2float (np_trace a) / Z2float (np_sum a) in
    if (nrows a =? 2)%nat then
      c11 ← item a 1 1;
      col1 ← column a 1;
      let precision := true_divide c11 (sum64 col1) in
      c11 ← item a 1 1;
      row1 ← row a 1;
      let recall := true_divide c11 (sum64 row1) in
      let f1_score := 2 * precision * recall / (precision + recall) in
      mret (nl +:+ nl +:+ "Accuracy=" +:+ format_f 0 3 accuracy +:+ nl +:+
            "Precision=" +:+ format_f 0 3 precision +:+ nl +:+
            "Recall=" +:+ format_f 0 3 recall +:+ nl +:+
            "F1 Score=" +:+ format_f 0 3 f1_score)
    else mret (nl +:+ nl +:+ "Accuracy=" +:+ format_f 0 3 accuracy)
  else mret "".

(** Lines 65-86: the text of every box, as a matrix of the shape of
    [a]. *)
Definition box_labels (a : ndarray) (group_names : option (list string))
    (count percent omit_diagonal : bool) : result (list (list string)) :=
  let blanks := replicate (np_size a) "" in
  let group_labels :=
    match group_names with
    | Some (g :: gs) =>
        if (length (g :: gs) =? np_size a)%nat
        then map (fun value => value +:+ nl) (g :: gs)
        else blanks
    | _ => blanks
    end in
  let group_counts :=
    if count
    then map (fun value => format_f 0 0 (Z2float value) +:+ nl) (flatten a)
    else blanks in
  let group_percentages :=
    if percent
    then map (fun value => format_percent 2 (true_divide value (np_sum a))) (flatten a)
    else blanks in
  let labels :=
    map (fun v => strip (v.1.1 +:+ v.1.2 +:+ v.2))
        (zip3 group_labels group_counts group_percentages) in
  let labels := reshape (nrows a) (ncols a) labels in
  if omit_diagonal then
    if (nrows a =? ncols a)%nat
    then mret (imap (fun i r => imap (fun j v => if (i =? j)%nat then "" else v) r) labels)
    else raise (ValueError "All dimensions of input must be of equal length")
  else mret labels.

(** The plotting calls of lines 98-108.  [matplotlib] and [seaborn]
    lie outside the module; each call may raise, as [sns.heatmap] does
    for a colormap it does not know. *)
Class Pyplot : Type := {
  (** [plt.figure(figsize=figsize)] *)
  plt_figure : float * float -> result unit;
  (** [sns.heatmap(data, annot=annot, fmt="", cmap=cmap, cbar=cbar,
      xticklabels=labels, yticklabels=labels)] *)
  sns_heatmap : ndarray -> list (list string) -> string -> bool -> ticklabels
                -> result unit;
  (** [plt.ylabel(text)], [plt.xlabel(text)] and [plt.title(text)] *)
  plt_ylabel : string -> result unit;
  plt_xlabel : string -> result unit;
  plt_title : string -> result unit
}.

(** [draw_confusion_matrix(cf, ...)], with [rc_figsize] the value of
    [plt.rcParams['figure.figsize']].  The figure is the record of the
    plotting calls, all of which have returned. *)
Definition draw_confusion_matrix `{Pyplot} (rc_figsize : float * float) (cf : loc)
    (group_names : option (list string)) (categories : ticklabels)
    (count percent cbar xyticks xyplotlabels sum_stats omit_diagonal : bool)
    (figsize : option (float * float)) (cmap : string) (title : option string)
  : Exec heap figure :=
  a ← load cf;
  stats ← lift (stats_text a sum_stats omit_diagonal);
  (if omit_diagonal
   then a' ← lift (isub_diagflat a); store cf a'
   else mret tt);;
  a ← load cf;
  labels ← lift (box_labels a group_names count percent omit_diagonal);
  let figsize := default rc_figsize figsize in
  let categories := if xyticks then categories else ticks_off in
  lift (plt_figure figsize);;
  lift (sns_heatmap a labels cmap cbar categories);;
  (if xyplotlabels
   then lift (plt_ylabel "True label");;
        lift (plt_xlabel ("Predicted label" +:+ stats))
   else lift (plt_xlabel stats));;
  (match title with
   | Some (String c t) => lift (plt_title (String c t))
   | _ => mret tt
   end);;
  mret (mkFigure figsize a labels cmap cbar categories
          (if xyplotlabels then Some "True label" else None)
          (if xyplotlabels then "Predicted label" +:+ stats else stats)
          (match title with
           | Some (String c t) => Some (String c t)
           | _ => None
           end)).

(* ================================================================== *)
(** * Reading the loop: what one batch contributes *)

(** The metrics of one batch and its flattened labels. *)
Record batch_report : Type := mkReport {
  b_size : Z;
  b_bce : float;
  b_correct : float;
  b_dice : float;
  b_iou : float;
  b_logits : LongTensor;
  b_targets : LongTensor
}.

Section Batches.
Context `{Torch} `{ModelsFunctional}.
Variable model : Model.
Variable dev_ : device.

(** The target as the loop uses it. *)
Definition prepare_target (true_ : Tensor) : Tensor :=
  tensor_float (to dev_ (clamp 0 1 true_)).

(** The per-batch mean of each metric for one pair, with no
    accumulator involved. *)
Definition eval_batch (x true_ : Tensor) : result batch_report :=
  '(x, true_, size) ← as_batch x true_;
  let x := tensor_float (to dev_ x) in
  let true_ := prepare_target true_ in
  out ← forward model x;
  pred ← getitem out "out";
  p ← softmax pred (-3);
  l ← binary_cross_entropy p true_;
  true_argmax ← argmax_dim3 true_;
  pred_argmax ← argmax_dim3 pred;
  a ← eq_float_mean pred_argmax true_argmax;
  c ← size_dim3 pred;
  hot ← one_hot_nd pred_argmax c 2;
  mul ← tensor_mul hot true_;
  add ← tensor_add hot true_;
  d ← _dice_loss mul add 2;
  i ← _iou_loss mul add 2;
  mret (mkReport size l a d i (view_flat pred_argmax) (view_flat true_argmax)).

Definition eval_item (it : result (Tensor * Tensor)) : result batch_report :=
  '(x, true_) ← it; eval_batch x true_.

(** The class labels of the pixels of one pair: of the prepared
    target, and of the output of the model. *)
Definition true_labels (x true_ : Tensor) : result (list Z) :=
  '(_, true_, _) ← as_batch x true_;
  t ← argmax_dim3 (prepare_target true_);
  mret (ldata (view_flat t)).

Definition predicted_labels (x true_ : Tensor) : result (list Z) :=
  '(x, _, _) ← as_batch x true_;
  out ← forward model (tensor_float (to dev_ x));
  pred ← getitem out "out";
  p ← argmax_dim3 pred;
  mret (ldata (view_flat p)).
End Batches.

(** The labels of the pixels of one pair read off the target as the
    dataset yields it. *)
Definition target_labels (x true_ : Tensor) : result (list Z) :=
  '(_, true_, _) ← as_batch x true_;
  t ← argmax_dim3 true_;
  mret (ldata (view_flat t)).

(** What a batch adds to the accumulators. *)
Definition accumulate (s : locals) (r : batch_report) : locals :=
  mkLocals (logits s ++ [b_logits r]) (targets s ++ [b_targets r])
    (total s + b_size r)
    (correct s + b_correct r * Z2float (b_size r))
    (bce s + b_bce r * Z2float (b_size r))
    (dice s + b_dice r * Z2float (b_size r))
    (iou s + b_iou r * Z2float (b_size r)).

(** The sum, in the order of the batches, of each value times the size
    of its batch. *)
Definition weighted_sum (vs : list (float * Z)) : float :=
  fold_left (fun acc vn => acc + vn.1 * Z2float vn.2) vs 0.

(** The number of samples of a run. *)
Definition samples (rs : list batch_report) : Z :=
  foldr Z.add 0%Z (map b_size rs).

(** The batch-size-weighted mean of a metric over the batches. *)
Definition weighted_mean (metric : batch_report -> float)
    (rs : list batch_report) : float :=
  weighted_sum (map (fun r => (metric r, b_size r)) rs) / Z2float (samples rs).

(** The number of positions at which [y_true] holds [i] and [y_pred]
    holds [j]. *)
Definition count_pairs (i j : Z) (y_true y_pred : list Z) : Z :=
  Z.of_nat (length (List.filter (fun tp => (tp.1 =? i)%Z && (tp.2 =? j)%Z)
                      (zip y_true y_pred))).

(** [cm[i, j]]. *)
Definition entry (cm : ndarray) (i j : nat) : option Z :=
  cm !! i ≫= (.!! j).

(** The text of the summary, from the four numbers it shows. *)
Definition summary_text (name : string)
    (cross_entropy dice_coefficient intersection_over_union percent : float)
  : string :=
  "Model Architecture:      " +:+ name +:+ nl +:+
  "Binary Cross Entropy:    " +:+ format_f 7 5 cross_entropy +:+ nl +:+
  "Dice-Coefficient:        " +:+ format_f 7 5 dice_coefficient +:+ nl +:+
  "Intersection over Union: " +:+ format_f 7 5 intersection_over_union +:+ nl +:+
  "Pixel-Wise Accuracy:     " +:+ format_f 7 4 percent +:+ "%".

(** What a run returns, the printed lines left out. *)
Definition returned {A B : Type} (r : result (A * B)) : result B :=
  match r with
  | inl e => inl e
  | inr (_, t) => inr t
  end.

(** A matrix of [n] rows of [n] entries. *)
Definition square_of (n : nat) (cm : ndarray) : Prop :=
  length cm = n /\ Forall (fun r => length r = n) cm.

(** The pair [p] is the cell [(i, j)]. *)
Definition is_cell (i j : nat) (p : nat * nat) : bool :=
  (p.1 =? i)%nat && (p.2 =? j)%nat.

(** The sum of a list of integers, with no bound. *)
Definition total_of (l : list Z) : Z := foldr Z.add 0%Z l.

(** A matrix of counts whose sum fits an [int64]. *)
Definition counts (a : ndarray) : Prop :=
  Forall (Forall (fun v => (0 <= v)%Z)) a /\ (total_of (flatten a) < 2 ^ 63)%Z.

(** The text of the statistics, from the numbers it shows. *)
Definition accuracy_text (accuracy : float) : string :=
  nl +:+ nl +:+ "Accuracy=" +:+ format_f 0 3 accuracy.

Definition binary_text (accuracy precision recall f1_score : float) : string :=
  accuracy_text accuracy +:+ nl +:+
  "Precision=" +:+ format_f 0 3 precision +:+ nl +:+
  "Recall=" +:+ format_f 0 3 recall +:+ nl +:+
  "F1 Score=" +:+ format_f 0 3 f1_score.

(** The statistics the text is to show for a matrix [a]: the accuracy,
    and for a matrix of two rows the precision, the recall and the F1
    score, each a quotient of binary64 numbers. *)
Definition expected_stats (a : ndarray) : string :=
  let accuracy :=
    Z2float (total_of (np_diagonal a)) / Z2float (total_of (flatten a)) in
  if (length a =? 2)%nat then
    let c11 := default 0%Z (entry a 1 1) in
    let precision := Z2float c11 / Z2float (total_of (omap (.!! 1%nat) a)) in
    let recall := Z2float c11 / Z2float (total_of (default [] (a !! 1%nat))) in
    binary_text accuracy precision recall
      (2 * precision * recall / (precision + recall))
  else accuracy_text accuracy.

(** The entries [a[i, k + i]]: the diagonal that starts at column [k]. *)
Definition diagonal_from (k : nat) (a : ndarray) : list Z :=
  omap id (imap (fun i r => r !! (k + i)%nat) a).

(** The matrix [a] with zeros on its diagonal. *)
Definition zero_diagonal (a : ndarray) : ndarray :=
  imap (fun i r => imap (fun j v => if (i =? j)%nat then 0%Z else v) r) a.

(** The plotting calls that make a figure, in the order of lines
    98-108. *)
Definition plot `{Pyplot} (fig : figure) : result unit :=
  plt_figure (fig_figsize fig);;
  sns_heatmap (heat_data fig) (heat_annot fig) (heat_cmap fig) (heat_cbar fig)
    (heat_ticklabels fig);;
  match fig_ylabel fig with Some text => plt_ylabel text | None => mret tt end;;
  plt_xlabel (fig_xlabel fig);;
  match fig_title fig with Some text => plt_title text | None => mret tt end.

(** What a call that gets as far as the plotting calls ends with: the
    figure, or the exception of the first plotting call that raises. *)
Definition drawn `{Pyplot} (fig : figure) : result figure :=
  plot fig;; mret fig.

(** A pair whose input has three dimensions, and the same pair with a
    leading axis of length one on both tensors. *)
Definition three_dim (it : result (Tensor * Tensor)) : Prop :=
  match it with
  | inr (x, _) => ndim x = 3%nat
  | inl _ => True
  end.

Definition unsqueeze_item (it : result (Tensor * Tensor))
  : result (Tensor * Tensor) :=
  match it with
  | inr (x, true_) => inr (unsqueeze0 x, unsqueeze0 true_)
  | inl e => inl e
  end.

Definition unsqueeze_dataset (ds : Dataset) : Dataset :=
  mkDataset (ds_len ds) (map unsqueeze_item (ds_items ds)).

(* ================================================================== *)
(** * Instances for the examples *)

Definition fsum (l : list float) : float := fold_left PrimFloat.add l 0.
Definition fmean (l : list float) : float :=
  fsum l / Z2float (Z.of_nat (length l)).

(** Kernels for the examples, in binary64: the soft-max is left out
    (the model of the examples returns probabilities) and the mean
    absolute error stands for the cross-entropy. *)
Definition example_torch : Torch := {|
  softmax t _ := mret t;
  binary_cross_entropy p t :=
    if (length (data p) =? length (data t))%nat
    then mret (fmean (zip_with (fun a b => abs (a - b)) (data p) (data t)))
    else raise (ValueError "Using a target size that is different to the input size");
  eq_float_mean a b :=
    mret (fmean (zip_with (fun u v => if (u =? v)%Z then 1 else 0) (ldata a) (ldata b)));
  tensor_mul a b :=
    mret (mkTensor (shape a) (zip_with PrimFloat.mul (data a) (data b)) (dev a));
  tensor_add a b :=
    mret (mkTensor (shape a) (zip_with PrimFloat.add (data a) (data b)) (dev a))
|}.

Definition one_hot_sample (c : nat) (labels : list Z) : list float :=
  flat_map (fun k => map (fun l => if (l =? Z.of_nat k)%Z then 1 else 0) labels)
    (seq 0 c).

(** Helpers for the examples: the one-hot encoding, and the two losses
    as one minus the smoothed overlap ratio. *)
Definition example_functional : ModelsFunctional := {|
  one_hot_nd l c nd :=
    let pixels := product (drop 1 (lshape l)) in
    mret (mkTensor (take 1 (lshape l) ++ c :: drop 1 (lshape l))
            (flat_map (one_hot_sample c)
               (reshape (nth 0 (lshape l) 0%nat) pixels (ldata l)))
            (ldev l));
  _dice_loss mul add nd :=
    mret (1 - (2 * fsum (data mul) + 1) / (fsum (data add) + 1));
  _iou_loss mul add nd :=
    mret (1 - (fsum (data mul) + 1) / (fsum (data add) - fsum (data mul) + 1))
|}.

(** A model of two classes: the score of class 0 is the input, that of
    class 1 is one half. *)
Definition example_forward (x : Tensor) : result (gmap string Tensor) :=
  match shape x with
  | [n; _; h; w] =>
      mret {[ "out" := mkTensor [n; 2; h; w]%nat
                         (flat_map (fun px => px ++ map (fun _ => 0.5) px)
                            (reshape n (h * w) (data x)))
                         (dev x) ]}
  | _ => raise (RuntimeError "Expected 4-dimensional input")
  end.

Definition example_model : Model :=
  mkModel "UNet" (fun _ => mret tt) example_forward.

(** A model whose forward pass fails. *)
Definition failing_model : Model :=
  mkModel "UNet" (fun _ => mret tt)
    (fun _ => raise (RuntimeError "CUDA out of memory")).

(** No progress bar is installed, no GPU. *)
Definition example_env : environment :=
  mkEnv (inl (ImportError "No module named 'tqdm'")) (inr tt) false.

(** A batch of two samples of two pixels, and one sample on its own. *)
Definition batch_x : Tensor := mkTensor [2; 1; 1; 2]%nat [0.75; 0.25; 1; 0] cpu.
Definition batch_true : Tensor :=
  mkTensor [2; 2; 1; 2]%nat [1; 0; 0; 1; 0; 0; 1; 1] cpu.
Definition single_x : Tensor := mkTensor [1; 1; 2]%nat [0.25; 0.75] cpu.
Definition single_true : Tensor := mkTensor [2; 1; 2]%nat [0; 1; 1; 0] cpu.

Definition example_dataset : Dataset :=
  mkDataset (inr 2%Z) [inr (batch_x, batch_true); inr (single_x, single_true)].

(** A dataset of samples on their own. *)
Definition single_dataset : Dataset :=
  mkDataset (inr 2%Z) [inr (single_x, single_true); inr (single_x, single_true)].

(** An image with no channel axis. *)
Definition flat_x : Tensor := mkTensor [1; 2]%nat [0.25; 0.75] cpu.

(** Plotting libraries that refuse a figure without a size and a
    colormap they do not know. *)
Definition known_cmaps : list string :=
  ["Blues"; "Greens"; "Reds"; "Greys"; "viridis"; "magma"; "coolwarm"].

Definition example_pyplot : Pyplot := {|
  plt_figure size :=
    if PrimFloat.ltb 0 size.1 && PrimFloat.ltb 0 size.2 then mret tt
    else raise (ValueError "figure size must be positive finite");
  sns_heatmap data annot cmap cbar labels :=
    if existsb (String.eqb cmap) known_cmaps then mret tt
    else raise (ValueError "not a valid value for cmap");
  plt_ylabel text := mret tt;
  plt_xlabel text := mret tt;
  plt_title text := mret tt
|}.

(** A dataset of three items read through [__getitem__], the second
    of which raises [IndexError]. *)
Definition short_dataset : Dataset :=
  mkDataset (inr 3%Z)
    (sequence_iterator
       [inr (batch_x, batch_true);
        inl (IndexError "index 1 is out of bounds");
        inr (single_x, single_true)]).

Definition flat_dataset : Dataset :=
  mkDataset (inr 2%Z) [inr (batch_x, batch_true); inr (flat_x, single_true)].

(** A target of one pixel whose two class scores lie above one. *)
Definition pixel_x : Tensor := mkTensor [1; 1; 1; 1]%nat [0.75] cpu.
Definition pixel_true : Tensor := mkTensor [1; 2; 1; 1]%nat [2; 3] cpu.

Definition pixel_dataset : Dataset :=
  mkDataset (inr 1%Z) [inr (pixel_x, pixel_true)].

(** A confusion matrix of two classes in the caller's heap. *)
Definition binary_cf : ndarray := [[5; 1]; [2; 8]]%Z.
Definition example_heap : heap := {[ 1%positive := binary_cf ]}.

(* ================================================================== *)
(** * Further notions for the properties of the two functions *)

(** Every row of [a] has the length of the first. *)
Definition rectangular (a : ndarray) : Prop :=
  Forall (fun r => length r = ncols a) a.

(** The same for a matrix of texts. *)
Definition shape_of {A : Type} (r c : nat) (m : list (list A)) : Prop :=
  length m = r /\ Forall (fun row => length row = c) m.

(** Both labels of a sample are among [0 .. 5]. *)
Definition both_known (tp : Z * Z) : bool :=
  ((0 <=? tp.1) && (tp.1 <? 6) && (0 <=? tp.2) && (tp.2 <? 6))%Z.

(** The size of a batch converts to a float. *)
Definition finite_size (n : Z) : Prop := is_infinity (Z2float n) = false.

(** The statistics text of a matrix with no observation. *)
Definition nan_text (rows : nat) : string :=
  if (rows =? 2)%nat
  then nl +:+ nl +:+ "Accuracy=nan" +:+ nl +:+ "Precision=nan" +:+ nl +:+
       "Recall=nan" +:+ nl +:+ "F1 Score=nan"
  else nl +:+ nl +:+ "Accuracy=nan".

(** A model whose output dictionary has no entry ["out"]. *)
Definition aux_only_model : Model :=
  mkModel "UNet" (fun _ => mret tt)
    (fun x => mret {[ "aux" := x ]}).

(** An environment with the progress bar, and a dataset that has no
    length, as a generator has none. *)
Definition notebook_env : environment := mkEnv (inr tt) (inr tt) false.

Definition generator_dataset : Dataset :=
  mkDataset (inl (TypeError "object of type 'generator' has no len()"))
    (ds_items example_dataset).

(** A dataset whose length cannot be taken for another reason. *)
Definition broken_dataset : Dataset :=
  mkDataset (inl (RuntimeError "connection lost")) (ds_items example_dataset).

(** A matrix of one row, and one that is not square and has several
    rows and columns. *)
Definition row_cf : ndarray := [[5; 2; 3]]%Z.
Definition wide_cf : ndarray := [[5; 2; 3]; [1; 4; 6]]%Z.

(** A heap with a second array beside the confusion matrix. *)
Definition two_heap : heap :=
  {[ 1%positive := binary_cf; 2%positive := row_cf ]}.

(* ================================================================== *)
(** * Evaluations *)

Example format_f_pads : format_f 7 5 0.75 = "0.75000" /\ format_f 7 4 100 = "100.0000".
Proof. split; reflexivity. Qed.

Example format_f_ties_to_even :
  format_f 0 3 0.8125 = "0.812" /\ format_f 0 0 2.5 = "2" /\ format_f 0 0 3.5 = "4".
Proof. repeat split; reflexivity. Qed.

Example format_f_not_finite :
  format_f 0 3 (0 / 0) = "nan" /\ format_f 7 5 (-1 / 0) = "   -inf".
Proof. split; reflexivity. Qed.

Example format_percent_quarter : format_percent 2 0.3125 = "31.25%".
Proof. reflexivity. Qed.

Example Z2float_rounds : Z2float (2 ^ 53 + 1) = 9007199254740992.
Proof. reflexivity. Qed.

Example round_binary32_rounds :
  round_binary32 16777217 = 16777216 /\ round_binary32 0.75 = 0.75.
Proof. split; reflexivity. Qed.

Example wrap64_wraps : wrap64 (2 ^ 63) = (- 2 ^ 63)%Z /\ wrap64 (-1) = (-1)%Z.
Proof. split; reflexivity. Qed.

Example clamp_target :
  data (clamp 0 1 pixel_true) = [1; 1] /\ data (clamp 0 1 batch_true) = data batch_true.
Proof. split; reflexivity. Qed.

Example argmax_first_of_equals :
  argmax_list [1; 1] = 0%Z /\ argmax_list [2; 3] = 1%Z /\ argmax_list [0.5; 2; 2] = 1%Z.
Proof. repeat split; reflexivity. Qed.

Example argmax_dim3_batch :
  argmax_dim3 batch_true = inr (mkLong [2; 1; 2]%nat [0; 1; 1; 1]%Z cpu).
Proof. reflexivity. Qed.

Example argmax_dim3_two_dims :
  argmax_dim3 flat_x
  = raise (IndexError "Dimension out of range (expected to be in range of [-2, 1], but got -3)").
Proof. reflexivity. Qed.

Example confusion_matrix_drops_unknown_labels :
  confusion_matrix [0; 1; 1; 7; 2]%Z [0; 1; 2; 1; 9]%Z (range 3)
  = inr [[1; 0; 0]; [0; 1; 1]; [0; 0; 0]]%Z.
Proof. vm_compute. reflexivity. Qed.

Example confusion_matrix_lengths :
  confusion_matrix [0; 1]%Z [0]%Z (range 6)
  = raise (ValueError "Found input variables with inconsistent numbers of samples").
Proof. reflexivity. Qed.

Example all_together_example :
  @all_together example_torch example_functional
    example_env example_model example_dataset None true
  = inr (["Model Architecture:      UNet" +:+ nl +:+
          "Binary Cross Entropy:    0.41667" +:+ nl +:+
          "Dice-Coefficient:        0.85185" +:+ nl +:+
          "Intersection over Union: 0.77778" +:+ nl +:+
          "Pixel-Wise Accuracy:     83.3333%"],
         (1.25 / 3, (0 + (1 - 7 / 9) * 2 + 0 * 1) / 3,
          (0 + (1 - 4 / 6) * 2 + 0 * 1) / 3, 2.5 / 3,
          [[2; 0; 0; 0; 0; 0]; [1; 3; 0; 0; 0; 0]; [0; 0; 0; 0; 0; 0];
           [0; 0; 0; 0; 0; 0]; [0; 0; 0; 0; 0; 0]; [0; 0; 0; 0; 0; 0]]%Z)).
Proof. vm_compute. reflexivity. Qed.

Example all_together_empty_dataset :
  @all_together example_torch example_functional
    example_env example_model (mkDataset (inr 0%Z) []) None true
  = raise (RuntimeError "torch.cat(): expected a non-empty list of Tensors").
Proof. reflexivity. Qed.

Example all_together_empty_batch :
  @all_together example_torch example_functional
    example_env example_model
    (mkDataset (inr 1%Z) [inr (mkTensor [0; 1; 1; 2]%nat [] cpu,
                               mkTensor [0; 2; 1; 2]%nat [] cpu)])
    None true
  = raise (ZeroDivisionError "float division by zero").
Proof. vm_compute. reflexivity. Qed.

Example stats_text_binary :
  stats_text binary_cf true false
  = inr (nl +:+ nl +:+ "Accuracy=0.812" +:+ nl +:+ "Precision=0.889" +:+ nl +:+
         "Recall=0.800" +:+ nl +:+ "F1 Score=0.842").
Proof. vm_compute. reflexivity. Qed.

Example box_labels_binary :
  box_labels binary_cf None true true false
  = inr [["5" +:+ nl +:+ "31.25%"; "1" +:+ nl +:+ "6.25%"];
         ["2" +:+ nl +:+ "12.50%"; "8" +:+ nl +:+ "50.00%"]].
Proof. vm_compute. reflexivity. Qed.

Example isub_diagflat_row :
  isub_diagflat [[5; 2; 3]]%Z = inr [[0; -3; -2]]%Z /\
  isub_diagflat [[5; 2; 3]; [1; 4; 6]]%Z
  = raise (ValueError "operands could not be broadcast together").
Proof. split; reflexivity. Qed.

Example iteration_ends_at_index_error :
  ds_next short_dataset
  = [inr (batch_x, batch_true); inl (StopIteration ""); inr (single_x, single_true)] /\
  ds_items short_dataset = [inr (batch_x, batch_true)].
Proof. split; reflexivity. Qed.

Example all_together_short_dataset :
  returned (@all_together example_torch example_functional
              example_env example_model short_dataset None false)
  = returned (@all_together example_torch example_functional
                example_env example_model
                (mkDataset (inr 1%Z) [inr (batch_x, batch_true)]) None false).
Proof. vm_compute. reflexivity. Qed.

Example draw_unknown_colormap :
  @draw_confusion_matrix example_pyplot (6.5, 4.75) 1%positive None ticks_auto
    true true true true true true true None "NoSuchMap" None example_heap
  = (<[1%positive := [[0; 1]; [2; 0]]%Z]> example_heap,
     raise (ValueError "not a valid value for cmap")).
Proof. vm_compute. reflexivity. Qed.

(* ================================================================== *)
(** * Lemmas on the monads *)

Lemma exec_bind_lift {S A B : Type} (r : result A) (k : A -> Exec S B) (s : S) :
  (lift r ≫= k) s = match r with inl e => (s, inl e) | inr a => k a s end.
Proof. unfold mbind, exec_bind, lift. by destruct r. Qed.

Lemma exec_bind_modify {S B : Type} (f : S -> S) (k : unit -> Exec S B) (s : S) :
  (modify f ≫= k) s = k tt (f s).
Proof. reflexivity. Qed.

Lemma result_bind_inr {A B : Type} (a : A) (k : A -> result B) :
  (inr a ≫= k) = k a.
Proof. reflexivity. Qed.

Lemma result_bind_inl {A B : Type} (e : exception) (k : A -> result B) :
  (@inl exception A e ≫= k) = inl e.
Proof. reflexivity. Qed.

Lemma result_bind_raise {A B : Type} (e : exception) (k : A -> result B) :
  (@raise A e ≫= k) = raise e.
Proof. reflexivity. Qed.

Lemma float_mul_int_inr (f : float) (n : Z) (v : float) :
  float_mul_int f n = inr v -> v = f * Z2float n.
Proof.
  unfold float_mul_int, float_of_int.
  destruct (is_infinity (Z2float n)); [discriminate|].
  intros [= <-]. reflexivity.
Qed.

Lemma float_truediv_int_inr (f : float) (n : Z) (v : float) :
  float_truediv_int f n = inr v -> v = f / Z2float n /\ n <> 0%Z.
Proof.
  unfold float_truediv_int, float_of_int, mbind, result_bind, mret, result_ret.
  destruct (is_infinity (Z2float n)); [discriminate|].
  destruct (Z.eqb_spec n 0); [discriminate|].
  intros [= <-]. done.
Qed.

(** One step of [Exec]: a lifted call either raises, which ends the
    goal, or returns. *)
Ltac exec_lift :=
  rewrite exec_bind_lift;
  lazymatch goal with
  | |- context [match ?r with inl _ => _ | inr _ => _ end] =>
      let E := fresh "E" in destruct r eqn:E; [try discriminate|]
  end.

(** The three statements of an update [acc += value * size]. *)
Ltac exec_weight :=
  exec_lift;
  lazymatch goal with
  | E : float_mul_int _ _ = inr _ |- _ => apply float_mul_int_inr in E; subst
  end;
  rewrite exec_bind_modify.

(** One step of [result] in a hypothesis-to-be: the call raises, which
    ends the goal, or returns. *)
Ltac result_step :=
  lazymatch goal with
  | |- (?m ≫= _) = _ -> _ =>
      let E := fresh "E" in
      destruct m eqn:E; [rewrite result_bind_inl; discriminate | rewrite result_bind_inr]
  end.

(* ================================================================== *)
(** * Iteration *)

Lemma iterate_no_stop {A : Type} (outcomes : list (result A)) :
  Forall (fun outcome => stops outcome = false) (iterate outcomes).
Proof.
  induction outcomes as [|r rest IH]; [constructor|]. simpl.
  destruct (stops r) eqn:Hr; [constructor | by constructor].
Qed.

Lemma iterate_id {A : Type} (outcomes : list (result A)) :
  Forall (fun outcome => stops outcome = false) outcomes ->
  iterate outcomes = outcomes.
Proof. induction 1 as [|r rest Hr _ IH]; [done|]. simpl. by rewrite Hr, IH. Qed.

Lemma iterate_idemp {A : Type} (outcomes : list (result A)) :
  iterate (iterate outcomes) = iterate outcomes.
Proof. apply iterate_id, iterate_no_stop. Qed.

(** The iteration goes through outcomes that are not its end, and ends
    at the first that is. *)
Lemma iterate_app {A : Type} (pre rest : list (result A)) :
  Forall (fun outcome => stops outcome = false) pre ->
  iterate (pre ++ rest) = pre ++ iterate rest.
Proof. induction 1 as [|r pre Hr _ IH]; [done|]. simpl. by rewrite Hr, IH. Qed.

Lemma ds_items_no_stop (ds : Dataset) :
  Forall (fun item => stops item = false) (ds_items ds).
Proof. apply iterate_no_stop. Qed.

Lemma iterate_ds_items (ds : Dataset) : iterate (ds_items ds) = ds_items ds.
Proof. apply iterate_idemp. Qed.

(** An outcome of [__getitem__] ends the iteration of the sequence
    iterator exactly when it is an [IndexError] or a [StopIteration]. *)
Lemma sequence_next_stops {A : Type} (outcome : result A) :
  stops (sequence_next outcome) = true <->
  exists msg, outcome = inl (IndexError msg) \/ outcome = inl (StopIteration msg).
Proof.
  split.
  - destruct outcome as [[]|a]; try discriminate; intros _; eauto.
  - by intros [msg [->| ->]].
Qed.

(* ================================================================== *)
(** * The loop, batch by batch *)

Section Loop.
Context `{Torch} `{ModelsFunctional}.
Variable model : Model.
Variable dev_ : device.

(** A pass of the body that does not raise adds the report of its
    batch to the accumulators. *)
Lemma loop_body_inr (x true_ : Tensor) (s s' : locals) :
  loop_body model dev_ x true_ s = (s', inr tt) ->
  exists r, eval_batch model dev_ x true_ = inr r /\ s' = accumulate s r.
Proof.
  unfold loop_body, eval_batch, prepare_target.
  rewrite exec_bind_lift.
  destruct (as_batch x true_) as [e|[[x' t'] size]]; [discriminate|].
  rewrite result_bind_inr. cbv beta iota zeta.
  do 4 (exec_lift; rewrite result_bind_inr).
  exec_weight.
  do 2 (exec_lift; rewrite result_bind_inr).
  rewrite !exec_bind_modify.
  exec_lift; rewrite result_bind_inr.
  exec_weight.
  do 5 (exec_lift; rewrite result_bind_inr).
  exec_weight.
  exec_lift; rewrite result_bind_inr.
  exec_weight.
  intros [= <-]. eexists; split; reflexivity.
Qed.

Lemma for_loop_cons (item : result (Tensor * Tensor)) rest (s : locals) :
  for_loop model dev_ (item :: rest) s =
  match item with
  | inl e => if stops item then (s, inr tt) else (s, inl e)
  | inr (x, true_) =>
      match loop_body model dev_ x true_ s with
      | (s', inl e) => (s', inl e)
      | (s', inr _) => for_loop model dev_ rest s'
      end
  end.
Proof.
  cbn [for_loop]. destruct item as [e|[x t]].
  - destruct (stops _); [done|]. by rewrite exec_bind_lift.
  - cbn [stops]. rewrite exec_bind_lift.
    unfold mbind at 1, exec_bind.
    by destruct (loop_body model dev_ x t s) as [s' [e|[]]].
Qed.

(** The loop goes no further than the end of the iteration. *)
Lemma for_loop_iterate (items : list (result (Tensor * Tensor))) (s : locals) :
  for_loop model dev_ (iterate items) s = for_loop model dev_ items s.
Proof.
  revert s. induction items as [|item rest IH]; intros s; [done|].
  cbn [iterate]. destruct (stops item) eqn:Hstop.
  - rewrite for_loop_cons. destruct item as [e|p]; [|done]. by rewrite Hstop.
  - rewrite !for_loop_cons. destruct item as [e|[x t]]; [done|].
    destruct (loop_body model dev_ x t s) as [s' [e|[]]]; [done|]. apply IH.
Qed.

(** A loop that ends without raising has folded [accumulate] over the
    reports of its items. *)
Lemma for_loop_inr (items : list (result (Tensor * Tensor))) (s s' : locals) :
  for_loop model dev_ items s = (s', inr tt) ->
  exists rs,
    Forall2 (fun it r => eval_item model dev_ it = inr r) (iterate items) rs /\
    s' = foldl accumulate s rs.
Proof.
  revert s. induction items as [|item rest IH]; intros s.
  - intros [= <-]. exists []. split; [constructor | reflexivity].
  - rewrite for_loop_cons. cbn [iterate]. destruct item as [e|[x t]].
    { destruct (stops _); [|discriminate].
      intros [= <-]. exists []. split; [constructor | reflexivity]. }
    cbn [stops].
    destruct (loop_body model dev_ x t s) as [s1 [e|[]]] eqn:Hbody; [discriminate|].
    intros Hrest.
    destruct (loop_body_inr _ _ _ _ Hbody) as (r & Hr & ->).
    destruct (IH _ Hrest) as (rs & Hrs & ->).
    exists (r :: rs). split; [|reflexivity].
    constructor; [|done]. unfold eval_item. by rewrite result_bind_inr.
Qed.

(** The loop over a prefix that does not raise and does not end the
    iteration, followed by more items, goes on from the state the
    prefix leaves. *)
Lemma for_loop_app (pre post : list (result (Tensor * Tensor))) (s s' : locals) :
  Forall (fun item => stops item = false) pre ->
  for_loop model dev_ pre s = (s', inr tt) ->
  for_loop model dev_ (pre ++ post) s = for_loop model dev_ post s'.
Proof.
  intros Hpre. revert s. induction Hpre as [|item pre Hitem _ IH]; intros s.
  - by intros [= <-].
  - rewrite <- app_comm_cons, !for_loop_cons.
    destruct item as [e|[x t]]; [rewrite Hitem; discriminate|].
    destruct (loop_body model dev_ x t s) as [s1 [e|[]]]; [discriminate|].
    apply IH.
Qed.
End Loop.

(** ** The accumulators after a fold *)

Lemma foldl_accumulate_logits (rs : list batch_report) (s : locals) :
  logits (foldl accumulate s rs) = logits s ++ map b_logits rs.
Proof.
  revert s. induction rs as [|r rs IH]; intros s; simpl.
  - by rewrite app_nil_r.
  - rewrite IH. simpl. by rewrite <- app_assoc.
Qed.

Lemma foldl_accumulate_targets (rs : list batch_report) (s : locals) :
  targets (foldl accumulate s rs) = targets s ++ map b_targets rs.
Proof.
  revert s. induction rs as [|r rs IH]; intros s; simpl.
  - by rewrite app_nil_r.
  - rewrite IH. simpl. by rewrite <- app_assoc.
Qed.

Lemma foldl_accumulate_total (rs : list batch_report) (s : locals) :
  total (foldl accumulate s rs) = (total s + samples rs)%Z.
Proof.
  revert s. induction rs as [|r rs IH]; intros s; simpl.
  - unfold samples. simpl. lia.
  - rewrite IH. unfold samples. simpl. lia.
Qed.

(** Each float accumulator is the running sum of the weighted values
    of its metric, from its initial value. *)
Lemma foldl_accumulate_metric
    (field : locals -> float) (metric : batch_report -> float) :
  (forall s r, field (accumulate s r) = field s + metric r * Z2float (b_size r)) ->
  forall rs s,
    field (foldl accumulate s rs) =
    fold_left (fun acc vn => acc + vn.1 * Z2float vn.2)
      (map (fun r => (metric r, b_size r)) rs) (field s).
Proof.
  intros Hstep rs. induction rs as [|r rs IH]; intros s; simpl; [done|].
  by rewrite IH, Hstep.
Qed.

(* ================================================================== *)
(** * The confusion matrix *)

Lemma zeros_square (n : nat) : square_of n (zeros n n).
Proof.
  split; [apply length_replicate|].
  apply Forall_replicate, length_replicate.
Qed.

Lemma cm_incr_square (n i j : nat) (cm : ndarray) :
  square_of n cm -> square_of n (cm_incr i j cm).
Proof.
  intros [Hlen Hrows]. split; unfold cm_incr.
  - by rewrite length_alter.
  - apply Forall_alter; [done|]. intros r _ Hr. by rewrite length_alter.
Qed.

Lemma fold_incr_square (n : nat) (ps : list (nat * nat)) (cm : ndarray) :
  square_of n cm ->
  square_of n (fold_left (fun cm ij => cm_incr ij.1 ij.2 cm) ps cm).
Proof.
  revert cm. induction ps as [|p ps IH]; intros cm Hcm; simpl; [done|].
  apply IH. by apply cm_incr_square.
Qed.

(** The matrix has one row and one column per label. *)
Lemma confusion_matrix_square (y_true y_pred labels : list Z) (cm : ndarray) :
  confusion_matrix y_true y_pred labels = inr cm ->
  square_of (length labels) cm.
Proof.
  unfold confusion_matrix.
  destruct (negb _); [discriminate|].
  destruct (length labels =? 0)%nat; [discriminate|].
  destruct (length y_true =? 0)%nat; [intros [= <-]; apply zeros_square|].
  destruct (forallb _ _); [discriminate|].
  intros [= <-]. apply fold_incr_square, zeros_square.
Qed.

Lemma entry_zeros (n i j : nat) :
  (i < n)%nat -> (j < n)%nat -> entry (zeros n n) i j = Some 0%Z.
Proof.
  intros Hi Hj. unfold entry, zeros.
  rewrite lookup_replicate_2 by done. simpl.
  by rewrite lookup_replicate_2.
Qed.

Lemma entry_cm_incr (a b i j : nat) (cm : ndarray) :
  entry (cm_incr a b cm) i j =
  (if is_cell i j (a, b) then Z.succ else id) <$> entry cm i j.
Proof.
  unfold entry, cm_incr, is_cell. simpl.
  destruct (Nat.eqb_spec a i) as [->|Hai]; simpl.
  - rewrite list_lookup_alter_eq. destruct (cm !! i) as [r|]; simpl; [|done].
    destruct (Nat.eqb_spec b j) as [->|Hbj].
    + by rewrite list_lookup_alter_eq.
    + rewrite list_lookup_alter_ne by done. by destruct (r !! j).
  - rewrite list_lookup_alter_ne by done.
    by destruct (cm !! i ≫= (.!! j)).
Qed.

(** Folding the increments adds to a cell the number of its
    occurrences among the pairs. *)
Lemma entry_fold_incr (ps : list (nat * nat)) (cm : ndarray) (i j : nat) :
  entry (fold_left (fun cm ij => cm_incr ij.1 ij.2 cm) ps cm) i j =
  (fun v => (v + Z.of_nat (length (List.filter (is_cell i j) ps)))%Z) <$> entry cm i j.
Proof.
  revert cm. induction ps as [|[a b] ps IH]; intros cm; simpl.
  - destruct (entry cm i j); simpl; [f_equal; lia | done].
  - rewrite IH, entry_cm_incr.
    destruct (is_cell i j (a, b)), (entry cm i j); simpl; try done; f_equal; lia.
Qed.

(** The dictionary of [range(6)] sends a label among [0 .. 5] to
    itself and knows no other. *)
Lemma label_to_ind_range6 (y : Z) :
  label_to_ind (range 6) !! y =
  if decide (0 <= y < 6)%Z then Some (Z.to_nat y) else None.
Proof.
  replace (label_to_ind (range 6)) with
    (<[5%Z := 5%nat]> (<[4%Z := 4%nat]> (<[3%Z := 3%nat]>
      (<[2%Z := 2%nat]> (<[1%Z := 1%nat]> (<[0%Z := 0%nat]> (∅ : gmap Z nat)))))))
    by reflexivity.
  rewrite !lookup_insert, lookup_empty.
  repeat case_decide; subst; try reflexivity; lia.
Qed.

(** Among the known pairs, cell [(i, j)] occurs as often as the pair
    of labels [(i, j)] among the samples. *)
Lemma known_pairs_count (i j : nat) (y_true y_pred : list Z) :
  (i < 6)%nat -> (j < 6)%nat ->
  Z.of_nat (length (List.filter (is_cell i j)
                      (known_pairs (label_to_ind (range 6)) y_true y_pred))) =
  count_pairs (Z.of_nat i) (Z.of_nat j) y_true y_pred.
Proof.
  intros Hi Hj. unfold count_pairs, known_pairs. f_equal.
  induction (zip y_true y_pred) as [|[t p] l IH]; [done|].
  cbn [omap list_omap List.filter fst snd].
  rewrite !label_to_ind_range6.
  destruct (Z.eqb_spec t (Z.of_nat i)) as [->|Ht],
           (Z.eqb_spec p (Z.of_nat j)) as [->|Hp];
    cbn [andb]; repeat case_decide; try lia;
    rewrite ?Nat2Z.id; cbn [List.filter]; try exact IH;
    unfold is_cell at 1; cbn [fst snd];
    repeat match goal with
           | |- context [Nat.eqb ?a ?b] => destruct (Nat.eqb_spec a b)
           end;
    cbn [andb length]; try lia; by rewrite ?IH.
Qed.

(** Entry [(i, j)] of the matrix over [range(6)] counts the positions
    whose true label is [i] and whose predicted label is [j]. *)
Lemma confusion_matrix_entry (y_true y_pred : list Z) (cm : ndarray) (i j : nat) :
  confusion_matrix y_true y_pred (range 6) = inr cm ->
  (i < 6)%nat -> (j < 6)%nat ->
  entry cm i j = Some (count_pairs (Z.of_nat i) (Z.of_nat j) y_true y_pred).
Proof.
  intros Hcm Hi Hj. unfold confusion_matrix in Hcm.
  destruct (negb _); [discriminate|].
  change (length (range 6)) with 6%nat in Hcm. cbn [Nat.eqb] in Hcm.
  destruct (Nat.eqb_spec (length y_true) 0) as [Hlen|_].
  - injection Hcm as <-. rewrite entry_zeros by done.
    apply length_zero_iff_nil in Hlen. by subst.
  - destruct (forallb _ _); [discriminate|]. injection Hcm as <-.
    rewrite entry_fold_incr, entry_zeros by done. simpl.
    by rewrite known_pairs_count.
Qed.

(* ================================================================== *)
(** * What a run that returns has computed *)

Lemma summary_eq (model : Model) (bce dice iou correct : float) :
  summary model bce dice iou correct =
  inr (summary_text (class_name model) bce (1 - dice) (1 - iou) (correct * 100)).
Proof. reflexivity. Qed.

Lemma make_iterator_inr (env : environment) (ds : Dataset) it :
  make_iterator env ds = inr it -> it = ds_items ds.
Proof.
  unfold make_iterator.
  destruct (_ ;; _) as [e|?]; [destruct (caught e)|]; by intros [= <-].
Qed.

(** The iterator yields nothing that ends the iteration. *)
Lemma make_iterator_prefix (env : environment) (ds : Dataset)
    (pre rest : list (result (Tensor * Tensor))) :
  make_iterator env ds = inr (pre ++ rest) ->
  Forall (fun item => stops item = false) pre.
Proof.
  intros Hit. apply make_iterator_inr in Hit.
  pose proof (ds_items_no_stop ds) as Hall. rewrite <- Hit in Hall.
  by apply Forall_app in Hall as [? _].
Qed.

Lemma torch_cat_inr (ts : list LongTensor) (t : LongTensor) :
  torch_cat ts = inr t -> numpy t = concat (map ldata ts) /\ ts <> [].
Proof. destruct ts; [discriminate|]. by intros [= <-]. Qed.

Section Returns.
Context `{Torch} `{ModelsFunctional}.

(** The shape of every result of [finish]: the four quotients, the
    matrix of the concatenated labels and the summary. *)
Lemma finish_inr (model : Model) (verbose : bool) (s : locals)
    out (bce_ dice_ iou_ correct_ : float) (cm : ndarray) :
  finish model verbose s = inr (out, (bce_, dice_, iou_, correct_, cm)) ->
  total s <> 0%Z /\
  correct_ = correct s / Z2float (total s) /\
  bce_ = bce s / Z2float (total s) /\
  dice_ = dice s / Z2float (total s) /\
  iou_ = iou s / Z2float (total s) /\
  confusion_matrix (concat (map ldata (targets s)))
    (concat (map ldata (logits s))) (range 6) = inr cm /\
  out = (if verbose
         then [summary_text (class_name model) bce_ (1 - dice_) (1 - iou_)
                 (correct_ * 100)]
         else []).
Proof.
  unfold finish.
  destruct (torch_cat (logits s)) as [e|lg] eqn:Hlg; [discriminate|].
  destruct (torch_cat (targets s)) as [e|tg] eqn:Htg; [discriminate|].
  rewrite !result_bind_inr.
  apply torch_cat_inr in Hlg as [-> _]. apply torch_cat_inr in Htg as [-> _].
  destruct (confusion_matrix _ _ _) as [e|cm'] eqn:Hcm; [discriminate|].
  rewrite result_bind_inr.
  destruct (float_truediv_int (correct s) _) as [e|c] eqn:Hc; [discriminate|].
  destruct (float_truediv_int (bce s) _) as [e|b] eqn:Hb; [discriminate|].
  destruct (float_truediv_int (dice s) _) as [e|d] eqn:Hd; [discriminate|].
  destruct (float_truediv_int (iou s) _) as [e|i] eqn:Hi; [discriminate|].
  rewrite !result_bind_inr.
  apply float_truediv_int_inr in Hc as [-> Hne], Hb as [-> _], Hd as [-> _], Hi as [-> _].
  destruct verbose; cbv beta iota; rewrite ?summary_eq;
    unfold mbind, result_bind, mret, result_ret;
    intros [= <- <- <- <- <- <-]; done.
Qed.

(** A run that returns has evaluated every item of the dataset; its
    scalars are the weighted means of the reports and its matrix that
    of their concatenated labels. *)
Lemma all_together_inr (env : environment) (model : Model) (ds : Dataset)
    (device_ : option device) (verbose : bool)
    out (bce_ dice_ iou_ correct_ : float) (cm : ndarray) :
  all_together env model ds device_ verbose
    = inr (out, (bce_, dice_, iou_, correct_, cm)) ->
  exists rs,
    Forall2 (fun it r => eval_item model (resolve_device env device_) it = inr r)
      (ds_items ds) rs /\
    samples rs <> 0%Z /\
    bce_ = weighted_mean b_bce rs /\
    dice_ = weighted_mean b_dice rs /\
    iou_ = weighted_mean b_iou rs /\
    correct_ = weighted_mean b_correct rs /\
    confusion_matrix (concat (map (fun r => ldata (b_targets r)) rs))
      (concat (map (fun r => ldata (b_logits r)) rs)) (range 6) = inr cm /\
    out = (if verbose
           then [summary_text (class_name model) bce_ (1 - dice_) (1 - iou_)
                   (correct_ * 100)]
           else []).
Proof.
  unfold all_together.
  destruct (make_iterator env ds) as [e|it] eqn:Hit; [discriminate|].
  apply make_iterator_inr in Hit as ->. rewrite result_bind_inr.
  destruct (eval_to model _) as [e|[]]; [discriminate|].
  rewrite result_bind_inr.
  destruct (for_loop _ _ _ _) as [s [e|[]]] eqn:Hloop; [discriminate|].
  intros Hfin.
  apply for_loop_inr in Hloop as (rs & Hrs & ->). rewrite iterate_ds_items in Hrs.
  apply finish_inr in Hfin as (Hne & -> & -> & -> & -> & Hcm & ->).
  rewrite foldl_accumulate_total in Hne. simpl in Hne.
  rewrite foldl_accumulate_targets, foldl_accumulate_logits in Hcm.
  simpl in Hcm. rewrite !map_map in Hcm.
  exists rs. rewrite foldl_accumulate_total. simpl.
  unfold weighted_mean, weighted_sum.
  rewrite (foldl_accumulate_metric bce b_bce) by done.
  rewrite (foldl_accumulate_metric dice b_dice) by done.
  rewrite (foldl_accumulate_metric iou b_iou) by done.
  rewrite (foldl_accumulate_metric correct b_correct) by done.
  done.
Qed.
End Returns.

Section Labels.
Context `{Torch} `{ModelsFunctional}.
Variable model : Model.
Variable dev_ : device.

(** The labels of a report are those of the prepared target and of
    the output of the model. *)
Lemma eval_batch_labels (x true_ : Tensor) (r : batch_report) :
  eval_batch model dev_ x true_ = inr r ->
  true_labels dev_ x true_ = inr (ldata (b_targets r)) /\
  predicted_labels model dev_ x true_ = inr (ldata (b_logits r)).
Proof.
  unfold eval_batch, true_labels, predicted_labels.
  destruct (as_batch x true_) as [e|[[x' t'] size]]; [discriminate|].
  rewrite !result_bind_inr. cbv beta iota zeta.
  do 4 result_step.
  destruct (argmax_dim3 (prepare_target dev_ t')) as [e|ta]; [discriminate|].
  rewrite !result_bind_inr.
  destruct (argmax_dim3 t) as [e|pa] eqn:Epa; [discriminate|].
  rewrite !result_bind_inr.
  do 7 result_step.
  intros [= <-]. split; [reflexivity|].
  rewrite E0, result_bind_inr, Epa. reflexivity.
Qed.

Lemma eval_item_labels (it : result (Tensor * Tensor)) (r : batch_report) :
  eval_item model dev_ it = inr r ->
  (it ≫= fun p => true_labels dev_ p.1 p.2) = inr (ldata (b_targets r)) /\
  (it ≫= fun p => predicted_labels model dev_ p.1 p.2) = inr (ldata (b_logits r)).
Proof.
  unfold eval_item. destruct it as [e|[x t]]; [discriminate|].
  rewrite !result_bind_inr. apply eval_batch_labels.
Qed.

Lemma reports_labels (items : list (result (Tensor * Tensor))) (rs : list batch_report) :
  Forall2 (fun it r => eval_item model dev_ it = inr r) items rs ->
  Forall2 (fun it l => (it ≫= fun p => true_labels dev_ p.1 p.2) = inr l)
    items (map (fun r => ldata (b_targets r)) rs) /\
  Forall2 (fun it l => (it ≫= fun p => predicted_labels model dev_ p.1 p.2) = inr l)
    items (map (fun r => ldata (b_logits r)) rs).
Proof.
  induction 1 as [|it r items rs Hr _ [IH1 IH2]]; [split; constructor|].
  apply eval_item_labels in Hr as [H1 H2].
  split; constructor; done.
Qed.
End Labels.

(* ================================================================== *)
(** * The dimension guard *)

Lemma as_batch_cases (x true_ : Tensor) :
  (ndim x = 4%nat /\ as_batch x true_ = mret (x, true_, size0 x)) \/
  (ndim x = 3%nat /\ as_batch x true_ = mret (unsqueeze0 x, unsqueeze0 true_, 1%Z)) \/
  (ndim x <> 3%nat /\ ndim x <> 4%nat /\
   as_batch x true_ = raise (TypeError "Invalid Input Dim")).
Proof.
  unfold as_batch.
  destruct (Nat.eqb_spec (ndim x) 4) as [H4|H4]; [by left|].
  destruct (Nat.eqb_spec (ndim x) 3) as [H3|H3]; [by right; left|].
  by right; right.
Qed.

(** C1.  Whether a pair yielded by the dataset makes [all_together]
    raise its type error is decided by the number of dimensions of the
    input alone: the guard raises [TypeError] exactly when that number
    is neither 3 nor 4; an input of 4 dimensions goes on as the batch
    it is, with its first dimension as size, and one of 3 dimensions as
    a batch of one.  When the guard raises, the loop stops with the
    accumulators as the pairs before left them, whatever the model and
    the metrics would have done with the pair, and [all_together]
    raises that error. *)
Theorem type_error_iff_unsupported_dim `{Torch} `{ModelsFunctional}
    (env : environment) (model : Model) (ds : Dataset)
    (device_ : option device) (verbose : bool) (x true_ : Tensor) :
  (as_batch x true_ = raise (TypeError "Invalid Input Dim")
   <-> ndim x <> 3%nat /\ ndim x <> 4%nat) /\
  (ndim x = 4%nat -> as_batch x true_ = mret (x, true_, size0 x)) /\
  (ndim x = 3%nat ->
   as_batch x true_ = mret (unsqueeze0 x, unsqueeze0 true_, 1%Z)) /\
  (ndim x <> 3%nat /\ ndim x <> 4%nat ->
   forall pre post s,
     make_iterator env ds = inr (pre ++ inr (x, true_) :: post) ->
     eval_to model (resolve_device env device_) = inr tt ->
     for_loop model (resolve_device env device_) pre initial = (s, inr tt) ->
     for_loop model (resolve_device env device_)
       (pre ++ inr (x, true_) :: post) initial
       = (s, raise (TypeError "Invalid Input Dim")) /\
     all_together env model ds device_ verbose
       = raise (TypeError "Invalid Input Dim")).
Proof.
  destruct (as_batch_cases x true_) as [[H4 E]|[[H3 E]|(H3 & H4 & E)]].
  - split; [|split; [done|split; [lia|lia]]].
    rewrite E. split; [discriminate | lia].
  - split; [|split; [lia|split; [done|lia]]].
    rewrite E. split; [discriminate | lia].
  - split; [done|]. split; [done|]. split; [done|].
    intros _ pre post s Hit Hto Hpre.
    assert (Hloop : for_loop model (resolve_device env device_)
                      (pre ++ inr (x, true_) :: post) initial
                    = (s, raise (TypeError "Invalid Input Dim"))).
    { rewrite (for_loop_app _ _ _ _ _ _ (make_iterator_prefix _ _ _ _ Hit) Hpre),
        for_loop_cons.
      unfold loop_body. rewrite exec_bind_lift, E. reflexivity. }
    split; [done|].
    unfold all_together.
    rewrite Hit, result_bind_inr, Hto, result_bind_inr, Hloop. reflexivity.
Qed.

Lemma type_error_witness :
  @all_together example_torch example_functional
    example_env example_model flat_dataset None true
  = raise (TypeError "Invalid Input Dim").
Proof.
  pose proof (@type_error_iff_unsupported_dim example_torch example_functional
                example_env example_model flat_dataset None true
                flat_x single_true) as (_ & _ & _ & Hraise).
  assert (Hdim : ndim flat_x <> 3%nat /\ ndim flat_x <> 4%nat)
    by (split; discriminate).
  eapply (Hraise Hdim [inr (batch_x, batch_true)] [] _ eq_refl eq_refl).
  vm_compute. reflexivity.
Defined.

(* ================================================================== *)
(** * The four scalars *)

(** C2.  When [all_together] returns, which takes a dataset that is
    not empty, each of the four scalars is the batch-size-weighted
    mean of the per-batch values of its metric: the sum over the
    batches, in order, of the value of the batch times its size,
    divided by the number of samples. *)
Theorem metrics_are_weighted_means `{Torch} `{ModelsFunctional}
    (env : environment) (model : Model) (ds : Dataset)
    (device_ : option device) (verbose : bool)
    out (bce_ dice_ iou_ correct_ : float) (cm : ndarray) :
  all_together env model ds device_ verbose
    = inr (out, (bce_, dice_, iou_, correct_, cm)) ->
  exists rs : list batch_report,
    Forall2 (fun it r => eval_item model (resolve_device env device_) it = inr r)
      (ds_items ds) rs /\
    rs <> [] /\
    bce_ = weighted_mean b_bce rs /\
    dice_ = weighted_mean b_dice rs /\
    iou_ = weighted_mean b_iou rs /\
    correct_ = weighted_mean b_correct rs.
Proof.
  intros Hrun.
  apply all_together_inr in Hrun as (rs & Hrs & Hne & -> & -> & -> & -> & _ & _).
  exists rs. repeat split; try done.
  intros ->. by apply Hne.
Qed.

Lemma metrics_are_weighted_means_witness :
  exists rs : list batch_report,
    Forall2 (fun it r => @eval_item example_torch example_functional
                           example_model cpu it = inr r)
      (ds_items example_dataset) rs /\
    rs <> [] /\
    (1.25 / 3)%float = weighted_mean b_bce rs /\
    ((0 + (1 - 7 / 9) * 2 + 0 * 1) / 3)%float = weighted_mean b_dice rs /\
    ((0 + (1 - 4 / 6) * 2 + 0 * 1) / 3)%float = weighted_mean b_iou rs /\
    (2.5 / 3)%float = weighted_mean b_correct rs.
Proof.
  eapply (@metrics_are_weighted_means example_torch example_functional
            example_env example_model example_dataset None true).
  vm_compute. reflexivity.
Defined.

(* ================================================================== *)
(** * The returned tuple and the printed summary *)

(** Against C3 as stated.  The summary does not show the returned
    numbers as they are: on the example dataset the returned Dice and
    IoU values are the aggregated losses, and the text printed is not
    the one that shows the four returned numbers. *)
Lemma summary_not_of_returned_values :
  ~ (forall (T : Torch) (F : ModelsFunctional) (env : environment)
       (model : Model) (ds : Dataset) (device_ : option device)
       out (bce_ dice_ iou_ correct_ : float) (cm : ndarray),
       @all_together T F env model ds device_ true
         = inr (out, (bce_, dice_, iou_, correct_, cm)) ->
       out = [summary_text (class_name model) bce_ dice_ iou_ correct_]).
Proof.
  intros Hclaim.
  specialize (Hclaim example_torch example_functional example_env
                example_model example_dataset None).
  specialize (Hclaim _ _ _ _ _ _ ltac:(vm_compute; reflexivity)).
  vm_compute in Hclaim. discriminate Hclaim.
Qed.

(** C3, as the code has it.  When [all_together] returns, the tuple
    holds four scalars and the confusion matrix of six rows and six
    columns: the weighted means of the cross-entropy, of the Dice loss,
    of the IoU loss and of the fraction of correct pixels.  The summary,
    printed when [verbose] is set, shows the cross-entropy as returned,
    the Dice coefficient as one minus the returned Dice loss, the IoU
    as one minus the returned IoU loss, and the accuracy as a hundred
    times the returned fraction. *)
Theorem returned_tuple_and_summary `{Torch} `{ModelsFunctional}
    (env : environment) (model : Model) (ds : Dataset)
    (device_ : option device) (verbose : bool)
    out (bce_ dice_ iou_ correct_ : float) (cm : ndarray) :
  all_together env model ds device_ verbose
    = inr (out, (bce_, dice_, iou_, correct_, cm)) ->
  (exists rs : list batch_report,
     Forall2 (fun it r => eval_item model (resolve_device env device_) it = inr r)
       (ds_items ds) rs /\
     bce_ = weighted_mean b_bce rs /\
     dice_ = weighted_mean b_dice rs /\
     iou_ = weighted_mean b_iou rs /\
     correct_ = weighted_mean b_correct rs) /\
  square_of 6 cm /\
  out = (if verbose
         then [summary_text (class_name model) bce_ (1 - dice_) (1 - iou_)
                 (correct_ * 100)]
         else []).
Proof.
  intros Hrun.
  apply all_together_inr in Hrun as (rs & Hrs & Hne & -> & -> & -> & -> & Hcm & ->).
  split; [by exists rs|]. split; [|done].
  by apply confusion_matrix_square in Hcm.
Qed.

Lemma returned_tuple_and_summary_witness :
  exists out (dice_ : float) (cm : ndarray),
    @all_together example_torch example_functional
      example_env example_model example_dataset None true
      = inr (out, (1.25 / 3, dice_, (0 + (1 - 4 / 6) * 2 + 0 * 1) / 3, 2.5 / 3, cm)) /\
    square_of 6 cm /\
    out = [summary_text "UNet" (1.25 / 3) (1 - dice_)
             (1 - (0 + (1 - 4 / 6) * 2 + 0 * 1) / 3) (2.5 / 3 * 100)].
Proof.
  do 3 eexists. split; [vm_compute; reflexivity|].
  apply (@returned_tuple_and_summary example_torch example_functional
           example_env example_model example_dataset None true).
  vm_compute. reflexivity.
Defined.

(* ================================================================== *)
(** * The contents and the shape of the confusion matrix *)

(** Against C4 as stated.  The matrix does not count the labels of
    the target as the dataset yields it: where the class scores of a
    pixel of the target lie above one, clamping makes them equal and
    moves the label to the first class. *)
Lemma confusion_matrix_not_of_raw_target :
  ~ (forall (T : Torch) (F : ModelsFunctional) (env : environment)
       (model : Model) (ds : Dataset) (device_ : option device) (verbose : bool)
       out (bce_ dice_ iou_ correct_ : float) (cm : ndarray),
       @all_together T F env model ds device_ verbose
         = inr (out, (bce_, dice_, iou_, correct_, cm)) ->
       exists y_true y_pred : list (list Z),
         Forall2 (fun it l => (it ≫= fun p => target_labels p.1 p.2) = inr l)
           (ds_items ds) y_true /\
         Forall2 (fun it l =>
                    (it ≫= fun p =>
                       predicted_labels model (resolve_device env device_) p.1 p.2)
                    = inr l)
           (ds_items ds) y_pred /\
         forall i j : nat, (i < 6)%nat -> (j < 6)%nat ->
           entry cm i j
           = Some (count_pairs (Z.of_nat i) (Z.of_nat j)
                     (concat y_true) (concat y_pred))).
Proof.
  intros Hclaim.
  specialize (Hclaim example_torch example_functional example_env
                example_model pixel_dataset None false).
  specialize (Hclaim _ _ _ _ _ _ ltac:(vm_compute; reflexivity)).
  destruct Hclaim as (y_true & y_pred & Ht & Hp & Hcm).
  apply Forall2_cons_inv_l in Ht as (lt & y_true' & Hlt & Ht & ->).
  apply Forall2_nil_inv_l in Ht as ->.
  apply Forall2_cons_inv_l in Hp as (lp & y_pred' & Hlp & Hp & ->).
  apply Forall2_nil_inv_l in Hp as ->.
  vm_compute in Hlt. vm_compute in Hlp.
  injection Hlt as <-. injection Hlp as <-.
  specialize (Hcm 1%nat 0%nat ltac:(lia) ltac:(lia)).
  vm_compute in Hcm. discriminate Hcm.
Qed.

(** C4, as the code has it.  When [all_together] returns, entry
    [(i, j)] of the confusion matrix counts the positions, in the
    concatenation over all batches of the flattened labels, whose true
    label is [i] and whose predicted label is [j]; the predicted labels
    are the argmax over the class dimension of the output of the
    model, the true labels that of the target once clamped to the
    range from zero to one. *)
Theorem confusion_matrix_counts_pixels `{Torch} `{ModelsFunctional}
    (env : environment) (model : Model) (ds : Dataset)
    (device_ : option device) (verbose : bool)
    out (bce_ dice_ iou_ correct_ : float) (cm : ndarray) :
  all_together env model ds device_ verbose
    = inr (out, (bce_, dice_, iou_, correct_, cm)) ->
  exists y_true y_pred : list (list Z),
    Forall2 (fun it l =>
               (it ≫= fun p => true_labels (resolve_device env device_) p.1 p.2)
               = inr l)
      (ds_items ds) y_true /\
    Forall2 (fun it l =>
               (it ≫= fun p =>
                  predicted_labels model (resolve_device env device_) p.1 p.2)
               = inr l)
      (ds_items ds) y_pred /\
    forall i j : nat, (i < 6)%nat -> (j < 6)%nat ->
      entry cm i j
      = Some (count_pairs (Z.of_nat i) (Z.of_nat j)
                (concat y_true) (concat y_pred)).
Proof.
  intros Hrun.
  apply all_together_inr in Hrun as (rs & Hrs & _ & _ & _ & _ & _ & Hcm & _).
  apply reports_labels in Hrs as [Ht Hp].
  eexists _, _. split; [exact Ht|]. split; [exact Hp|].
  intros i j Hi Hj. by apply confusion_matrix_entry.
Qed.

Lemma confusion_matrix_counts_pixels_witness :
  exists (cm : ndarray) (y_true y_pred : list (list Z)),
    returned (@all_together example_torch example_functional
                example_env example_model example_dataset None false)
      = inr (1.25 / 3, (0 + (1 - 7 / 9) * 2 + 0 * 1) / 3,
             (0 + (1 - 4 / 6) * 2 + 0 * 1) / 3, 2.5 / 3, cm) /\
    Forall2 (fun it l =>
               (it ≫= fun p => true_labels cpu p.1 p.2) = inr l)
      (ds_items example_dataset) y_true /\
    Forall2 (fun it l =>
               (it ≫= fun p =>
                  predicted_labels example_model cpu p.1 p.2)
               = inr l)
      (ds_items example_dataset) y_pred /\
    forall i j : nat, (i < 6)%nat -> (j < 6)%nat ->
      entry cm i j
      = Some (count_pairs (Z.of_nat i) (Z.of_nat j)
                (concat y_true) (concat y_pred)).
Proof.
  eexists.
  pose proof (@confusion_matrix_counts_pixels example_torch example_functional
                example_env example_model example_dataset None false
                _ _ _ _ _ _ ltac:(vm_compute; reflexivity))
    as (y_true & y_pred & Hcounts).
  exists y_true, y_pred. split; [vm_compute; reflexivity | exact Hcounts].
Defined.

(** C7.  The confusion matrix [all_together] returns is a
    two-dimensional array of counts with six rows of six entries,
    whatever labels occur among the predictions and the targets. *)
Theorem confusion_matrix_is_six_by_six `{Torch} `{ModelsFunctional}
    (env : environment) (model : Model) (ds : Dataset)
    (device_ : option device) (verbose : bool)
    out (bce_ dice_ iou_ correct_ : float) (cm : ndarray) :
  all_together env model ds device_ verbose
    = inr (out, (bce_, dice_, iou_, correct_, cm)) ->
  length cm = 6%nat /\
  Forall (fun r => length r = 6%nat) cm /\
  Forall (Forall (fun v => (0 <= v)%Z)) cm.
Proof.
  intros Hrun.
  apply all_together_inr in Hrun as (rs & _ & _ & _ & _ & _ & _ & Hcm & _).
  destruct (confusion_matrix_square _ _ _ _ Hcm) as [Hlen Hrows].
  change (length (range 6)) with 6%nat in Hlen, Hrows.
  split; [done|]. split; [done|].
  apply Forall_lookup. intros i r Hr. apply Forall_lookup. intros j v Hv.
  assert (Hi : (i < 6)%nat) by (rewrite <- Hlen; by eapply lookup_lt_Some).
  assert (Hj : (j < 6)%nat).
  { rewrite Forall_lookup in Hrows. rewrite <- (Hrows _ _ Hr).
    by eapply lookup_lt_Some. }
  pose proof (confusion_matrix_entry _ _ _ i j Hcm Hi Hj) as He.
  unfold entry in He. rewrite Hr in He. simpl in He. rewrite Hv in He.
  injection He as ->. unfold count_pairs. lia.
Qed.

Lemma confusion_matrix_is_six_by_six_witness :
  exists cm : ndarray,
    returned (@all_together example_torch example_functional
                example_env example_model example_dataset None false)
      = inr (1.25 / 3, (0 + (1 - 7 / 9) * 2 + 0 * 1) / 3,
             (0 + (1 - 4 / 6) * 2 + 0 * 1) / 3, 2.5 / 3, cm) /\
    length cm = 6%nat /\
    Forall (fun r => length r = 6%nat) cm /\
    Forall (Forall (fun v => (0 <= v)%Z)) cm.
Proof.
  eexists. split; [vm_compute; reflexivity|].
  eapply (@confusion_matrix_is_six_by_six example_torch example_functional
            example_env example_model example_dataset None false).
  vm_compute. reflexivity.
Defined.

(* ================================================================== *)
(** * Exceptions of the loop *)

Section Propagation.
Context `{Torch} `{ModelsFunctional}.
Variable model : Model.
Variable dev_ : device.

(** An exception of the forward pass leaves the body as it is. *)
Lemma loop_body_forward_raises (x true_ xb tb : Tensor) (n : Z)
    (s : locals) (e : exception) :
  as_batch x true_ = inr (xb, tb, n) ->
  forward model (tensor_float (to dev_ xb)) = inl e ->
  loop_body model dev_ x true_ s = (s, inl e).
Proof.
  intros Hb Hf. unfold loop_body.
  rewrite exec_bind_lift, Hb. cbv beta iota zeta.
  by rewrite exec_bind_lift, Hf.
Qed.

(** So does one of the first metric, the cross-entropy. *)
Lemma loop_body_metric_raises (x true_ xb tb pred p : Tensor) (n : Z)
    (out : gmap string Tensor) (s : locals) (e : exception) :
  as_batch x true_ = inr (xb, tb, n) ->
  forward model (tensor_float (to dev_ xb)) = inr out ->
  getitem out "out" = inr pred ->
  softmax pred (-3) = inr p ->
  binary_cross_entropy p (prepare_target dev_ tb) = inl e ->
  loop_body model dev_ x true_ s = (s, inl e).
Proof.
  intros Hb Hf Hg Hs Hl. unfold loop_body, prepare_target in *.
  rewrite exec_bind_lift, Hb. cbv beta iota zeta.
  by rewrite exec_bind_lift, Hf, exec_bind_lift, Hg, exec_bind_lift, Hs,
       exec_bind_lift, Hl.
Qed.
End Propagation.

(** The exceptions of the construction of the progress bar that the
    [except] clause names are handled: the loop runs over the plain
    iterator. *)
Lemma make_iterator_caught (env : environment) (ds : Dataset) (e : exception) :
  (import_tqdm env;; ds_len ds;; tqdm_bar env) = inl e ->
  caught e = true ->
  make_iterator env ds = inr (ds_items ds).
Proof. unfold make_iterator. by intros -> ->. Qed.

(** Against C6 as stated.  Not every exception of the iteration over
    the dataset leaves [all_together]: the one that ends the iteration
    ends the loop, and the function goes on to its result.  The dataset
    here is read through [__getitem__]; its second item raises
    [IndexError], which the sequence iterator turns into the end of the
    iteration, and [all_together] returns the metrics of the first
    batch. *)
Lemma iteration_end_not_propagated :
  ~ (forall (T : Torch) (F : ModelsFunctional) (env : environment)
       (model : Model) (ds : Dataset) (device_ : option device) (verbose : bool)
       (pre post it : list (result (Tensor * Tensor))) (s : locals) (e : exception),
       ds_next ds = pre ++ inl e :: post ->
       Forall (fun outcome => stops outcome = false) pre ->
       make_iterator env ds = inr it ->
       eval_to model (resolve_device env device_) = inr tt ->
       @for_loop T F model (resolve_device env device_) pre initial = (s, inr tt) ->
       @all_together T F env model ds device_ verbose = inl e).
Proof.
  intros Hclaim.
  specialize (Hclaim example_torch example_functional example_env
                example_model short_dataset None false
                [inr (batch_x, batch_true)] [inr (single_x, single_true)]).
  specialize (Hclaim _ _ (StopIteration "") eq_refl
                ltac:(repeat constructor) eq_refl eq_refl
                ltac:(vm_compute; reflexivity)).
  vm_compute in Hclaim. discriminate Hclaim.
Qed.

(** C6, as the code has it.  Let the outcomes of [next] before [item]
    be pairs that pass the loop without an exception.  An exception
    raised inside the loop is not handled: if producing [item] raises
    [e], which is not the end of the iteration, or the forward pass of
    the model on it raises [e], or the computation of a metric raises
    [e] (the cross-entropy here; any later statement of the body falls
    under the last case), or any statement of the body raises [e], then
    [all_together] raises [e].  The one exception that does not leave
    the function is the [StopIteration] of [next]: the loop ends there
    with the accumulators as they are, the outcomes after it are not
    asked for, and [all_together] goes on to its result from the pairs
    before.  For a dataset read through [__getitem__] this is the case
    exactly when [__getitem__] raises [IndexError] or
    [StopIteration]. *)
Theorem loop_exceptions_propagate `{Torch} `{ModelsFunctional}
    (env : environment) (model : Model) (ds : Dataset)
    (device_ : option device) (verbose : bool)
    (pre post it : list (result (Tensor * Tensor)))
    (item : result (Tensor * Tensor)) (s : locals) (e : exception) :
  ds_next ds = pre ++ item :: post ->
  Forall (fun outcome => stops outcome = false) pre ->
  make_iterator env ds = inr it ->
  eval_to model (resolve_device env device_) = inr tt ->
  for_loop model (resolve_device env device_) pre initial = (s, inr tt) ->
  (((item = inl e /\ stops item = false) \/
    (exists x true_ xb tb n,
       item = inr (x, true_) /\
       as_batch x true_ = inr (xb, tb, n) /\
       forward model (tensor_float (to (resolve_device env device_) xb)) = inl e) \/
    (exists x true_ xb tb n out pred p,
       item = inr (x, true_) /\
       as_batch x true_ = inr (xb, tb, n) /\
       forward model (tensor_float (to (resolve_device env device_) xb)) = inr out /\
       getitem out "out" = inr pred /\
       softmax pred (-3) = inr p /\
       binary_cross_entropy p (prepare_target (resolve_device env device_) tb)
         = inl e) \/
    (exists x true_ s',
       item = inr (x, true_) /\
       loop_body model (resolve_device env device_) x true_ s = (s', inl e))) ->
   all_together env model ds device_ verbose = inl e) /\
  (stops item = true ->
   for_loop model (resolve_device env device_) (ds_next ds) initial = (s, inr tt) /\
   all_together env model ds device_ verbose = finish model verbose s) /\
  (forall getitem gpre g gpost,
     ds_next ds = sequence_iterator getitem ->
     getitem = gpre ++ g :: gpost ->
     length gpre = length pre ->
     (stops item = true <->
      exists msg, g = inl (IndexError msg) \/ g = inl (StopIteration msg))).
Proof.
  intros Hnext Hpass Hit Hto Hpre.
  assert (Hloop : for_loop model (resolve_device env device_) (ds_next ds) initial
                  = for_loop model (resolve_device env device_) (item :: post) s).
  { rewrite Hnext. by apply for_loop_app. }
  assert (Hall : all_together env model ds device_ verbose
                 = match for_loop model (resolve_device env device_)
                           (item :: post) s with
                   | (_, inl e) => raise e
                   | (s, inr _) => finish model verbose s
                   end).
  { unfold all_together. rewrite Hit, result_bind_inr, Hto, result_bind_inr.
    apply make_iterator_inr in Hit as ->.
    unfold ds_items. by rewrite for_loop_iterate, Hloop. }
  split; [|split].
  - intros Hraise. rewrite Hall, for_loop_cons.
    destruct Hraise as [[-> Hgo]|[(x & t & xb & tb & n & -> & Hb & Hf)
                                 |[(x & t & xb & tb & n & out & pred & p & -> &
                                    Hb & Hf & Hg & Hs & Hl)
                                  |(x & t & s' & -> & Hbody)]]].
    + by rewrite Hgo.
    + by rewrite (loop_body_forward_raises _ _ _ _ _ _ _ _ _ Hb Hf).
    + by rewrite (loop_body_metric_raises _ _ _ _ _ _ _ _ _ _ _ _ Hb Hf Hg Hs Hl).
    + by rewrite Hbody.
  - intros Hstop. destruct item as [e'|p]; [|discriminate]. split.
    + by rewrite Hloop, for_loop_cons, Hstop.
    + by rewrite Hall, for_loop_cons, Hstop.
  - intros getitem gpre g gpost Hseq -> Hlen.
    unfold sequence_iterator in Hseq. rewrite Hnext, map_app, map_cons in Hseq.
    apply app_inj_1 in Hseq as [_ Hcons]; [|by rewrite length_map].
    injection Hcons as -> _. apply sequence_next_stops.
Qed.

Lemma loop_exceptions_propagate_witness :
  @all_together example_torch example_functional
    example_env failing_model example_dataset None true
  = inl (RuntimeError "CUDA out of memory") /\
  @all_together example_torch example_functional
    example_env example_model short_dataset None true
  = @all_together example_torch example_functional
      example_env example_model
      (mkDataset (inr 1%Z) [inr (batch_x, batch_true)]) None true.
Proof.
  split.
  - eapply (@loop_exceptions_propagate example_torch example_functional
              example_env failing_model example_dataset None true
              [] [inr (single_x, single_true)] _
              (inr (batch_x, batch_true)) initial).
    + reflexivity.
    + constructor.
    + reflexivity.
    + reflexivity.
    + reflexivity.
    + right; left.
      exists batch_x, batch_true, batch_x, batch_true, 2%Z.
      repeat split; reflexivity.
  - etransitivity.
    + eapply (@loop_exceptions_propagate example_torch example_functional
                example_env example_model short_dataset None true
                [inr (batch_x, batch_true)] [inr (single_x, single_true)] _
                (inl (StopIteration "")) _ (StopIteration "")).
      * reflexivity.
      * repeat constructor.
      * reflexivity.
      * reflexivity.
      * vm_compute. reflexivity.
      * reflexivity.
    + vm_compute. reflexivity.
Defined.

(* ================================================================== *)
(** * Two runs *)

Lemma finish_returned `{Torch} `{ModelsFunctional}
    (model : Model) (verbose : bool) (s : locals) :
  returned (finish model verbose s) = returned (finish model false s).
Proof.
  unfold finish.
  destruct (torch_cat (logits s)) as [e|lg]; [done|].
  destruct (torch_cat (targets s)) as [e|tg]; [done|].
  rewrite !result_bind_inr.
  destruct (confusion_matrix _ _ _) as [e|cm]; [done|].
  rewrite result_bind_inr.
  destruct (float_truediv_int (correct s) _) as [e|c]; [done|].
  destruct (float_truediv_int (bce s) _) as [e|b]; [done|].
  destruct (float_truediv_int (dice s) _) as [e|d]; [done|].
  destruct (float_truediv_int (iou s) _) as [e|i]; [done|].
  rewrite !result_bind_inr.
  destruct verbose; [rewrite summary_eq|]; reflexivity.
Qed.

(** C8.  The tuple returned is a function of the model and of the
    sequence of items of the dataset.  Two runs on the same model, the
    same items and the same device, both past the construction of
    their iterator, end alike: they raise the same exception or return
    the same four scalars and the same matrix, whether they print or
    not and whether the progress bar is there or not. *)
Theorem same_run_same_tuple `{Torch} `{ModelsFunctional}
    (env1 env2 : environment) (model : Model) (ds1 ds2 : Dataset)
    (device1 device2 : option device) (verbose1 verbose2 : bool)
    (it1 it2 : list (result (Tensor * Tensor))) :
  ds_items ds1 = ds_items ds2 ->
  resolve_device env1 device1 = resolve_device env2 device2 ->
  make_iterator env1 ds1 = inr it1 ->
  make_iterator env2 ds2 = inr it2 ->
  returned (all_together env1 model ds1 device1 verbose1)
  = returned (all_together env2 model ds2 device2 verbose2).
Proof.
  intros Hitems Hdev H1 H2. unfold all_together.
  rewrite H1, H2, !result_bind_inr.
  apply make_iterator_inr in H1 as ->. apply make_iterator_inr in H2 as ->.
  rewrite Hitems, Hdev.
  destruct (eval_to model _) as [e|[]]; [done|]. rewrite !result_bind_inr.
  destruct (for_loop _ _ _ _) as [s [e|[]]]; [done|].
  by rewrite (finish_returned _ verbose1), (finish_returned _ verbose2).
Qed.

Lemma same_run_same_tuple_witness :
  returned (@all_together example_torch example_functional
              example_env example_model example_dataset None true)
  = returned (@all_together example_torch example_functional
                (mkEnv (inr tt) (inr tt) false) example_model
                (mkDataset (inl (TypeError "object of type 'generator' has no len()"))
                   (ds_items example_dataset))
                (Some cpu) false).
Proof.
  eapply (@same_run_same_tuple example_torch example_functional);
    reflexivity.
Defined.

(* ================================================================== *)
(** * Samples on their own *)

(** The size of a report is the size the guard gave its batch. *)
Lemma eval_batch_size `{Torch} `{ModelsFunctional}
    (model : Model) (dev_ : device) (x true_ : Tensor) (r : batch_report) :
  eval_batch model dev_ x true_ = inr r ->
  exists xb tb, as_batch x true_ = inr (xb, tb, b_size r).
Proof.
  unfold eval_batch.
  destruct (as_batch x true_) as [e|[[xb tb] size]]; [discriminate|].
  rewrite result_bind_inr. cbv beta iota zeta.
  do 13 result_step. intros [= <-]. by exists xb, tb.
Qed.

Section Unsqueeze.
Context `{Torch} `{ModelsFunctional}.
Variable model : Model.
Variable dev_ : device.

(** The body treats an input of three dimensions as it treats the
    pair with a leading axis on both tensors. *)
Lemma loop_body_unsqueeze (x true_ : Tensor) (s : locals) :
  ndim x = 3%nat ->
  loop_body model dev_ x true_ s
  = loop_body model dev_ (unsqueeze0 x) (unsqueeze0 true_) s.
Proof.
  intros H3. unfold loop_body, as_batch.
  replace (ndim (unsqueeze0 x)) with 4%nat by (unfold ndim in *; simpl; lia).
  rewrite H3. reflexivity.
Qed.

Lemma for_loop_unsqueeze (items : list (result (Tensor * Tensor))) (s : locals) :
  Forall three_dim items ->
  for_loop model dev_ (map unsqueeze_item items) s = for_loop model dev_ items s.
Proof.
  intros Hall. revert s.
  induction Hall as [|item items Hitem _ IH]; intros s; [done|].
  rewrite map_cons, !for_loop_cons.
  destruct item as [e|[x t]]; [done|]. simpl in *.
  rewrite <- (loop_body_unsqueeze _ _ _ Hitem).
  destruct (loop_body model dev_ x t s) as [s' [e|[]]]; [done|]. apply IH.
Qed.
End Unsqueeze.

Lemma ds_items_unsqueeze (ds : Dataset) :
  ds_items (unsqueeze_dataset ds) = map unsqueeze_item (ds_items ds).
Proof.
  unfold unsqueeze_dataset, ds_items at 1. cbn [ds_next].
  apply iterate_id. pose proof (ds_items_no_stop ds) as Hall.
  induction Hall as [|item items Hitem _ IH]; [constructor|].
  rewrite map_cons. constructor; [|exact IH]. by destruct item as [e|[x t]].
Qed.

Lemma make_iterator_unsqueeze (env : environment) (ds : Dataset) :
  make_iterator env (unsqueeze_dataset ds)
  = (make_iterator env ds ≫= fun it => mret (map unsqueeze_item it)).
Proof.
  unfold make_iterator. rewrite ds_items_unsqueeze.
  unfold unsqueeze_dataset. cbn [ds_len].
  destruct (_ ;; _) as [e|?]; [destruct (caught e)|]; reflexivity.
Qed.

(** C10.  An input of three dimensions goes through the loop as the
    four-dimensional pair with a leading axis of length one on input
    and target does, and with weight one: the guard hands on the same
    batch of size one for both, and a pass of the body on it adds one
    to [total] and the value of each metric, times one, to its
    accumulator.  Hence the reports of a dataset of such inputs all
    have size one, the number of samples is the number of items, and
    the dataset and the dataset of its pairs with the leading axis
    added give the same result. *)
Theorem three_dim_pair_is_batch_of_one `{Torch} `{ModelsFunctional}
    (env : environment) (model : Model) (ds : Dataset)
    (device_ : option device) (verbose : bool) :
  Forall three_dim (ds_items ds) ->
  (forall x true_, inr (x, true_) ∈ ds_items ds ->
     as_batch x true_ = mret (unsqueeze0 x, unsqueeze0 true_, 1%Z) /\
     as_batch (unsqueeze0 x) (unsqueeze0 true_)
       = mret (unsqueeze0 x, unsqueeze0 true_, 1%Z) /\
     (forall dev_ s,
        loop_body model dev_ x true_ s
        = loop_body model dev_ (unsqueeze0 x) (unsqueeze0 true_) s) /\
     (forall dev_ s s',
        loop_body model dev_ x true_ s = (s', inr tt) ->
        exists r,
          eval_batch model dev_ x true_ = inr r /\
          b_size r = 1%Z /\
          total s' = (total s + 1)%Z /\
          bce s' = bce s + b_bce r * 1 /\
          dice s' = dice s + b_dice r * 1 /\
          iou s' = iou s + b_iou r * 1 /\
          correct s' = correct s + b_correct r * 1 /\
          logits s' = logits s ++ [b_logits r] /\
          targets s' = targets s ++ [b_targets r])) /\
  (forall rs,
     Forall2 (fun it r => eval_item model (resolve_device env device_) it = inr r)
       (ds_items ds) rs ->
     Forall (fun r => b_size r = 1%Z) rs /\
     samples rs = Z.of_nat (length (ds_items ds))) /\
  all_together env model (unsqueeze_dataset ds) device_ verbose
  = all_together env model ds device_ verbose.
Proof.
  intros Hall.
  assert (Hguard : forall x t, ndim x = 3%nat ->
            as_batch x t = mret (unsqueeze0 x, unsqueeze0 t, 1%Z)).
  { intros x t H3. unfold as_batch. by rewrite H3. }
  assert (Hsize : forall dev_ x t r, ndim x = 3%nat ->
            eval_batch model dev_ x t = inr r -> b_size r = 1%Z).
  { intros dev_ x t r H3 Hr.
    destruct (eval_batch_size _ _ _ _ _ Hr) as (xb & tb & Hb).
    rewrite (Hguard x t H3) in Hb. by injection Hb as _ _ <-. }
  split; [|split].
  - intros x t Hin.
    assert (H3 : ndim x = 3%nat).
    { rewrite Forall_forall in Hall. exact (Hall _ Hin). }
    split; [|split; [|split]].
    + by apply Hguard.
    + unfold as_batch.
      replace (ndim (unsqueeze0 x)) with 4%nat by (unfold ndim in *; simpl; lia).
      reflexivity.
    + intros dev_ s. by apply loop_body_unsqueeze.
    + intros dev_ s s' Hbody.
      destruct (loop_body_inr _ _ _ _ _ _ Hbody) as (r & Hr & ->).
      exists r. pose proof (Hsize _ _ _ _ H3 Hr) as Hone.
      split; [exact Hr|]. split; [exact Hone|].
      unfold accumulate. cbn [total bce dice iou correct logits targets].
      rewrite Hone. change (Z2float 1) with 1. done.
  - intros rs Hrs. revert Hall.
    induction Hrs as [|item r items rs Hr _ IH]; intros Hall.
    + split; [constructor | reflexivity].
    + apply Forall_cons in Hall as [Hitem Hall].
      destruct (IH Hall) as [IH1 IH2].
      assert (Hone : b_size r = 1%Z).
      { destruct item as [e|[x t]]; [discriminate|].
        unfold eval_item in Hr. rewrite result_bind_inr in Hr.
        exact (Hsize _ _ _ _ Hitem Hr). }
      split; [by constructor|].
      unfold samples in *. cbn [map foldr length]. rewrite IH2, Hone. lia.
  - unfold all_together. rewrite make_iterator_unsqueeze.
    destruct (make_iterator env ds) as [e|it] eqn:Hit; [done|].
    apply make_iterator_inr in Hit as ->.
    unfold mbind, result_bind, mret, result_ret. by rewrite for_loop_unsqueeze.
Qed.

Lemma three_dim_pair_is_batch_of_one_witness :
  (exists r,
     @eval_batch example_torch example_functional example_model cpu
       single_x single_true = inr r /\
     b_size r = 1%Z /\
     total (@loop_body example_torch example_functional example_model cpu
              single_x single_true initial).1 = 1%Z) /\
  @all_together example_torch example_functional
    example_env example_model (unsqueeze_dataset single_dataset) None true
  = @all_together example_torch example_functional
      example_env example_model single_dataset None true.
Proof.
  destruct (@three_dim_pair_is_batch_of_one example_torch example_functional
              example_env example_model single_dataset None true)
    as (Hpair & _ & Hrun); [repeat constructor|].
  split; [|exact Hrun].
  destruct (Hpair single_x single_true) as (_ & _ & _ & Hweight);
    [by constructor|].
  destruct (@loop_body example_torch example_functional example_model cpu
              single_x single_true initial) as [s' [e|[]]] eqn:Hbody;
    [vm_compute in Hbody; discriminate|].
  destruct (Hweight cpu initial s' Hbody) as (r & Hr & Hone & Htotal & _).
  exists r. split; [exact Hr|]. split; [exact Hone|]. exact Htotal.
Defined.

(* ================================================================== *)
(** * Sums of counts and the diagonal *)

Lemma wrap64_id (z : Z) : int64 z -> wrap64 z = z.
Proof.
  unfold int64, wrap64. intros Hz.
  rewrite Z.mod_small by lia. lia.
Qed.

Lemma total_of_nonneg (l : list Z) :
  Forall (fun v => (0 <= v)%Z) l -> (0 <= total_of l)%Z.
Proof. induction 1; simpl; lia. Qed.

Lemma total_of_app (l1 l2 : list Z) :
  total_of (l1 ++ l2) = (total_of l1 + total_of l2)%Z.
Proof. induction l1; simpl; lia. Qed.

Lemma sum64_from (l : list Z) (acc : Z) :
  Forall (fun v => (0 <= v)%Z) l -> (0 <= acc)%Z ->
  (acc + total_of l < 2 ^ 63)%Z ->
  fold_left (fun acc v => wrap64 (acc + v)) l acc = (acc + total_of l)%Z.
Proof.
  intros Hl. revert acc.
  induction Hl as [|v l Hv Hl IH]; intros acc Hacc Hsum; simpl in *; [lia|].
  pose proof (total_of_nonneg _ Hl).
  rewrite wrap64_id by (unfold int64; lia).
  rewrite IH by lia. lia.
Qed.

(** A sum of counts that fits is not touched by the wrap-around. *)
Lemma sum64_exact (l : list Z) :
  Forall (fun v => (0 <= v)%Z) l -> (total_of l < 2 ^ 63)%Z ->
  sum64 l = total_of l.
Proof.
  intros Hl Hsum. unfold sum64. rewrite sum64_from by (done || lia). lia.
Qed.

Lemma lookup_le_total (r : list Z) (j : nat) (v : Z) :
  Forall (fun v => (0 <= v)%Z) r -> r !! j = Some v ->
  (0 <= v <= total_of r)%Z.
Proof.
  intros Hr. revert j. induction Hr as [|u r Hu Hr IH]; intros j; [done|].
  pose proof (total_of_nonneg _ Hr).
  destruct j as [|j]; simpl.
  - intros [= <-]. lia.
  - intros Hj. specialize (IH _ Hj). lia.
Qed.

Lemma diagonal_from_cons (k : nat) (r : list Z) (a : ndarray) :
  diagonal_from k (r :: a) =
  match r !! k with
  | Some v => v :: diagonal_from (S k) a
  | None => diagonal_from (S k) a
  end.
Proof.
  unfold diagonal_from. rewrite imap_cons. cbn [omap list_omap].
  rewrite Nat.add_0_r.
  replace (imap ((fun i r0 => r0 !! (k + i)%nat) ∘ S) a)
    with (imap (fun i (r0 : list Z) => r0 !! (S k + i)%nat) a).
  - by destruct (r !! k).
  - apply imap_ext. intros i x _. simpl. f_equal. lia.
Qed.

Lemma np_diagonal_from (a : ndarray) : np_diagonal a = diagonal_from 0 a.
Proof. reflexivity. Qed.

(** Along a diagonal of a matrix of counts the sum is at most that of
    all entries. *)
Lemma diagonal_from_bound (a : ndarray) (k : nat) :
  Forall (Forall (fun v => (0 <= v)%Z)) a ->
  Forall (fun v => (0 <= v)%Z) (diagonal_from k a) /\
  (total_of (diagonal_from k a) <= total_of (flatten a))%Z.
Proof.
  intros Ha. revert k. induction Ha as [|r a Hr Ha IH]; intros k.
  - split; [constructor | reflexivity].
  - rewrite diagonal_from_cons. unfold flatten in *. rewrite concat_cons, total_of_app.
    destruct (IH (S k)) as [IH1 IH2].
    pose proof (total_of_nonneg _ Hr).
    destruct (r !! k) as [v|] eqn:Hv.
    + destruct (lookup_le_total _ _ _ Hr Hv). split; [by constructor|]. simpl. lia.
    + split; [done | lia].
Qed.

(** In a matrix whose rows are long enough the diagonal has an entry
    per row. *)
Lemma diagonal_from_lookup (a : ndarray) (k i : nat) :
  Forall (fun r => (k + length a <= length r)%nat) a ->
  length (diagonal_from k a) = length a /\
  diagonal_from k a !! i = a !! i ≫= (.!! (k + i)%nat).
Proof.
  intros Ha. revert k i Ha. induction a as [|r a IH]; intros k i Ha; [done|].
  apply Forall_cons in Ha as [Hr Ha]. simpl in Hr.
  rewrite diagonal_from_cons.
  destruct (lookup_lt_is_Some_2 r k ltac:(lia)) as [v Hv]. rewrite Hv.
  assert (Ha' : Forall (fun r => (S k + length a <= length r)%nat) a).
  { eapply Forall_impl; [exact Ha|]. simpl. intros; lia. }
  destruct i as [|i]; simpl.
  - split; [f_equal; apply (IH (S k) 0%nat Ha') |].
    by rewrite Nat.add_0_r, Hv.
  - destruct (IH (S k) i Ha') as [Hlen Hlook].
    split; [by f_equal|]. rewrite Hlook. by rewrite Nat.add_succ_r.
Qed.

Lemma np_diagonal_square (a : ndarray) (i : nat) :
  square_of (length a) a ->
  length (np_diagonal a) = length a /\ np_diagonal a !! i = entry a i i.
Proof.
  intros [_ Hrows]. rewrite np_diagonal_from.
  apply (diagonal_from_lookup a 0 i).
  eapply Forall_impl; [exact Hrows|]. simpl. intros r ->. lia.
Qed.

(* ================================================================== *)
(** * The statistics text and the caller's matrix *)

Lemma counts_flatten (a : ndarray) :
  counts a -> Forall (fun v => (0 <= v)%Z) (flatten a).
Proof. intros [Ha _]. by apply Forall_concat. Qed.

Lemma np_sum_exact (a : ndarray) : counts a -> np_sum a = total_of (flatten a).
Proof.
  intros Ha. apply sum64_exact; [by apply counts_flatten | apply Ha].
Qed.

Lemma np_trace_exact (a : ndarray) :
  counts a -> np_trace a = total_of (np_diagonal a).
Proof.
  intros [Ha Hsum]. destruct (diagonal_from_bound a 0 Ha) as [Hd Hle].
  apply sum64_exact; [done|]. rewrite np_diagonal_from. lia.
Qed.

(** A square matrix of two rows, entry by entry. *)
Lemma square_two (a : ndarray) :
  square_of (length a) a -> length a = 2%nat ->
  exists p q r s : Z, a = [[p; q]; [r; s]].
Proof.
  intros [_ Hrows] Hlen. rewrite Hlen in Hrows.
  destruct a as [|r1 [|r2 [|? ?]]]; try discriminate.
  apply Forall_cons in Hrows as [H1 Hrows].
  apply Forall_cons in Hrows as [H2 _].
  destruct r1 as [|p [|q [|? ?]]]; try discriminate.
  destruct r2 as [|r [|s [|? ?]]]; try discriminate.
  by exists p, q, r, s.
Qed.

(** On a square matrix of counts the text of the statistics is the
    expected one, or empty. *)
Lemma stats_text_eq (a : ndarray) (sum_stats omit_diagonal : bool) :
  square_of (length a) a -> counts a ->
  stats_text a sum_stats omit_diagonal
  = inr (if sum_stats && negb omit_diagonal then expected_stats a else "").
Proof.
  intros Hsq Hc. unfold stats_text, expected_stats.
  destruct omit_diagonal, sum_stats; try reflexivity.
  cbn [negb andb]. rewrite np_trace_exact, np_sum_exact by done.
  unfold nrows. destruct (Nat.eqb_spec (length a) 2) as [Hlen|_]; [|reflexivity].
  destruct (square_two a Hsq Hlen) as (p & q & r & s & ->).
  destruct Hc as [Hnn Hsum].
  apply Forall_cons in Hnn as [Hr1 Hnn]. apply Forall_cons in Hnn as [Hr2 _].
  apply Forall_cons in Hr1 as [Hp Hr1]. apply Forall_cons in Hr1 as [Hq _].
  apply Forall_cons in Hr2 as [Hr Hr2]. apply Forall_cons in Hr2 as [Hs _].
  cbn in Hsum.
  assert (Hcol : sum64 [q; s] = total_of [q; s]).
  { apply sum64_exact; [repeat constructor; done | cbn; lia]. }
  assert (Hrow : sum64 [r; s] = total_of [r; s]).
  { apply sum64_exact; [repeat constructor; done | cbn; lia]. }
  cbn [entry lookup list_lookup mbind option_bind omap list_omap
       default from_option id].
  unfold true_divide. rewrite <- Hcol, <- Hrow. reflexivity.
Qed.

(** On a square matrix of [int64] entries the subtraction of the
    diagonal succeeds and leaves zeros on the diagonal. *)
Lemma isub_diagflat_square (a : ndarray) :
  square_of (length a) a -> Forall (Forall int64) a ->
  isub_diagflat a = inr (zero_diagonal a).
Proof.
  intros Hsq Hint. unfold isub_diagflat, zero_diagonal.
  destruct (np_diagonal_square a 0 Hsq) as [Hlen _]. rewrite Hlen.
  assert (Hcols : ncols a = length a).
  { destruct Hsq as [_ Hrows]. destruct a as [|r a]; [done|].
    apply Forall_cons in Hrows as [Hr _]. exact Hr. }
  unfold nrows. rewrite Hcols, Nat.eqb_refl. cbn [orb andb].
  unfold mret, result_ret. f_equal.
  apply imap_ext. intros i r Hr.
  apply imap_ext. intros j v Hv.
  assert (Hi : (i < length a)%nat) by (by eapply lookup_lt_Some).
  assert (Hrlen : length r = length a).
  { destruct Hsq as [_ Hrows]. rewrite Forall_lookup in Hrows. by eapply Hrows. }
  assert (Hj : (j < length a)%nat) by (rewrite <- Hrlen; by eapply lookup_lt_Some).
  assert (Hv64 : int64 v).
  { rewrite Forall_lookup in Hint. specialize (Hint _ _ Hr).
    rewrite Forall_lookup in Hint. by eapply Hint. }
  assert (Hdiag : forall k u, (a !! k ≫= (.!! k)) = Some u -> nth k (np_diagonal a) 0%Z = u).
  { intros k u Hku. destruct (np_diagonal_square a k Hsq) as [_ Hk].
    unfold entry in Hk. rewrite Hku in Hk. by apply nth_lookup_Some. }
  destruct (Nat.eqb_spec (length a) 1) as [H1|_].
  - assert (i = 0%nat) as -> by lia. assert (j = 0%nat) as -> by lia.
    cbn [Nat.eqb]. rewrite (Hdiag 0%nat v) by (by rewrite Hr).
    rewrite Z.sub_diag. reflexivity.
  - destruct (Nat.eqb_spec i j) as [->|_].
    + rewrite (Hdiag j v) by (by rewrite Hr).
      rewrite Z.sub_diag. reflexivity.
    + rewrite Z.sub_0_r. by apply wrap64_id.
Qed.

Lemma zero_diagonal_entry (a : ndarray) (i j : nat) :
  entry (zero_diagonal a) i j
  = (fun v => if (i =? j)%nat then 0%Z else v) <$> entry a i j.
Proof.
  unfold entry, zero_diagonal. rewrite list_lookup_imap.
  destruct (a !! i) as [r|]; [|done]. simpl.
  by rewrite list_lookup_imap.
Qed.

Lemma zero_diagonal_square (a : ndarray) :
  nrows (zero_diagonal a) = nrows a /\ ncols (zero_diagonal a) = ncols a.
Proof.
  unfold nrows, ncols, zero_diagonal. split; [apply length_imap|].
  destruct a as [|r a]; [done|]. rewrite imap_cons. apply length_imap.
Qed.

Lemma exec_bind_load {B : Type} (l : loc) (a : ndarray) (k : ndarray -> Exec heap B)
    (h : heap) :
  h !! l = Some a -> (load l ≫= k) h = k a h.
Proof. intros Hl. unfold mbind, exec_bind, load. by rewrite Hl. Qed.

Lemma exec_bind_store {B : Type} (l : loc) (a : ndarray) (k : unit -> Exec heap B)
    (h : heap) :
  (store l a ≫= k) h = k tt (<[l := a]> h).
Proof. reflexivity. Qed.

(** A square matrix survives the subtraction of its diagonal with its
    shape. *)
Lemma isub_diagflat_shape (a : ndarray) :
  square_of (length a) a ->
  exists a', isub_diagflat a = inr a' /\ nrows a' = ncols a'.
Proof.
  intros Hsq. unfold isub_diagflat.
  destruct (np_diagonal_square a 0 Hsq) as [Hlen _]. rewrite Hlen.
  assert (Hcols : ncols a = length a).
  { destruct Hsq as [_ Hrows]. destruct a as [|r a]; [done|].
    apply Forall_cons in Hrows as [Hr _]. exact Hr. }
  unfold nrows at 1. rewrite Hcols, Nat.eqb_refl. cbn [orb andb].
  eexists. split; [reflexivity|].
  unfold nrows, ncols. rewrite length_imap.
  destruct a as [|r a]; [done|]. rewrite imap_cons, length_imap. by symmetry.
Qed.

Lemma box_labels_inr (a : ndarray) (group_names : option (list string))
    (count percent omit_diagonal : bool) :
  (omit_diagonal = true -> nrows a = ncols a) ->
  exists labels, box_labels a group_names count percent omit_diagonal = inr labels.
Proof.
  intros Hsq. unfold box_labels.
  destruct omit_diagonal; [|by eexists].
  rewrite (Hsq eq_refl), Nat.eqb_refl. by eexists.
Qed.

(** A call that gets to the plotting calls ends with its figure or
    with an exception of theirs. *)
Lemma drawn_cases `{Pyplot} (fig : figure) :
  (plot fig = inr tt /\ drawn fig = inr fig) \/
  (exists e, plot fig = inl e /\ drawn fig = inl e).
Proof.
  unfold drawn. destruct (plot fig) as [e|[]]; [right; by exists e | by left].
Qed.

(** The plotting calls of [draw_confusion_matrix] are those of the
    figure it ends with; they leave the heap as it is. *)
Lemma draw_calls `{Pyplot} (size : float * float) (a : ndarray)
    (labels : list (list string)) (cmap : string) (cbar : bool)
    (categories : ticklabels) (xyplotlabels : bool) (text : string)
    (title : option string) (h : heap) :
  (lift (plt_figure size);;
   lift (sns_heatmap a labels cmap cbar categories);;
   (if xyplotlabels
    then lift (plt_ylabel "True label");;
         lift (plt_xlabel ("Predicted label" +:+ text))
    else lift (plt_xlabel text));;
   (match title with
    | Some (String c t) => lift (plt_title (String c t))
    | _ => mret tt
    end);;
   mret (mkFigure size a labels cmap cbar categories
           (if xyplotlabels then Some "True label" else None)
           (if xyplotlabels then "Predicted label" +:+ text else text)
           (match title with
            | Some (String c t) => Some (String c t)
            | _ => None
            end))) h
  = (h, drawn (mkFigure size a labels cmap cbar categories
                 (if xyplotlabels then Some "True label" else None)
                 (if xyplotlabels then "Predicted label" +:+ text else text)
                 (match title with
                  | Some (String c t) => Some (String c t)
                  | _ => None
                  end))).
Proof.
  unfold drawn, plot, mbind, exec_bind, result_bind, lift, mret, exec_ret, result_ret.
  cbn [fig_figsize heat_data heat_annot heat_cmap heat_cbar heat_ticklabels
       fig_ylabel fig_xlabel fig_title].
  destruct (plt_figure size) as [e|[]]; [done|].
  destruct (sns_heatmap a labels cmap cbar categories) as [e|[]]; [done|].
  destruct xyplotlabels.
  - destruct (plt_ylabel "True label") as [e|[]]; [done|].
    destruct (plt_xlabel _) as [e|[]]; [done|].
    destruct title as [[|c t]|]; try done.
    by destruct (plt_title _) as [e|[]].
  - destruct (plt_xlabel text) as [e|[]]; [done|].
    destruct title as [[|c t]|]; try done.
    by destruct (plt_title _) as [e|[]].
Qed.

(** The run of [draw_confusion_matrix] on an array, step by step. *)
Lemma draw_confusion_matrix_unfold `{Pyplot} (rc_figsize : float * float) (cf : loc)
    (group_names : option (list string)) (categories : ticklabels)
    (count percent cbar xyticks xyplotlabels sum_stats omit_diagonal : bool)
    (figsize : option (float * float)) (cmap : string) (title : option string)
    (h : heap) (a : ndarray) :
  h !! cf = Some a ->
  draw_confusion_matrix rc_figsize cf group_names categories count percent cbar
    xyticks xyplotlabels sum_stats omit_diagonal figsize cmap title h
  = match stats_text a sum_stats omit_diagonal with
    | inl e => (h, inl e)
    | inr text =>
        match (if omit_diagonal then isub_diagflat a else inr a) with
        | inl e => (h, inl e)
        | inr a' =>
            let h' := if omit_diagonal then <[cf := a']> h else h in
            match box_labels a' group_names count percent omit_diagonal with
            | inl e => (h', inl e)
            | inr labels =>
                (h', drawn (mkFigure (default rc_figsize figsize) a' labels cmap cbar
                              (if xyticks then categories else ticks_off)
                              (if xyplotlabels then Some "True label" else None)
                              (if xyplotlabels then "Predicted label" +:+ text else text)
                              (match title with
                               | Some (String c t) => Some (String c t)
                               | _ => None
                               end)))
            end
        end
    end.
Proof.
  intros Hcf. unfold draw_confusion_matrix.
  rewrite (exec_bind_load _ _ _ _ Hcf), exec_bind_lift.
  destruct (stats_text a sum_stats omit_diagonal) as [e|text]; [done|].
  destruct omit_diagonal.
  - unfold mbind at 1, exec_bind at 1. rewrite exec_bind_lift.
    destruct (isub_diagflat a) as [e|a']; [done|].
    unfold store at 1.
    rewrite (exec_bind_load _ a') by apply lookup_insert_eq.
    rewrite exec_bind_lift.
    destruct (box_labels a' group_names count percent true); [done|].
    cbv zeta. apply draw_calls.
  - unfold mbind at 1, exec_bind at 1. unfold mret at 1, exec_ret at 1.
    rewrite (exec_bind_load _ _ _ _ Hcf), exec_bind_lift.
    destruct (box_labels a group_names count percent false); [done|].
    cbv zeta. apply draw_calls.
Qed.

(** The run of [draw_confusion_matrix] from its three fallible steps
    to the plotting calls. *)
Lemma draw_confusion_matrix_run `{Pyplot} (rc_figsize : float * float) (cf : loc)
    (group_names : option (list string)) (categories : ticklabels)
    (count percent cbar xyticks xyplotlabels sum_stats omit_diagonal : bool)
    (figsize : option (float * float)) (cmap : string) (title : option string)
    (h : heap) (a a' : ndarray) (text : string) (labels : list (list string)) :
  h !! cf = Some a ->
  stats_text a sum_stats omit_diagonal = inr text ->
  (if omit_diagonal then isub_diagflat a = inr a' else a' = a) ->
  box_labels a' group_names count percent omit_diagonal = inr labels ->
  exists fig,
    draw_confusion_matrix rc_figsize cf group_names categories count percent cbar
      xyticks xyplotlabels sum_stats omit_diagonal figsize cmap title h
    = ((if omit_diagonal then <[cf := a']> h else h), drawn fig) /\
    heat_data fig = a' /\
    fig_xlabel fig = (if xyplotlabels then "Predicted label" else "") +:+ text.
Proof.
  intros Hcf Hstats Hsub Hlabels.
  rewrite (draw_confusion_matrix_unfold _ _ _ _ _ _ _ _ _ _ _ _ _ _ _ _ Hcf), Hstats.
  destruct omit_diagonal.
  - rewrite Hsub. cbv zeta. rewrite Hlabels.
    eexists. split; [reflexivity|]. split; [reflexivity|].
    by destruct xyplotlabels.
  - subst a'. cbv zeta. rewrite Hlabels.
    eexists. split; [reflexivity|]. split; [reflexivity|].
    by destruct xyplotlabels.
Qed.

(** C5.  For a confusion matrix of counts with a positive total, when
    [sum_stats] is set and [omit_diagonal] is not, the text of the
    statistics that [draw_confusion_matrix] puts under the figure shows
    the accuracy, the sum of the diagonal divided by the sum of all
    entries; when the matrix has two rows it also shows the precision
    [cf[1,1] / sum(cf[:,1])], the recall [cf[1,1] / sum(cf[1,:])] and
    the F1 score [2 * precision * recall / (precision + recall)].  When
    [sum_stats] is not set or [omit_diagonal] is, the text is empty.
    The call raises nothing before its plotting calls, which get this
    text for the label of the x axis. *)
Theorem stats_text_shows_statistics `{Pyplot} (rc_figsize : float * float) (cf : loc)
    (group_names : option (list string)) (categories : ticklabels)
    (count percent cbar xyticks xyplotlabels sum_stats omit_diagonal : bool)
    (figsize : option (float * float)) (cmap : string) (title : option string)
    (h : heap) (a : ndarray) :
  h !! cf = Some a ->
  square_of (length a) a ->
  counts a ->
  (0 < total_of (flatten a))%Z ->
  stats_text a sum_stats omit_diagonal
    = inr (if sum_stats && negb omit_diagonal then expected_stats a else "") /\
  exists h' fig,
    draw_confusion_matrix rc_figsize cf group_names categories count percent cbar
      xyticks xyplotlabels sum_stats omit_diagonal figsize cmap title h
    = (h', drawn fig) /\
    fig_xlabel fig
    = (if xyplotlabels then "Predicted label" else "") +:+
      (if sum_stats && negb omit_diagonal then expected_stats a else "").
Proof.
  intros Hcf Hsq Hc _.
  pose proof (stats_text_eq a sum_stats omit_diagonal Hsq Hc) as Hstats.
  split; [done|].
  destruct (isub_diagflat_shape a Hsq) as (a1 & Hsub & Ha1).
  set (a' := if omit_diagonal then a1 else a).
  destruct (box_labels_inr a' group_names count percent omit_diagonal) as [labels Hl].
  { intros ->. exact Ha1. }
  destruct (draw_confusion_matrix_run rc_figsize cf group_names categories count
              percent cbar xyticks xyplotlabels sum_stats omit_diagonal figsize
              cmap title h a a' _ labels Hcf Hstats) as (fig & Hrun & _ & Hx).
  { subst a'. by destruct omit_diagonal. }
  { exact Hl. }
  eexists _, fig. split; [exact Hrun | exact Hx].
Qed.

Lemma stats_text_shows_statistics_witness :
  exists h' fig,
    @draw_confusion_matrix example_pyplot (6.5, 4.75) 1%positive None ticks_auto
      true true true true true true false None "Blues" None example_heap
    = (h', inr fig) /\
    fig_xlabel fig
    = "Predicted label" +:+
      binary_text (13 / 16) (8 / 9) (8 / 10) (2 * (8 / 9) * (8 / 10) / (8 / 9 + 8 / 10)).
Proof.
  destruct (@stats_text_shows_statistics example_pyplot (6.5, 4.75) 1%positive
              None ticks_auto true true true true true true false None "Blues" None
              example_heap binary_cf eq_refl) as (_ & h' & fig & Hrun & Hx).
  - split; [reflexivity | repeat constructor].
  - split; [repeat constructor; lia | reflexivity].
  - reflexivity.
  - exists h', fig. split; [|exact Hx].
    destruct (@drawn_cases example_pyplot fig) as [[_ Hfig]|(e & _ & Hfig)];
      rewrite Hfig in Hrun; [exact Hrun|].
    vm_compute in Hrun. discriminate Hrun.
Defined.

(** C9.  With [omit_diagonal] set, [draw_confusion_matrix] changes the
    matrix of its caller in place: after the call the array [cf]
    refers to has zero in every diagonal entry and its other entries as
    before.  With [omit_diagonal] not set the array, like the rest of
    the heap, is as before.  This is so whether the plotting calls,
    which come after, return or raise. *)
Theorem omit_diagonal_zeroes_cf_in_place `{Pyplot} (rc_figsize : float * float) (cf : loc)
    (group_names : option (list string)) (categories : ticklabels)
    (count percent cbar xyticks xyplotlabels sum_stats omit_diagonal : bool)
    (figsize : option (float * float)) (cmap : string) (title : option string)
    (h : heap) (a : ndarray) :
  h !! cf = Some a ->
  square_of (length a) a ->
  Forall (Forall int64) a ->
  exists h' fig,
    draw_confusion_matrix rc_figsize cf group_names categories count percent cbar
      xyticks xyplotlabels sum_stats omit_diagonal figsize cmap title h
    = (h', drawn fig) /\
    (omit_diagonal = false -> h' = h) /\
    (omit_diagonal = true ->
     exists a',
       h' = <[cf := a']> h /\
       length a' = length a /\
       forall i j : nat,
         entry a' i j = (fun v => if (i =? j)%nat then 0%Z else v) <$> entry a i j).
Proof.
  intros Hcf Hsq Hint.
  assert (exists text, stats_text a sum_stats omit_diagonal = inr text) as [text Hstats].
  { unfold stats_text. destruct (negb omit_diagonal && sum_stats); [|by eexists].
    unfold nrows. destruct (Nat.eqb_spec (length a) 2) as [Hlen|_]; [|by eexists].
    destruct (square_two a Hsq Hlen) as (p & q & r & s & ->). by eexists. }
  pose proof (isub_diagflat_square a Hsq Hint) as Hsub.
  set (a' := if omit_diagonal then zero_diagonal a else a).
  destruct (box_labels_inr a' group_names count percent omit_diagonal) as [labels Hl].
  { intros ->. subst a'. destruct (zero_diagonal_square a) as [-> ->].
    destruct Hsq as [_ Hrows]. unfold nrows, ncols.
    destruct a as [|r a]; [done|]. apply Forall_cons in Hrows as [Hr _]. by symmetry. }
  destruct (draw_confusion_matrix_run rc_figsize cf group_names categories count
              percent cbar xyticks xyplotlabels sum_stats omit_diagonal figsize
              cmap title h a a' _ labels Hcf Hstats) as (fig & Hrun & _ & _).
  { subst a'. by destruct omit_diagonal. }
  { exact Hl. }
  eexists _, fig. split; [exact Hrun|]. split.
  - by intros ->.
  - intros ->. exists (zero_diagonal a). split; [done|]. split.
    + apply length_imap.
    + apply zero_diagonal_entry.
Qed.

Lemma omit_diagonal_zeroes_cf_in_place_witness :
  exists h' fig,
    @draw_confusion_matrix example_pyplot (6.5, 4.75) 1%positive None ticks_auto
      true true true true true true true None "Blues" None example_heap
    = (h', inr fig) /\
    h' !! 1%positive = Some [[0; 1]; [2; 0]]%Z.
Proof.
  destruct (@omit_diagonal_zeroes_cf_in_place example_pyplot (6.5, 4.75) 1%positive
              None ticks_auto true true true true true true true None "Blues" None
              example_heap binary_cf eq_refl)
    as (h' & fig & Hrun & _ & Hzero).
  - split; [reflexivity | repeat constructor].
  - repeat constructor; done.
  - exists h', fig.
    destruct (Hzero eq_refl) as (a' & -> & _ & Hentry).
    destruct (@drawn_cases example_pyplot fig) as [[_ Hfig]|(e & _ & Hfig)];
      rewrite Hfig in Hrun; [|vm_compute in Hrun; discriminate Hrun].
    split; [exact Hrun|].
    vm_compute in Hrun. by injection Hrun as <- _.
Defined.

(* ================================================================== *)
(** * More on [draw_confusion_matrix] *)

(** X1.  [draw_confusion_matrix] writes to no array but [cf]: whatever
    its arguments, and whether it returns or raises, every other
    location of the heap holds what it held; without [omit_diagonal]
    the whole heap is as before. *)
Theorem draw_confusion_matrix_frame `{Pyplot} (rc_figsize : float * float) (cf : loc)
    (group_names : option (list string)) (categories : ticklabels)
    (count percent cbar xyticks xyplotlabels sum_stats omit_diagonal : bool)
    (figsize : option (float * float)) (cmap : string) (title : option string)
    (h : heap) :
  let run := draw_confusion_matrix rc_figsize cf group_names categories count
               percent cbar xyticks xyplotlabels sum_stats omit_diagonal figsize
               cmap title h in
  (forall l : loc, l <> cf -> run.1 !! l = h !! l) /\
  dom run.1 = dom h /\
  (omit_diagonal = false -> run.1 = h).
Proof.
  intros run. subst run.
  destruct (h !! cf) as [a|] eqn:Hcf.
  - rewrite (draw_confusion_matrix_unfold _ _ _ _ _ _ _ _ _ _ _ _ _ _ _ _ Hcf).
    assert (Hdom : forall a', dom (<[cf := a']> h) = dom h).
    { intros a'. rewrite dom_insert_L.
      apply subseteq_union_1_L, singleton_subseteq_l, elem_of_dom. eauto. }
    destruct (stats_text a sum_stats omit_diagonal) as [e|text]; [done|].
    destruct omit_diagonal.
    + destruct (isub_diagflat a) as [e|a']; [done|]. cbv zeta.
      destruct (box_labels a' group_names count percent true) as [e|labels]; simpl;
        (split; [intros l Hl; by apply lookup_insert_ne | split; [apply Hdom | done]]).
    + cbv zeta. by destruct (box_labels a group_names count percent false).
  - unfold draw_confusion_matrix, mbind, exec_bind, load. by rewrite Hcf.
Qed.

Lemma draw_frame_witness :
  (@draw_confusion_matrix example_pyplot (6.5, 4.75) 1%positive None ticks_auto
     true true true true true true true None "Blues" None two_heap).1
    !! 2%positive
  = Some row_cf.
Proof.
  pose proof (@draw_confusion_matrix_frame example_pyplot (6.5, 4.75) 1%positive None ticks_auto
                true true true true true true true None "Blues" None two_heap)
    as [Hother _].
  rewrite (Hother 2%positive) by discriminate. reflexivity.
Defined.

(** ** Matrices that are not square *)

Lemma diagonal_from_length (a : ndarray) (c k : nat) :
  Forall (fun r => length r = c) a ->
  length (diagonal_from k a) = Nat.min (length a) (c - k).
Proof.
  intros Ha. revert k. induction Ha as [|r a Hr Ha IH]; intros k; [done|].
  rewrite diagonal_from_cons.
  destruct (r !! k) as [v|] eqn:Hv.
  - apply lookup_lt_Some in Hv. cbn [length]. rewrite IH. lia.
  - apply lookup_ge_None in Hv. cbn [length]. rewrite IH. lia.
Qed.

Lemma np_diagonal_length (a : ndarray) :
  rectangular a -> length (np_diagonal a) = Nat.min (nrows a) (ncols a).
Proof.
  intros Ha. rewrite np_diagonal_from, (diagonal_from_length a (ncols a) 0 Ha).
  unfold nrows. lia.
Qed.

Lemma imap_ignore {A B : Type} (f : A -> B) (l : list A) :
  imap (fun _ x => f x) l = map f l.
Proof. induction l as [|x l IH]; [done|]. rewrite imap_cons. simpl. by f_equal. Qed.

Lemma map_map_shape (f : Z -> Z) (a : ndarray) :
  nrows (map (map f) a) = nrows a /\ ncols (map (map f) a) = ncols a.
Proof.
  unfold nrows, ncols. split; [apply length_map|].
  destruct a as [|r a]; [done|]. apply length_map.
Qed.

(** X2.  With [omit_diagonal] a matrix that is not square makes
    [draw_confusion_matrix] raise [ValueError].  A matrix of several
    rows and columns is refused by the subtraction and left as it was.
    A single row or column passes the subtraction, which takes the
    first entry off every entry of the caller's array, and the error
    comes after, when the diagonal of the texts is blanked. *)
Theorem omit_diagonal_not_square `{Pyplot} (rc_figsize : float * float) (cf : loc)
    (group_names : option (list string)) (categories : ticklabels)
    (count percent cbar xyticks xyplotlabels sum_stats : bool)
    (figsize : option (float * float)) (cmap : string) (title : option string)
    (h : heap) (a : ndarray) :
  h !! cf = Some a ->
  rectangular a ->
  nrows a <> ncols a ->
  draw_confusion_matrix rc_figsize cf group_names categories count percent cbar
    xyticks xyplotlabels sum_stats true figsize cmap title h
  = if (Nat.min (nrows a) (ncols a) =? 1)%nat
    then (<[cf := map (map (fun v => wrap64 (v - default 0%Z (entry a 0 0)))) a]> h,
          raise (ValueError "All dimensions of input must be of equal length"))
    else (h, raise (ValueError "operands could not be broadcast together")).
Proof.
  intros Hcf Hrect Hns.
  rewrite (draw_confusion_matrix_unfold _ _ _ _ _ _ _ _ _ _ _ _ _ _ _ _ Hcf).
  assert (Hstats : stats_text a sum_stats true = inr "") by reflexivity.
  rewrite Hstats. unfold isub_diagflat.
  rewrite (np_diagonal_length a Hrect).
  destruct (Nat.eqb_spec (Nat.min (nrows a) (ncols a)) 1) as [H1|H1].
  - rewrite !orb_true_r. cbn [andb].
    assert (exists d, entry a 0 0 = Some d /\ nth 0 (np_diagonal a) 0%Z = d)
      as (d & Hd & Hnth).
    { destruct a as [|[|d r0] a]; simpl in H1; try lia.
      exists d. split; [done|]. by rewrite np_diagonal_from, diagonal_from_cons. }
    rewrite Hd. simpl default.
    assert (Ha' : imap (fun (i : nat) (r : list Z) =>
                          imap (fun (j : nat) (v : Z) =>
                                  wrap64 (v - (if (0 =? 0)%nat
                                               then nth 0 (np_diagonal a) 0%Z
                                               else 0%Z))) r) a
                  = map (map (fun v => wrap64 (v - d))) a).
    { rewrite Hnth. cbn [Nat.eqb]. rewrite imap_ignore. apply map_ext.
      intros r. by rewrite imap_ignore. }
    unfold mret at 1, result_ret at 1. rewrite Ha'. cbv zeta.
    unfold box_labels.
    destruct (map_map_shape (fun v => wrap64 (v - d)) a) as [-> ->].
    destruct (Nat.eqb_spec (nrows a) (ncols a)); [done|]. reflexivity.
  - replace ((_ || _) && (_ || _)) with false; [reflexivity|].
    symmetry. apply andb_false_iff.
    destruct (Nat.eqb_spec (Nat.min (nrows a) (ncols a)) (nrows a)),
             (Nat.eqb_spec (Nat.min (nrows a) (ncols a)) (ncols a));
      simpl; try (by left); try (by right). lia.
Qed.

Lemma omit_diagonal_not_square_witness :
  @draw_confusion_matrix example_pyplot (6.5, 4.75) 2%positive None ticks_auto
    true true true true true true true None "Blues" None two_heap
  = (<[2%positive := [[0; -3; -2]]%Z]> two_heap,
     raise (ValueError "All dimensions of input must be of equal length")).
Proof.
  apply (@omit_diagonal_not_square example_pyplot (6.5, 4.75) 2%positive None ticks_auto
           true true true true true true None "Blues" None two_heap row_cf).
  - reflexivity.
  - repeat constructor.
  - discriminate.
Defined.

(** ** The texts of the boxes *)

Lemma reshape_shape {A : Type} (r c : nat) (l : list A) :
  length l = (r * c)%nat -> shape_of r c (reshape r c l).
Proof.
  revert l. induction r as [|r IH]; intros l Hl; [split; [done|constructor]|].
  destruct (IH (drop c l)) as [Hlen Hrows]; [rewrite length_drop; lia|].
  split; simpl; [by rewrite Hlen|].
  constructor; [rewrite length_take; lia | done].
Qed.

Lemma zip3_length (l1 l2 l3 : list string) (n : nat) :
  length l1 = n -> length l2 = n -> length l3 = n ->
  length (zip3 l1 l2 l3) = n.
Proof.
  revert l1 l2 l3. induction n as [|n IH]; intros [|a l1] [|b l2] [|c l3];
    simpl; try done.
  intros [= H1] [= H2] [= H3]. f_equal. by apply IH.
Qed.

Lemma flatten_length (a : ndarray) :
  rectangular a -> length (flatten a) = np_size a.
Proof.
  unfold rectangular, np_size, nrows, flatten. generalize (ncols a). intros c Ha.
  induction Ha as [|r a Hr Ha IH]; [done|].
  rewrite concat_cons, length_app, IH, Hr. simpl. lia.
Qed.

Lemma imap_imap_shape {A : Type} (f : nat -> nat -> A -> A) (r c : nat)
    (m : list (list A)) :
  shape_of r c m -> shape_of r c (imap (fun i row => imap (f i) row) m).
Proof.
  intros [Hlen Hrows]. split; [by rewrite length_imap|].
  apply Forall_lookup. intros i row Hrow.
  rewrite list_lookup_imap in Hrow.
  destruct (m !! i) as [row0|] eqn:Hi; [|done]. simpl in Hrow.
  injection Hrow as <-. rewrite length_imap.
  rewrite Forall_lookup in Hrows. by eapply Hrows.
Qed.

(** The texts before the diagonal is blanked: a matrix of the shape of
    [a]. *)
Lemma box_labels_keep (a : ndarray) (group_names : option (list string))
    (count percent : bool) :
  rectangular a ->
  exists labels,
    box_labels a group_names count percent false = inr labels /\
    shape_of (nrows a) (ncols a) labels /\
    forall omit_diagonal result,
      box_labels a group_names count percent omit_diagonal = inr result ->
      result = if omit_diagonal
               then imap (fun i r => imap (fun j v => if (i =? j)%nat then "" else v) r)
                      labels
               else labels.
Proof.
  intros Hrect. unfold box_labels. eexists. split; [reflexivity|]. split.
  - apply reshape_shape. rewrite length_map. apply zip3_length.
    + destruct group_names as [[|g gs]|]; try apply length_replicate.
      destruct (Nat.eqb_spec (length (g :: gs)) (np_size a)) as [Hg|_];
        [by rewrite length_map | apply length_replicate].
    + destruct count; [|apply length_replicate].
      rewrite length_map. by apply flatten_length.
    + destruct percent; [|apply length_replicate].
      rewrite length_map. by apply flatten_length.
  - intros [|] result; [|by intros [= <-]].
    destruct (nrows a =? ncols a)%nat; [|discriminate]. by intros [= <-].
Qed.

(** X3.  The matrix of texts [draw_confusion_matrix] hands to the
    heatmap has the shape of the matrix it draws, which is the shape of
    the caller's [cf]: as many rows, and in every row as many
    columns. *)
Theorem annotations_match_matrix `{Pyplot} (rc_figsize : float * float) (cf : loc)
    (group_names : option (list string)) (categories : ticklabels)
    (count percent cbar xyticks xyplotlabels sum_stats omit_diagonal : bool)
    (figsize : option (float * float)) (cmap : string) (title : option string)
    (h h' : heap) (a : ndarray) (fig : figure) :
  h !! cf = Some a ->
  rectangular a ->
  draw_confusion_matrix rc_figsize cf group_names categories count percent cbar
    xyticks xyplotlabels sum_stats omit_diagonal figsize cmap title h
  = (h', inr fig) ->
  shape_of (nrows a) (ncols a) (heat_data fig) /\
  shape_of (nrows a) (ncols a) (heat_annot fig).
Proof.
  intros Hcf Hrect.
  rewrite (draw_confusion_matrix_unfold _ _ _ _ _ _ _ _ _ _ _ _ _ _ _ _ Hcf).
  destruct (stats_text a sum_stats omit_diagonal) as [e|text]; [discriminate|].
  assert (Hshape : shape_of (nrows a) (ncols a) a) by (split; [done | exact Hrect]).
  assert (Hsub : forall a', (if omit_diagonal then isub_diagflat a else inr a) = inr a' ->
                            shape_of (nrows a) (ncols a) a' /\
                            nrows a' = nrows a /\ ncols a' = ncols a).
  { intros a'. destruct omit_diagonal; [|by intros [= <-]].
    unfold isub_diagflat. destruct (_ && _); [|discriminate]. intros [= <-].
    split; [by apply imap_imap_shape|].
    unfold nrows, ncols. rewrite length_imap. split; [done|].
    destruct a as [|r a]; [done|]. by rewrite imap_cons, length_imap. }
  destruct (if omit_diagonal then isub_diagflat a else inr a) as [e|a'];
    [discriminate|].
  destruct (Hsub a' eq_refl) as (Ha' & Hr & Hc). cbv zeta.
  assert (Hrect' : rectangular a').
  { unfold rectangular. rewrite Hc. apply Ha'. }
  destruct (box_labels_keep a' group_names count percent Hrect')
    as (labels & _ & Hlabels & Hall).
  destruct (box_labels a' group_names count percent omit_diagonal)
    as [e|result] eqn:Hbox; [discriminate|].
  intros [= _ Hfig].
  destruct (drawn_cases (mkFigure (default rc_figsize figsize) a' result cmap cbar
              (if xyticks then categories else ticks_off)
              (if xyplotlabels then Some "True label" else None)
              (if xyplotlabels then "Predicted label" +:+ text else text)
              (match title with
               | Some (String c t) => Some (String c t)
               | _ => None
               end)))
    as [[_ Hd]|(e & _ & Hd)]; rewrite Hd in Hfig; [|discriminate].
  injection Hfig as <-. simpl. split; [done|].
  rewrite (Hall _ _ Hbox), <- Hr, <- Hc.
  destruct omit_diagonal; [by apply imap_imap_shape | done].
Qed.

Lemma annotations_match_matrix_witness :
  exists h' fig,
    @draw_confusion_matrix example_pyplot (6.5, 4.75) 2%positive None ticks_auto
      true true true true true true false None "Blues" None two_heap
    = (h', inr fig) /\
    shape_of 1 3 (heat_data fig) /\ shape_of 1 3 (heat_annot fig).
Proof.
  eexists _, _. split; [vm_compute; reflexivity|].
  eapply (@annotations_match_matrix example_pyplot (6.5, 4.75) 2%positive None ticks_auto
            true true true true true true false None "Blues" None two_heap _ row_cf).
  - reflexivity.
  - repeat constructor.
  - vm_compute. reflexivity.
Defined.

(** X4.  With [omit_diagonal], on a square matrix, the figure shows
    the matrix without its diagonal: the values drawn are those of [cf]
    with zeros on the diagonal, the texts on the diagonal are empty,
    and every other text is the one the matrix with the zeroed diagonal
    gets on its own, so that its percentage is a share of the sum of
    the entries off the diagonal.  These are the arguments of the
    plotting calls, and the figure when they return. *)
Theorem omit_diagonal_figure `{Pyplot} (rc_figsize : float * float) (cf : loc)
    (group_names : option (list string)) (categories : ticklabels)
    (count percent cbar xyticks xyplotlabels sum_stats : bool)
    (figsize : option (float * float)) (cmap : string) (title : option string)
    (h : heap) (a : ndarray) :
  h !! cf = Some a ->
  square_of (length a) a ->
  Forall (Forall int64) a ->
  exists h' fig labels,
    draw_confusion_matrix rc_figsize cf group_names categories count percent cbar
      xyticks xyplotlabels sum_stats true figsize cmap title h
    = (h', drawn fig) /\
    heat_data fig = zero_diagonal a /\
    box_labels (zero_diagonal a) group_names count percent false = inr labels /\
    forall i j : nat, (i < length a)%nat -> (j < length a)%nat ->
      heat_annot fig !! i ≫= (.!! j)
      = if (i =? j)%nat then Some "" else labels !! i ≫= (.!! j).
Proof.
  intros Hcf Hsq Hint.
  rewrite (draw_confusion_matrix_unfold _ _ _ _ _ _ _ _ _ _ _ _ _ _ _ _ Hcf).
  assert (Hstats : stats_text a sum_stats true = inr "") by reflexivity.
  rewrite Hstats, (isub_diagflat_square a Hsq Hint). cbv zeta.
  destruct (zero_diagonal_square a) as [Hr Hc].
  assert (Hcols : ncols a = length a).
  { destruct Hsq as [_ Hrows]. destruct a as [|r a]; [done|].
    apply Forall_cons in Hrows as [Hr0 _]. exact Hr0. }
  assert (Hrect : rectangular (zero_diagonal a)).
  { unfold rectangular. rewrite Hc, Hcols.
    destruct Hsq as [_ Hrows]. unfold zero_diagonal.
    apply (imap_imap_shape (fun i j v => if (i =? j)%nat then 0%Z else v)
             (length a) (length a) a). by split. }
  destruct (box_labels_keep (zero_diagonal a) group_names count percent Hrect)
    as (labels & Hkeep & [Hlen Hrows] & Hall).
  destruct (box_labels_inr (zero_diagonal a) group_names count percent true)
    as [result Hbox].
  { intros _. rewrite Hr, Hc. unfold nrows. by symmetry. }
  rewrite Hbox. pose proof (Hall _ _ Hbox) as ->.
  eexists _, _, labels. split; [reflexivity|]. split; [reflexivity|].
  split; [exact Hkeep|].
  intros i j Hi Hj. cbn [heat_annot]. rewrite list_lookup_imap.
  rewrite Hr in Hlen. unfold nrows in Hlen.
  destruct (lookup_lt_is_Some_2 labels i ltac:(lia)) as [row Hrow].
  rewrite Hrow. simpl. rewrite list_lookup_imap.
  assert (Hrowlen : length row = length a).
  { rewrite Forall_lookup in Hrows. rewrite (Hrows _ _ Hrow), Hc. exact Hcols. }
  destruct (lookup_lt_is_Some_2 row j ltac:(lia)) as [v Hv].
  rewrite Hv. simpl. by destruct (i =? j)%nat.
Qed.

Lemma omit_diagonal_figure_witness :
  exists h' fig labels,
    @draw_confusion_matrix example_pyplot (6.5, 4.75) 1%positive None ticks_auto
      true true true true true true true None "Blues" None example_heap
    = (h', inr fig) /\
    heat_data fig = [[0; 1]; [2; 0]]%Z /\
    box_labels [[0; 1]; [2; 0]]%Z None true true false = inr labels /\
    forall i j : nat, (i < 2)%nat -> (j < 2)%nat ->
      heat_annot fig !! i ≫= (.!! j)
      = if (i =? j)%nat then Some "" else labels !! i ≫= (.!! j).
Proof.
  destruct (@omit_diagonal_figure example_pyplot (6.5, 4.75) 1%positive None
              ticks_auto true true true true true true None "Blues" None
              example_heap binary_cf eq_refl)
    as (h' & fig & labels & Hrun & Hrest).
  - split; [reflexivity | repeat constructor].
  - repeat constructor; done.
  - exists h', fig, labels. split; [|exact Hrest].
    destruct (@drawn_cases example_pyplot fig) as [[_ Hfig]|(e & _ & Hfig)];
      rewrite Hfig in Hrun; [exact Hrun|].
    vm_compute in Hrun. discriminate Hrun.
Defined.

(** X5.  A square matrix of counts with no observation at all raises
    nothing: every quotient of the statistics is zero by zero, and the
    text shows [nan] for the accuracy and, for two rows, for the
    precision, the recall and the F1 score. *)
Theorem stats_text_of_zero_total (a : ndarray) :
  square_of (length a) a ->
  counts a ->
  total_of (flatten a) = 0%Z ->
  stats_text a true false = inr (nan_text (length a)).
Proof.
  intros Hsq Hc Hzero.
  rewrite (stats_text_eq a true false Hsq Hc). cbn [andb negb]. f_equal.
  unfold expected_stats, nan_text.
  destruct Hc as [Hnn Hsum].
  destruct (diagonal_from_bound a 0 Hnn) as [Hd Hle].
  pose proof (total_of_nonneg _ Hd) as Hd0.
  rewrite np_diagonal_from.
  replace (total_of (diagonal_from 0 a)) with 0%Z by lia. rewrite Hzero.
  destruct (Nat.eqb_spec (length a) 2) as [Hlen|_]; [|reflexivity].
  destruct (square_two a Hsq Hlen) as (p & q & r & s & ->).
  apply Forall_cons in Hnn as [Hr1 Hnn]. apply Forall_cons in Hnn as [Hr2 _].
  apply Forall_cons in Hr1 as [Hp Hr1]. apply Forall_cons in Hr1 as [Hq _].
  apply Forall_cons in Hr2 as [Hr Hr2]. apply Forall_cons in Hr2 as [Hs _].
  cbn in Hzero.
  assert (p = 0 /\ q = 0 /\ r = 0 /\ s = 0)%Z as (-> & -> & -> & ->) by lia.
  reflexivity.
Qed.

Lemma stats_text_of_zero_total_witness :
  stats_text (zeros 6 6) true false = inr (nan_text 6).
Proof.
  apply (stats_text_of_zero_total (zeros 6 6)).
  - split; [reflexivity | repeat constructor].
  - split; [repeat constructor; done | reflexivity].
  - reflexivity.
Defined.

(* ================================================================== *)
(** * More on [all_together] *)

Section Runs.
Context `{Torch} `{ModelsFunctional}.

(** An exception that leaves the loop leaves [all_together]. *)
Lemma all_together_loop_raises (env : environment) (model : Model) (ds : Dataset)
    (device_ : option device) (verbose : bool)
    (items : list (result (Tensor * Tensor))) (s : locals) (e : exception) :
  make_iterator env ds = inr items ->
  eval_to model (resolve_device env device_) = inr tt ->
  for_loop model (resolve_device env device_) items initial = (s, inl e) ->
  all_together env model ds device_ verbose = inl e.
Proof.
  intros Hit Hto Hloop. unfold all_together.
  by rewrite Hit, result_bind_inr, Hto, result_bind_inr, Hloop.
Qed.

Lemma as_batch_size_nonneg (x true_ xb tb : Tensor) (n : Z) :
  as_batch x true_ = inr (xb, tb, n) -> (0 <= n)%Z.
Proof.
  destruct (as_batch_cases x true_) as [[_ E]|[[_ E]|(_ & _ & E)]];
    rewrite E; [| |discriminate]; intros [= _ _ <-]; [unfold size0|]; lia.
Qed.

(** Among reports whose sizes do not add up to zero one comes from a
    batch with samples. *)
Lemma some_batch_has_samples (model : Model) (dev_ : device)
    (items : list (result (Tensor * Tensor))) (rs : list batch_report) :
  Forall2 (fun it r => eval_item model dev_ it = inr r) items rs ->
  samples rs <> 0%Z ->
  exists x true_ xb tb n,
    inr (x, true_) ∈ items /\ as_batch x true_ = inr (xb, tb, n) /\ (0 < n)%Z.
Proof.
  induction 1 as [|it r items rs Hr _ IH]; [done|].
  unfold samples. simpl. fold (samples rs). intros Hne.
  unfold eval_item in Hr. destruct it as [e|[x t]]; [discriminate|].
  rewrite result_bind_inr in Hr.
  destruct (eval_batch_size _ _ _ _ _ Hr) as (xb & tb & Hb).
  pose proof (as_batch_size_nonneg _ _ _ _ _ Hb) as Hn.
  destruct (Z.eq_dec (b_size r) 0%Z) as [Hz|Hz].
  - destruct IH as (x' & t' & xb' & tb' & n & Hin & Hb' & Hpos); [lia|].
    exists x', t', xb', tb', n. split; [by right | done].
  - exists x, t, xb, tb, (b_size r). split; [by left|]. split; [done | lia].
Qed.
End Runs.

(** X6.  [all_together] gives no result without a sample.  On a
    dataset that yields nothing it raises the [RuntimeError] of
    [torch.cat], before any division; and whenever it returns, some
    pair of the dataset made a batch of at least one sample. *)
Theorem no_result_without_samples `{Torch} `{ModelsFunctional}
    (env : environment) (model : Model) (ds : Dataset)
    (device_ : option device) (verbose : bool) :
  (ds_items ds = [] ->
   forall it, make_iterator env ds = inr it ->
   eval_to model (resolve_device env device_) = inr tt ->
   all_together env model ds device_ verbose
   = raise (RuntimeError "torch.cat(): expected a non-empty list of Tensors")) /\
  (forall out t,
     all_together env model ds device_ verbose = inr (out, t) ->
     exists x true_ xb tb n,
       inr (x, true_) ∈ ds_items ds /\
       as_batch x true_ = inr (xb, tb, n) /\ (0 < n)%Z).
Proof.
  split.
  - intros Hnil it Hit Hto. unfold all_together.
    rewrite Hit, result_bind_inr, Hto, result_bind_inr.
    apply make_iterator_inr in Hit as ->. by rewrite Hnil.
  - intros out [[[[b d] i] c] cm] Hrun.
    apply all_together_inr in Hrun as (rs & Hrs & Hne & _).
    by eapply some_batch_has_samples.
Qed.

Lemma no_result_without_samples_witness :
  @all_together example_torch example_functional
    notebook_env example_model (mkDataset (inr 0%Z) []) (Some (cuda 1)) false
  = raise (RuntimeError "torch.cat(): expected a non-empty list of Tensors").
Proof.
  eapply (proj1 (@no_result_without_samples example_torch example_functional
                   notebook_env example_model (mkDataset (inr 0%Z) [])
                   (Some (cuda 1)) false)); reflexivity.
Defined.

(** X7.  What happens while the progress bar is built decides nothing
    but this: an exception of another class than [ImportError],
    [TypeError] and [ValueError] leaves [all_together] at once, the
    model untouched; one of these three classes, as when the dataset
    has no length, is dropped, and the run is the run with the progress
    bar. *)
Theorem progress_bar_errors `{Torch} `{ModelsFunctional}
    (env : environment) (model : Model) (ds : Dataset)
    (device_ : option device) (verbose : bool) (e : exception) :
  (import_tqdm env;; ds_len ds;; tqdm_bar env) = inl e ->
  all_together env model ds device_ verbose
  = if caught e
    then all_together (mkEnv (inr tt) (inr tt) (cuda_is_available env)) model
           (mkDataset (inr 0%Z) (ds_items ds)) device_ verbose
    else raise e.
Proof.
  intros He. unfold all_together, make_iterator. rewrite He.
  destruct (caught e); [|reflexivity].
  change (ds_items (mkDataset (inr 0%Z) (ds_items ds))) with (iterate (ds_items ds)).
  by rewrite iterate_ds_items.
Qed.

Lemma progress_bar_errors_witness :
  @all_together example_torch example_functional
    notebook_env example_model generator_dataset None true
  = @all_together example_torch example_functional
      notebook_env example_model (mkDataset (inr 0%Z) (ds_items example_dataset))
      None true
  /\
  @all_together example_torch example_functional
    notebook_env failing_model broken_dataset None true
  = raise (RuntimeError "connection lost").
Proof.
  split.
  - exact (@progress_bar_errors example_torch example_functional
             notebook_env example_model generator_dataset None true _ eq_refl).
  - exact (@progress_bar_errors example_torch example_functional
             notebook_env failing_model broken_dataset None true _ eq_refl).
Defined.

(** X8.  A model whose output dictionary has no entry ["out"] makes
    [all_together] raise [KeyError] at the first pair that reaches it,
    before any metric is computed: the accumulators are those the
    pairs before left. *)
Theorem missing_out_key `{Torch} `{ModelsFunctional}
    (env : environment) (model : Model) (ds : Dataset)
    (device_ : option device) (verbose : bool)
    (pre post : list (result (Tensor * Tensor)))
    (x true_ xb tb : Tensor) (n : Z) (d : gmap string Tensor) (s : locals) :
  make_iterator env ds = inr (pre ++ inr (x, true_) :: post) ->
  eval_to model (resolve_device env device_) = inr tt ->
  for_loop model (resolve_device env device_) pre initial = (s, inr tt) ->
  as_batch x true_ = inr (xb, tb, n) ->
  forward model (tensor_float (to (resolve_device env device_) xb)) = inr d ->
  d !! "out" = None ->
  for_loop model (resolve_device env device_) (pre ++ inr (x, true_) :: post) initial
    = (s, raise (KeyError "out")) /\
  all_together env model ds device_ verbose = raise (KeyError "out").
Proof.
  intros Hit Hto Hpre Hb Hf Hd.
  assert (Hloop : for_loop model (resolve_device env device_)
                    (pre ++ inr (x, true_) :: post) initial
                  = (s, raise (KeyError "out"))).
  { rewrite (for_loop_app _ _ _ _ _ _ (make_iterator_prefix _ _ _ _ Hit) Hpre),
      for_loop_cons.
    unfold loop_body. rewrite exec_bind_lift, Hb. cbv beta iota zeta.
    rewrite exec_bind_lift, Hf, exec_bind_lift. unfold getitem. by rewrite Hd. }
  split; [done|]. by eapply all_together_loop_raises.
Qed.

Lemma missing_out_key_witness :
  @all_together example_torch example_functional
    example_env aux_only_model example_dataset None true
  = raise (KeyError "out").
Proof.
  eapply (@missing_out_key example_torch example_functional
            example_env aux_only_model example_dataset None true
            [] [inr (single_x, single_true)] batch_x batch_true batch_x batch_true 2%Z);
    reflexivity.
Defined.

(** ** When the run returns *)

Lemma float_mul_int_finite (f : float) (n : Z) :
  finite_size n -> float_mul_int f n = inr (f * Z2float n).
Proof.
  unfold finite_size, float_mul_int, float_of_int. by intros ->.
Qed.

Lemma float_truediv_int_finite (f : float) (n : Z) :
  finite_size n -> n <> 0%Z -> float_truediv_int f n = inr (f / Z2float n).
Proof.
  unfold finite_size, float_truediv_int, float_of_int, mbind, result_bind,
    mret, result_ret.
  intros -> Hn. by destruct (Z.eqb_spec n 0).
Qed.

Section Complete.
Context `{Torch} `{ModelsFunctional}.
Variable model : Model.
Variable dev_ : device.

(** A batch that has a report, and a size that converts to a float,
    passes the body and adds its report to the accumulators. *)
Lemma loop_body_complete (x true_ : Tensor) (r : batch_report) (s : locals) :
  eval_batch model dev_ x true_ = inr r ->
  finite_size (b_size r) ->
  loop_body model dev_ x true_ s = (accumulate s r, inr tt).
Proof.
  unfold eval_batch, loop_body, prepare_target.
  destruct (as_batch x true_) as [e|[[xb tb] size]]; [discriminate|].
  rewrite result_bind_inr, exec_bind_lift. cbv beta iota zeta.
  do 13 result_step. intros [= <-] Hfin. simpl in Hfin.
  repeat first
    [ rewrite exec_bind_modify
    | rewrite exec_bind_lift;
      first [ rewrite (float_mul_int_finite _ _ Hfin)
            | match goal with
              | E : ?m = inr _
                |- context [match ?m with inl _ => _ | inr _ => _ end] =>
                  rewrite E
              end
            | idtac ];
      cbv beta iota ].
  reflexivity.
Qed.

Lemma for_loop_complete (items : list (result (Tensor * Tensor)))
    (rs : list batch_report) (s : locals) :
  Forall2 (fun it r => eval_item model dev_ it = inr r) items rs ->
  Forall (fun r => finite_size (b_size r)) rs ->
  for_loop model dev_ items s = (foldl accumulate s rs, inr tt).
Proof.
  intros Hrs. revert s. induction Hrs as [|it r items rs Hr _ IH]; intros s Hfin.
  - reflexivity.
  - apply Forall_cons in Hfin as [Hfr Hfin].
    unfold eval_item in Hr. destruct it as [e|[x t]]; [discriminate|].
    rewrite result_bind_inr in Hr.
    rewrite for_loop_cons, (loop_body_complete _ _ _ _ Hr Hfr).
    by apply IH.
Qed.
End Complete.

(** X9.  [all_together] returns as soon as nothing stands in its way:
    the iterator is built, the model moves to the device, every pair
    has its metrics, the sizes of the batches and their sum convert to
    floats, the sum is not zero and [confusion_matrix] takes the
    concatenated labels.  The result is then the weighted means, the
    matrix, and the summary when [verbose] is set. *)
Theorem all_together_returns `{Torch} `{ModelsFunctional}
    (env : environment) (model : Model) (ds : Dataset)
    (device_ : option device) (verbose : bool)
    (it : list (result (Tensor * Tensor))) (rs : list batch_report)
    (cm : ndarray) :
  make_iterator env ds = inr it ->
  eval_to model (resolve_device env device_) = inr tt ->
  Forall2 (fun it r => eval_item model (resolve_device env device_) it = inr r)
    (ds_items ds) rs ->
  Forall (fun r => finite_size (b_size r)) rs ->
  finite_size (samples rs) ->
  samples rs <> 0%Z ->
  confusion_matrix (concat (map (fun r => ldata (b_targets r)) rs))
    (concat (map (fun r => ldata (b_logits r)) rs)) (range 6) = inr cm ->
  all_together env model ds device_ verbose
  = inr ((if verbose
          then [summary_text (class_name model) (weighted_mean b_bce rs)
                  (1 - weighted_mean b_dice rs) (1 - weighted_mean b_iou rs)
                  (weighted_mean b_correct rs * 100)]
          else []),
         (weighted_mean b_bce rs, weighted_mean b_dice rs,
          weighted_mean b_iou rs, weighted_mean b_correct rs, cm)).
Proof.
  intros Hit Hto Hrs Hfin Hsum Hne Hcm. unfold all_together.
  rewrite Hit, result_bind_inr, Hto, result_bind_inr.
  apply make_iterator_inr in Hit as ->.
  rewrite (for_loop_complete _ _ _ _ _ Hrs Hfin).
  assert (Hrs0 : rs <> []) by (intros ->; by apply Hne).
  unfold finish.
  rewrite foldl_accumulate_logits, foldl_accumulate_targets, foldl_accumulate_total.
  cbn [logits targets total initial app]. rewrite Z.add_0_l.
  destruct rs as [|r0 rs']; [done|]. set (rs := r0 :: rs') in *.
  assert (Hcat : forall f : batch_report -> LongTensor,
            exists t, torch_cat (map f rs) = inr t /\
                      numpy t = concat (map (fun r => ldata (f r)) rs)).
  { intros f. eexists. split; [reflexivity|]. unfold numpy. cbn [ldata].
    by rewrite map_map. }
  destruct (Hcat b_logits) as (lg & -> & Hlg).
  destruct (Hcat b_targets) as (tg & -> & Htg).
  rewrite !result_bind_inr, Hlg, Htg, Hcm, result_bind_inr.
  rewrite !(float_truediv_int_finite _ _ Hsum Hne), !result_bind_inr.
  unfold weighted_mean, weighted_sum.
  rewrite (foldl_accumulate_metric bce b_bce) by done.
  rewrite (foldl_accumulate_metric dice b_dice) by done.
  rewrite (foldl_accumulate_metric iou b_iou) by done.
  rewrite (foldl_accumulate_metric correct b_correct) by done.
  destruct verbose; [rewrite summary_eq|]; reflexivity.
Qed.

Lemma all_together_returns_witness :
  exists (rs : list batch_report) (cm : ndarray),
    map b_size rs = [2; 1]%Z /\
    @all_together example_torch example_functional
      example_env example_model example_dataset None false
    = inr ([], (weighted_mean b_bce rs, weighted_mean b_dice rs,
                weighted_mean b_iou rs, weighted_mean b_correct rs, cm)).
Proof.
  eexists _, _. split;
    [|eapply (@all_together_returns example_torch example_functional
                example_env example_model example_dataset None false)].
  - shelve.
  - reflexivity.
  - reflexivity.
  - repeat constructor; vm_compute; reflexivity.
  - repeat constructor.
  - reflexivity.
  - discriminate.
  - vm_compute. reflexivity.
  Unshelve. reflexivity.
Defined.

(** ** The pixels the confusion matrix counts *)

Lemma total_of_alter_succ (r : list Z) (j : nat) :
  (j < length r)%nat -> total_of (alter Z.succ j r) = (total_of r + 1)%Z.
Proof.
  revert j. induction r as [|v r IH]; intros j Hj; simpl in Hj; [lia|].
  destruct j as [|j].
  - change (alter Z.succ 0%nat (v :: r)) with (Z.succ v :: r). simpl. lia.
  - change (alter Z.succ (S j) (v :: r)) with (v :: alter Z.succ j r).
    simpl. rewrite IH by lia. lia.
Qed.

Lemma total_of_concat_alter (m i j : nat) (cm : ndarray) :
  Forall (fun r => length r = m) cm -> (j < m)%nat -> (i < length cm)%nat ->
  total_of (concat (alter (alter Z.succ j) i cm)) = (total_of (concat cm) + 1)%Z.
Proof.
  intros Hm Hj. revert i.
  induction Hm as [|r cm Hr Hm IH]; intros i Hi; simpl in Hi; [lia|].
  destruct i as [|i].
  - change (alter (alter Z.succ j) 0%nat (r :: cm)) with (alter Z.succ j r :: cm).
    rewrite !concat_cons, !total_of_app, total_of_alter_succ by lia. lia.
  - change (alter (alter Z.succ j) (S i) (r :: cm))
      with (r :: alter (alter Z.succ j) i cm).
    rewrite !concat_cons, !total_of_app, IH by lia. lia.
Qed.

Lemma total_of_cm_incr (n i j : nat) (cm : ndarray) :
  square_of n cm -> (i < n)%nat -> (j < n)%nat ->
  total_of (flatten (cm_incr i j cm)) = (total_of (flatten cm) + 1)%Z.
Proof.
  intros [Hlen Hrows] Hi Hj. unfold cm_incr, flatten.
  apply (total_of_concat_alter n); [done | done | lia].
Qed.

Lemma total_of_fold_incr (n : nat) (ps : list (nat * nat)) (cm : ndarray) :
  square_of n cm ->
  Forall (fun p => (p.1 < n)%nat /\ (p.2 < n)%nat) ps ->
  total_of (flatten (fold_left (fun cm ij => cm_incr ij.1 ij.2 cm) ps cm))
  = (total_of (flatten cm) + Z.of_nat (length ps))%Z.
Proof.
  intros Hsq Hps. revert cm Hsq.
  induction Hps as [|[i j] ps [Hi Hj] Hps IH]; intros cm Hsq; simpl; [lia|].
  rewrite IH by (by apply cm_incr_square).
  rewrite (total_of_cm_incr n) by done. lia.
Qed.

Lemma total_of_zeros (r c : nat) : total_of (flatten (zeros r c)) = 0%Z.
Proof.
  unfold zeros, flatten. induction r as [|r IH]; [done|].
  simpl. rewrite total_of_app, IH.
  clear. induction c as [|c IH]; [done|]. simpl. lia.
Qed.

Lemma both_known_spec (tp : Z * Z) :
  both_known tp = true <-> (0 <= tp.1 < 6)%Z /\ (0 <= tp.2 < 6)%Z.
Proof. unfold both_known. rewrite !andb_true_iff. lia. Qed.

(** The known pairs are the samples with both labels among [0 .. 5],
    and their indices are below six. *)
Lemma known_pairs_known (y_true y_pred : list Z) :
  Forall (fun p => (p.1 < 6)%nat /\ (p.2 < 6)%nat)
    (known_pairs (label_to_ind (range 6)) y_true y_pred) /\
  length (known_pairs (label_to_ind (range 6)) y_true y_pred)
  = length (List.filter both_known (zip y_true y_pred)).
Proof.
  unfold known_pairs.
  induction (zip y_true y_pred) as [|[t p] l [IH1 IH2]]; [split; [constructor|done]|].
  cbn [omap list_omap List.filter]. rewrite !label_to_ind_range6. cbn [fst snd].
  destruct (both_known (t, p)) eqn:Hb.
  - apply both_known_spec in Hb as [Ht Hp]. cbn [fst snd] in Ht, Hp.
    rewrite !decide_True by done.
    split; [constructor; [cbn [fst snd]; lia | done] | cbn [length]; by f_equal].
  - apply not_true_iff_false in Hb. rewrite both_known_spec in Hb.
    cbn [fst snd] in Hb. repeat case_decide; try done. by destruct Hb.
Qed.

(** The entries of the matrix over [range(6)] add up to the number of
    samples it knows. *)
Lemma confusion_matrix_total (y_true y_pred : list Z) (cm : ndarray) :
  confusion_matrix y_true y_pred (range 6) = inr cm ->
  length y_true = length y_pred /\
  total_of (flatten cm)
  = Z.of_nat (length (List.filter both_known (zip y_true y_pred))).
Proof.
  unfold confusion_matrix.
  destruct (Nat.eqb_spec (length y_true) (length y_pred)) as [Hlen|_];
    [|discriminate].
  cbn [negb]. change (length (range 6)) with 6%nat. cbn [Nat.eqb].
  destruct (Nat.eqb_spec (length y_true) 0) as [H0|_].
  - intros [= <-]. split; [done|]. rewrite total_of_zeros.
    apply length_zero_iff_nil in H0. by subst.
  - destruct (forallb _ _); [discriminate|]. intros [= <-]. split; [done|].
    destruct (known_pairs_known y_true y_pred) as [Hlt Hcount].
    rewrite (total_of_fold_incr 6) by (done || apply zeros_square).
    rewrite total_of_zeros, Hcount. lia.
Qed.

(** X10.  The entries of the confusion matrix [all_together] returns
    add up to the number of pixels whose true and predicted labels are
    both among [0 .. 5]: a pixel with a label of six or more counts
    nowhere, so that the sum is at most the number of pixels. *)
Theorem confusion_matrix_counts_known_pixels `{Torch} `{ModelsFunctional}
    (env : environment) (model : Model) (ds : Dataset)
    (device_ : option device) (verbose : bool)
    out (bce_ dice_ iou_ correct_ : float) (cm : ndarray) :
  all_together env model ds device_ verbose
    = inr (out, (bce_, dice_, iou_, correct_, cm)) ->
  exists y_true y_pred : list (list Z),
    Forall2 (fun it l =>
               (it ≫= fun p => true_labels (resolve_device env device_) p.1 p.2)
               = inr l)
      (ds_items ds) y_true /\
    Forall2 (fun it l =>
               (it ≫= fun p =>
                  predicted_labels model (resolve_device env device_) p.1 p.2)
               = inr l)
      (ds_items ds) y_pred /\
    length (concat y_true) = length (concat y_pred) /\
    total_of (flatten cm)
    = Z.of_nat (length (List.filter both_known (zip (concat y_true) (concat y_pred)))) /\
    (total_of (flatten cm) <= Z.of_nat (length (concat y_true)))%Z.
Proof.
  intros Hrun.
  apply all_together_inr in Hrun as (rs & Hrs & _ & _ & _ & _ & _ & Hcm & _).
  apply reports_labels in Hrs as [Ht Hp].
  apply confusion_matrix_total in Hcm as [Hlen Htotal].
  eexists _, _. split; [exact Ht|]. split; [exact Hp|].
  split; [done|]. split; [done|].
  rewrite Htotal. apply Nat2Z.inj_le.
  etransitivity; [apply List.filter_length_le|].
  rewrite length_zip_with. lia.
Qed.

Lemma confusion_matrix_counts_known_pixels_witness :
  exists (cm : ndarray) (y_true y_pred : list (list Z)),
    returned (@all_together example_torch example_functional
                example_env example_model example_dataset None false)
      = inr (1.25 / 3, (0 + (1 - 7 / 9) * 2 + 0 * 1) / 3,
             (0 + (1 - 4 / 6) * 2 + 0 * 1) / 3, 2.5 / 3, cm) /\
    Forall2 (fun it l => (it ≫= fun p => true_labels cpu p.1 p.2) = inr l)
      (ds_items example_dataset) y_true /\
    Forall2 (fun it l =>
               (it ≫= fun p => predicted_labels example_model cpu p.1 p.2) = inr l)
      (ds_items example_dataset) y_pred /\
    length (concat y_true) = length (concat y_pred) /\
    total_of (flatten cm)
    = Z.of_nat (length (List.filter both_known (zip (concat y_true) (concat y_pred)))) /\
    (total_of (flatten cm) <= Z.of_nat (length (concat y_true)))%Z.
Proof.
  eexists.
  pose proof (@confusion_matrix_counts_known_pixels example_torch example_functional
                example_env example_model example_dataset None false
                _ _ _ _ _ _ ltac:(vm_compute; reflexivity))
    as (y_true & y_pred & Hcounts).
  exists y_true, y_pred. split; [vm_compute; reflexivity | exact Hcounts].
Defined.

(** ** Labels and classes *)

Lemma argmax_from_range (vs : list float) (best : float) (besti i : Z) :
  argmax_from best besti i vs = besti \/
  (i <= argmax_from best besti i vs < i + Z.of_nat (length vs))%Z.
Proof.
  revert best besti i. induction vs as [|v vs IH]; intros best besti i; [by left|].
  cbn [argmax_from length].
  destruct ((best <? v) || (is_nan v && negb (is_nan best))).
  - right. destruct (IH v i (i + 1)%Z) as [->|Hr]; lia.
  - destruct (IH best besti (i + 1)%Z) as [->|Hr]; [by left | right; lia].
Qed.

Lemma argmax_list_range (vs : list float) :
  vs <> [] -> (0 <= argmax_list vs < Z.of_nat (length vs))%Z.
Proof.
  destruct vs as [|v vs]; [done|]. intros _. cbn [argmax_list length].
  destruct (argmax_from_range vs v 0 1) as [->|Hr]; lia.
Qed.

(** The labels [argmax] gives lie below the length of the class
    dimension it runs over. *)
Lemma argmax_dim3_range (t : Tensor) (l : LongTensor) :
  argmax_dim3 t = inr l ->
  exists c, size_dim3 t = inr c /\
            Forall (fun v => (0 <= v < Z.of_nat c)%Z) (ldata l).
Proof.
  unfold argmax_dim3, size_dim3.
  destruct (rev (shape t)) as [|w [|h0 [|c rpre]]]; try discriminate.
  destruct (Nat.eqb_spec c 0) as [|Hc]; [discriminate|].
  intros [= <-]. exists c. split; [done|]. cbn [ldata].
  apply Forall_forall. intros v Hv.
  apply list_elem_of_In, in_flat_map in Hv as (o & _ & Hv).
  apply in_map_iff in Hv as (i & <- & _).
  match goal with
  | |- (0 <= argmax_list ?vs < _)%Z =>
      assert (Hlen : length vs = c) by (by rewrite length_map, length_seq);
      pose proof (argmax_list_range vs) as Hr
  end.
  rewrite Hlen in Hr. apply Hr. intros Hnil. rewrite Hnil in Hlen. simpl in Hlen. lia.
Qed.

Lemma filter_both_known_all (y_true y_pred : list Z) :
  Forall (fun v => (0 <= v < 6)%Z) y_true ->
  Forall (fun v => (0 <= v < 6)%Z) y_pred ->
  List.filter both_known (zip y_true y_pred) = zip y_true y_pred.
Proof.
  intros Ht. revert y_pred. induction Ht as [|t y_true Ht _ IH]; intros y_pred Hp; [done|].
  destruct Hp as [|p y_pred Hp Hps]; [done|].
  cbn [zip zip_with List.filter].
  replace (both_known (t, p)) with true by (symmetry; by apply both_known_spec).
  f_equal. by apply IH.
Qed.

Section Classes.
Context `{Torch} `{ModelsFunctional}.
Variable model : Model.
Variable dev_ : device.

(** The labels of a report lie below the class dimensions of the
    target of the batch and of the output of the model. *)
Lemma eval_batch_labels_range (x true_ : Tensor) (r : batch_report) :
  eval_batch model dev_ x true_ = inr r ->
  exists xb tb n d p ct cp,
    as_batch x true_ = inr (xb, tb, n) /\
    forward model (tensor_float (to dev_ xb)) = inr d /\
    d !! "out" = Some p /\
    size_dim3 tb = inr ct /\
    size_dim3 p = inr cp /\
    Forall (fun v => (0 <= v < Z.of_nat ct)%Z) (ldata (b_targets r)) /\
    Forall (fun v => (0 <= v < Z.of_nat cp)%Z) (ldata (b_logits r)).
Proof.
  unfold eval_batch.
  destruct (as_batch x true_) as [e|[[xb tb] n]]; [discriminate|].
  rewrite result_bind_inr. cbv beta iota zeta.
  do 13 result_step. intros [= <-].
  match goal with
  | Ht : argmax_dim3 (prepare_target dev_ tb) = inr ?ta,
    Hp : argmax_dim3 ?p = inr ?pa,
    Hd : forward model _ = inr ?d,
    Hg : getitem ?d "out" = inr ?p |- _ =>
      destruct (argmax_dim3_range _ _ Ht) as (ct & Hct & Htr);
      destruct (argmax_dim3_range _ _ Hp) as (cp & Hcp & Hpr);
      exists xb, tb, n, d, p, ct, cp;
      unfold getitem in Hg; destruct (d !! "out") as [p'|] eqn:Hout;
        [injection Hg as -> | discriminate]
  end.
  repeat split; done.
Qed.
End Classes.

(** X11.  When the output of the model and the targets have at most
    six classes, no pixel is left out: the entries of the confusion
    matrix [all_together] returns add up to the number of pixels of
    the dataset. *)
Theorem six_classes_count_every_pixel `{Torch} `{ModelsFunctional}
    (env : environment) (model : Model) (ds : Dataset)
    (device_ : option device) (verbose : bool)
    out (bce_ dice_ iou_ correct_ : float) (cm : ndarray) :
  all_together env model ds device_ verbose
    = inr (out, (bce_, dice_, iou_, correct_, cm)) ->
  (forall x d p c,
     forward model x = inr d -> d !! "out" = Some p -> size_dim3 p = inr c ->
     (c <= 6)%nat) ->
  (forall x true_ xb tb n c,
     inr (x, true_) ∈ ds_items ds -> as_batch x true_ = inr (xb, tb, n) ->
     size_dim3 tb = inr c -> (c <= 6)%nat) ->
  exists y_true y_pred : list (list Z),
    Forall2 (fun it l =>
               (it ≫= fun p => true_labels (resolve_device env device_) p.1 p.2)
               = inr l)
      (ds_items ds) y_true /\
    Forall2 (fun it l =>
               (it ≫= fun p =>
                  predicted_labels model (resolve_device env device_) p.1 p.2)
               = inr l)
      (ds_items ds) y_pred /\
    total_of (flatten cm) = Z.of_nat (length (concat y_true)) /\
    total_of (flatten cm) = Z.of_nat (length (concat y_pred)).
Proof.
  intros Hrun Hmodel Htarget.
  apply all_together_inr in Hrun as (rs & Hrs & _ & _ & _ & _ & _ & Hcm & _).
  assert (Hrange : Forall (fun r =>
              Forall (fun v => (0 <= v < 6)%Z) (ldata (b_targets r)) /\
              Forall (fun v => (0 <= v < 6)%Z) (ldata (b_logits r))) rs).
  { clear Hcm. revert Hrs Htarget. generalize (ds_items ds).
    intros its Hrs Htarget.
    induction Hrs as [|it r its rs Hr _ IH]; [constructor|].
    constructor.
    - unfold eval_item in Hr. destruct it as [e|[x t]]; [discriminate|].
      rewrite result_bind_inr in Hr.
      destruct (eval_batch_labels_range _ _ _ _ _ Hr)
        as (xb & tb & n & d & p & ct & cp & Hb & Hf & Hd & Hct & Hcp & Ht & Hp).
      pose proof (Hmodel _ _ _ _ Hf Hd Hcp) as Hcp6.
      pose proof (Htarget x t xb tb n ct ltac:(by left) Hb Hct) as Hct6.
      split; (eapply Forall_impl; [eassumption|]; simpl; intros; lia).
    - apply IH. intros x t xb tb n c Hin. apply Htarget. by right. }
  apply confusion_matrix_total in Hcm as [Hlen Htotal].
  assert (Hall : forall f : batch_report -> LongTensor,
            Forall (fun r => Forall (fun v => (0 <= v < 6)%Z) (ldata (f r))) rs ->
            Forall (fun v => (0 <= v < 6)%Z) (concat (map (fun r => ldata (f r)) rs))).
  { intros f Hf. apply Forall_concat, Forall_map. exact Hf. }
  rewrite filter_both_known_all in Htotal.
  - rewrite length_zip_with in Htotal.
    apply reports_labels in Hrs as [Ht Hp].
    eexists _, _. split; [exact Ht|]. split; [exact Hp|]. lia.
  - apply (Hall b_targets). eapply Forall_impl; [exact Hrange|]. by intros r [? ?].
  - apply (Hall b_logits). eapply Forall_impl; [exact Hrange|]. by intros r [? ?].
Qed.

Lemma six_classes_count_every_pixel_witness :
  exists (cm : ndarray) (y_true y_pred : list (list Z)),
    returned (@all_together example_torch example_functional
                example_env example_model example_dataset None false)
      = inr (1.25 / 3, (0 + (1 - 7 / 9) * 2 + 0 * 1) / 3,
             (0 + (1 - 4 / 6) * 2 + 0 * 1) / 3, 2.5 / 3, cm) /\
    Forall2 (fun it l => (it ≫= fun p => true_labels cpu p.1 p.2) = inr l)
      (ds_items example_dataset) y_true /\
    Forall2 (fun it l =>
               (it ≫= fun p => predicted_labels example_model cpu p.1 p.2) = inr l)
      (ds_items example_dataset) y_pred /\
    total_of (flatten cm) = Z.of_nat (length (concat y_true)) /\
    total_of (flatten cm) = Z.of_nat (length (concat y_pred)).
Proof.
  eexists.
  destruct (@six_classes_count_every_pixel example_torch example_functional
              example_env example_model example_dataset None false
              _ _ _ _ _ _ ltac:(vm_compute; reflexivity))
    as (y_true & y_pred & Hcounts).
  - intros x d p c. cbn [forward example_model]. unfold example_forward.
    destruct (shape x) as [|n [|c0 [|h0 [|w [|? ?]]]]]; try discriminate.
    intros [= <-]. rewrite lookup_singleton_eq. intros [= <-].
    intros [= <-]. lia.
  - intros x t xb tb n c Hin.
    apply elem_of_cons in Hin as [[= -> ->]|Hin];
      [|apply elem_of_cons in Hin as [[= -> ->]|Hin];
        [|by apply elem_of_nil in Hin]];
      intros [= <- <- <-]; intros [= <-]; lia.
  - exists y_true, y_pred. split; [vm_compute; reflexivity | exact Hcounts].
Defined.

(* ================================================================== *)
(** * Drawing the matrix a run returns *)

Lemma row_le_total (a : ndarray) (i : nat) (r : list Z) :
  Forall (Forall (fun v => (0 <= v)%Z)) a -> a !! i = Some r ->
  (total_of r <= total_of (flatten a))%Z.
Proof.
  intros Ha. revert i. unfold flatten.
  induction Ha as [|r0 a Hr0 Ha IH]; intros i Hi; [done|].
  rewrite concat_cons, total_of_app.
  pose proof (total_of_nonneg _ Hr0).
  assert (0 <= total_of (concat a))%Z by (apply total_of_nonneg; by apply Forall_concat).
  destruct i as [|i]; simpl in Hi.
  - injection Hi as ->. lia.
  - specialize (IH _ Hi). lia.
Qed.

(** The entries of a matrix of counts are [int64] values. *)
Lemma counts_int64 (a : ndarray) : counts a -> Forall (Forall int64) a.
Proof.
  intros [Hnn Hsum]. apply Forall_lookup. intros i r Hr.
  apply Forall_lookup. intros j v Hv.
  pose proof (row_le_total a i r Hnn Hr).
  rewrite Forall_lookup in Hnn.
  destruct (lookup_le_total r j v (Hnn _ _ Hr) Hv).
  unfold int64. lia.
Qed.

Lemma confusion_matrix_nonneg (y_true y_pred : list Z) (cm : ndarray) :
  confusion_matrix y_true y_pred (range 6) = inr cm ->
  Forall (Forall (fun v => (0 <= v)%Z)) cm.
Proof.
  intros Hcm.
  destruct (confusion_matrix_square _ _ _ _ Hcm) as [Hlen Hrows].
  change (length (range 6)) with 6%nat in Hlen, Hrows.
  apply Forall_lookup. intros i r Hr. apply Forall_lookup. intros j v Hv.
  assert (Hi : (i < 6)%nat) by (rewrite <- Hlen; by eapply lookup_lt_Some).
  assert (Hj : (j < 6)%nat).
  { rewrite Forall_lookup in Hrows. rewrite <- (Hrows _ _ Hr).
    by eapply lookup_lt_Some. }
  pose proof (confusion_matrix_entry _ _ _ i j Hcm Hi Hj) as He.
  unfold entry in He. rewrite Hr in He. simpl in He. rewrite Hv in He.
  injection He as ->. unfold count_pairs. lia.
Qed.

(** X12.  The matrix [all_together] returns can be handed to
    [draw_confusion_matrix] as it is: whatever the options, the call
    raises nothing before its plotting calls, and ends as they do, with
    the figure when they accept it; the text of the statistics holds
    the accuracy alone (the matrix has six rows, so neither precision
    nor recall nor F1 is shown), and with [omit_diagonal] the array
    ends with zeros on its diagonal, also when a plotting call raises.
    The number of pixels counted is to fit an [int64], as the length of
    an array does. *)
Theorem draw_returned_matrix `{Torch} `{ModelsFunctional} `{Pyplot}
    (env : environment) (model : Model) (ds : Dataset)
    (device_ : option device) (verbose : bool)
    out (bce_ dice_ iou_ correct_ : float) (cm : ndarray)
    (rc_figsize : float * float) (cf : loc)
    (group_names : option (list string)) (categories : ticklabels)
    (count percent cbar xyticks xyplotlabels sum_stats omit_diagonal : bool)
    (figsize : option (float * float)) (cmap : string) (title : option string)
    (h : heap) :
  all_together env model ds device_ verbose
    = inr (out, (bce_, dice_, iou_, correct_, cm)) ->
  (total_of (flatten cm) < 2 ^ 63)%Z ->
  h !! cf = Some cm ->
  exists fig,
    draw_confusion_matrix rc_figsize cf group_names categories count percent cbar
      xyticks xyplotlabels sum_stats omit_diagonal figsize cmap title h
    = ((if omit_diagonal then <[cf := zero_diagonal cm]> h else h), drawn fig) /\
    (plot fig = inr tt -> drawn fig = inr fig) /\
    fig_xlabel fig
    = (if xyplotlabels then "Predicted label" else "") +:+
      (if sum_stats && negb omit_diagonal
       then accuracy_text (Z2float (total_of (np_diagonal cm))
                           / Z2float (total_of (flatten cm)))
       else "").
Proof.
  intros Hrun Hfit Hcf.
  apply all_together_inr in Hrun as (rs & _ & _ & _ & _ & _ & _ & Hcm & _).
  pose proof (confusion_matrix_square _ _ _ _ Hcm) as Hsq.
  change (length (range 6)) with 6%nat in Hsq.
  assert (Hlen : length cm = 6%nat) by apply Hsq.
  assert (Hsq' : square_of (length cm) cm) by (by rewrite Hlen).
  assert (Hc : counts cm) by (split; [by eapply confusion_matrix_nonneg | done]).
  pose proof (stats_text_eq cm sum_stats omit_diagonal Hsq' Hc) as Hstats.
  assert (Hexp : expected_stats cm
                 = accuracy_text (Z2float (total_of (np_diagonal cm))
                                  / Z2float (total_of (flatten cm)))).
  { unfold expected_stats. by rewrite Hlen. }
  rewrite Hexp in Hstats.
  pose proof (isub_diagflat_square cm Hsq' (counts_int64 cm Hc)) as Hsub.
  set (a' := if omit_diagonal then zero_diagonal cm else cm).
  destruct (box_labels_inr a' group_names count percent omit_diagonal) as [labels Hl].
  { intros ->. subst a'. destruct (zero_diagonal_square cm) as [-> ->].
    destruct Hsq' as [_ Hrows]. unfold nrows, ncols.
    destruct cm as [|r cm]; [done|]. apply Forall_cons in Hrows as [Hr _].
    by symmetry. }
  destruct (draw_confusion_matrix_run rc_figsize cf group_names categories count
              percent cbar xyticks xyplotlabels sum_stats omit_diagonal figsize
              cmap title h cm a' _ labels Hcf Hstats) as (fig & Hrun & _ & Hx).
  { subst a'. by destruct omit_diagonal. }
  { exact Hl. }
  exists fig. split; [|split; [|exact Hx]].
  - rewrite Hrun. subst a'. by destruct omit_diagonal.
  - unfold drawn. by intros ->.
Qed.

Lemma draw_returned_matrix_witness :
  exists fig : figure,
    @draw_confusion_matrix example_pyplot (6.5, 4.75) 1%positive None ticks_auto
      true true true true true true false None "Blues" None
      {[ 1%positive :=
           [[2; 0; 0; 0; 0; 0]; [1; 3; 0; 0; 0; 0]; [0; 0; 0; 0; 0; 0];
       [0; 0; 0; 0; 0; 0]; [0; 0; 0; 0; 0; 0]; [0; 0; 0; 0; 0; 0]]%Z ]}
    = ({[ 1%positive :=
            [[2; 0; 0; 0; 0; 0]; [1; 3; 0; 0; 0; 0]; [0; 0; 0; 0; 0; 0];
       [0; 0; 0; 0; 0; 0]; [0; 0; 0; 0; 0; 0]; [0; 0; 0; 0; 0; 0]]%Z ]},
       inr fig) /\
    fig_xlabel fig = "Predicted label" +:+ accuracy_text (5 / 6).
Proof.
  destruct (@draw_returned_matrix example_torch example_functional example_pyplot
           example_env example_model example_dataset None false
           [] (1.25 / 3) ((0 + (1 - 7 / 9) * 2 + 0 * 1) / 3)
           ((0 + (1 - 4 / 6) * 2 + 0 * 1) / 3) (2.5 / 3)
           [[2; 0; 0; 0; 0; 0]; [1; 3; 0; 0; 0; 0]; [0; 0; 0; 0; 0; 0];
       [0; 0; 0; 0; 0; 0]; [0; 0; 0; 0; 0; 0]; [0; 0; 0; 0; 0; 0]]%Z
           (6.5, 4.75) 1%positive None ticks_auto
           true true true true true true false None "Blues" None
           {[ 1%positive :=
                [[2; 0; 0; 0; 0; 0]; [1; 3; 0; 0; 0; 0]; [0; 0; 0; 0; 0; 0];
       [0; 0; 0; 0; 0; 0]; [0; 0; 0; 0; 0; 0]; [0; 0; 0; 0; 0; 0]]%Z ]})
    as (fig & Hrun & Hplot & Hx).
  - vm_compute. reflexivity.
  - reflexivity.
  - reflexivity.
  - exists fig. split; [|exact Hx].
    destruct (@drawn_cases example_pyplot fig) as [[_ Hfig]|(e & _ & Hfig)];
      rewrite Hfig in Hrun; [exact Hrun|].
    vm_compute in Hrun. discriminate Hrun.
Defined.

(* ================================================================== *)
(** * What the model is given *)

Section Inputs.
Context `{Torch} `{ModelsFunctional}.

Lemma as_batch_ndim (x true_ x' true' : Tensor) (size : Z) :
  as_batch x true_ = inr (x', true', size) -> ndim x' = 4%nat.
Proof.
  destruct (as_batch_cases x true_) as [[H4 E]|[[H3 E]|(_ & _ & E)]]; rewrite E.
  - by intros [= <- _ _].
  - intros [= <- _ _]. unfold ndim in *. simpl. by rewrite H3.
  - discriminate.
Qed.

Lemma loop_body_agree (m m' : Model) (d : device) (x true_ : Tensor) (s : locals) :
  (forall x, dev x = d -> ndim x = 4%nat -> forward m x = forward m' x) ->
  loop_body m d x true_ s = loop_body m' d x true_ s.
Proof.
  intros Hagree. unfold loop_body. rewrite !exec_bind_lift.
  destruct (as_batch x true_) as [e|[[x' t'] size]] eqn:E; [done|].
  cbv beta iota zeta. rewrite !exec_bind_lift.
  by rewrite (Hagree (tensor_float (to d x')) eq_refl (as_batch_ndim _ _ _ _ _ E)).
Qed.

Lemma for_loop_agree (m m' : Model) (d : device)
    (items : list (result (Tensor * Tensor))) (s : locals) :
  (forall x, dev x = d -> ndim x = 4%nat -> forward m x = forward m' x) ->
  for_loop m d items s = for_loop m' d items s.
Proof.
  intros Hagree. revert s. induction items as [|item items IH]; intros s; [done|].
  rewrite !for_loop_cons. destruct item as [e|[x t]]; [done|].
  rewrite (loop_body_agree m m' d x t s Hagree).
  destruct (loop_body m' d x t s) as [s' [e|[]]]; [done|]. apply IH.
Qed.
End Inputs.

(** X13.  The model is applied to nothing but batches of four
    dimensions held by the device of the run: two models of the same
    class name that move to the device alike and agree on such tensors
    give the same result on every dataset, whatever they do with other
    inputs. *)
Theorem model_sees_batches_on_device `{Torch} `{ModelsFunctional}
    (env : environment) (m m' : Model) (ds : Dataset)
    (device_ : option device) (verbose : bool) :
  class_name m = class_name m' ->
  eval_to m (resolve_device env device_) = eval_to m' (resolve_device env device_) ->
  (forall x, dev x = resolve_device env device_ -> ndim x = 4%nat ->
             forward m x = forward m' x) ->
  all_together env m ds device_ verbose = all_together env m' ds device_ verbose.
Proof.
  intros Hname Hto Hagree. unfold all_together.
  destruct (make_iterator env ds) as [e|it]; [done|].
  rewrite !result_bind_inr, Hto.
  destruct (eval_to m' _) as [e|[]]; [done|]. rewrite !result_bind_inr.
  rewrite (for_loop_agree m m' _ it initial Hagree).
  destruct (for_loop m' _ it initial) as [s [e|[]]]; [done|].
  unfold finish, summary. by rewrite Hname.
Qed.

Lemma model_sees_batches_on_device_witness :
  @all_together example_torch example_functional example_env
    (mkModel "UNet" (fun _ => mret tt)
       (fun x => if (ndim x =? 4)%nat then example_forward x
                 else raise (RuntimeError "Expected 4-dimensional input")))
    single_dataset None true
  = @all_together example_torch example_functional example_env
      example_model single_dataset None true.
Proof.
  apply (@model_sees_batches_on_device example_torch example_functional).
  - reflexivity.
  - reflexivity.
  - intros x _ Hx. cbn [forward example_model]. by rewrite Hx.
Defined.

(* ================================================================== *)
(** * Drawing twice *)

Lemma total_of_zero (l : list Z) : Forall (fun v => v = 0%Z) l -> total_of l = 0%Z.
Proof. induction 1 as [|v l -> _ IH]; simpl; [done | lia]. Qed.

Lemma imap_shrink (f : nat -> Z -> Z) (r : list Z) :
  (forall j v, (0 <= v)%Z -> (0 <= f j v <= v)%Z) ->
  Forall (fun v => (0 <= v)%Z) r ->
  Forall (fun v => (0 <= v)%Z) (imap f r) /\ (total_of (imap f r) <= total_of r)%Z.
Proof.
  intros Hf Hr. revert f Hf. induction Hr as [|v r Hv Hr IH]; intros f Hf.
  - split; [constructor | reflexivity].
  - rewrite imap_cons. destruct (IH (f ∘ S)) as [IH1 IH2].
    { intros j u Hu. apply Hf, Hu. }
    destruct (Hf 0%nat v Hv). split; [by constructor | simpl; lia].
Qed.

(** Zeroing the diagonal of a matrix of counts leaves a matrix of
    counts. *)
Lemma zero_diagonal_counts (a : ndarray) : counts a -> counts (zero_diagonal a).
Proof.
  intros [Hnn Hsum]. unfold zero_diagonal.
  cut (forall f : nat -> nat -> Z -> Z,
         (forall i j v, (0 <= v)%Z -> (0 <= f i j v <= v)%Z) ->
         Forall (Forall (fun v => (0 <= v)%Z)) (imap (fun i r => imap (f i) r) a) /\
         (total_of (flatten (imap (fun i r => imap (f i) r) a))
          <= total_of (flatten a))%Z).
  { intros Hcut.
    destruct (Hcut (fun i j v => if (i =? j)%nat then 0%Z else v)) as [H1 H2].
    - intros i j v Hv. destruct (i =? j)%nat; lia.
    - split; [exact H1 | lia]. }
  clear Hsum. unfold flatten.
  induction Hnn as [|r a Hr Hnn IH]; intros f Hf.
  - split; [constructor | reflexivity].
  - rewrite imap_cons, !concat_cons, !total_of_app.
    destruct (imap_shrink (f 0%nat) r (Hf 0%nat) Hr) as [Hr1 Hr2].
    destruct (IH (fun i => f (S i))) as [IH1 IH2]; [intros i; apply Hf|].
    split; [by constructor|].
    change (imap ((fun i r0 => imap (f i) r0) ∘ S) a)
      with (imap (fun i r0 => imap (f (S i)) r0) a).
    lia.
Qed.

Lemma zero_diagonal_square_of (a : ndarray) :
  square_of (length a) a ->
  square_of (length (zero_diagonal a)) (zero_diagonal a).
Proof.
  intros Hsq. unfold zero_diagonal at 1. rewrite length_imap.
  apply (imap_imap_shape (fun i j v => if (i =? j)%nat then 0%Z else v)
           (length a) (length a) a Hsq).
Qed.

Lemma zero_diagonal_trace (a : ndarray) :
  square_of (length a) a -> total_of (np_diagonal (zero_diagonal a)) = 0%Z.
Proof.
  intros Hsq. apply total_of_zero, Forall_lookup. intros i v Hv.
  destruct (np_diagonal_square (zero_diagonal a) i (zero_diagonal_square_of a Hsq))
    as [_ Hi].
  rewrite Hi, zero_diagonal_entry in Hv.
  destruct (entry a i i); [|done]. simpl in Hv. rewrite Nat.eqb_refl in Hv.
  by injection Hv.
Qed.

(** X14.  After a call with [omit_diagonal] the caller's matrix has
    lost its diagonal for good, whether the plotting calls of that call
    returned or raised: a later call on the same array, with the
    statistics and without [omit_diagonal], hands to its plotting calls
    an accuracy of zero over the sum of the entries off the diagonal
    (and the precision, recall and F1 score of a matrix of two rows
    from the changed entries). *)
Theorem draw_after_omit_diagonal `{Pyplot} (rc_figsize : float * float) (cf : loc)
    (group_names : option (list string)) (categories : ticklabels)
    (count percent cbar xyticks xyplotlabels sum_stats : bool)
    (figsize : option (float * float)) (cmap : string) (title : option string)
    (h : heap) (a : ndarray) :
  h !! cf = Some a ->
  square_of (length a) a ->
  counts a ->
  exists h1 fig1 fig2,
    draw_confusion_matrix rc_figsize cf group_names categories count percent cbar
      xyticks xyplotlabels sum_stats true figsize cmap title h
    = (h1, drawn fig1) /\
    draw_confusion_matrix rc_figsize cf group_names categories count percent cbar
      xyticks true true false figsize cmap title h1
    = (h1, drawn fig2) /\
    heat_data fig2 = zero_diagonal a /\
    fig_xlabel fig2 = "Predicted label" +:+ expected_stats (zero_diagonal a) /\
    total_of (np_diagonal (zero_diagonal a)) = 0%Z.
Proof.
  intros Hcf Hsq Hc.
  pose proof (counts_int64 a Hc) as Hint.
  pose proof (zero_diagonal_counts a Hc) as Hc'.
  pose proof (zero_diagonal_square_of a Hsq) as Hsq'.
  assert (Hsquare : nrows (zero_diagonal a) = ncols (zero_diagonal a)).
  { destruct (zero_diagonal_square a) as [-> ->].
    destruct Hsq as [_ Hrows]. unfold nrows, ncols.
    destruct a as [|r a]; [done|]. apply Forall_cons in Hrows as [Hr _].
    by symmetry. }
  destruct (box_labels_inr (zero_diagonal a) group_names count percent true)
    as [labels1 Hl1]; [done|].
  destruct (box_labels_inr (zero_diagonal a) group_names count percent false)
    as [labels2 Hl2]; [done|].
  destruct (draw_confusion_matrix_run rc_figsize cf group_names categories count
              percent cbar xyticks xyplotlabels sum_stats true figsize cmap title
              h a (zero_diagonal a) "" labels1 Hcf eq_refl
              (isub_diagflat_square a Hsq Hint) Hl1)
    as (fig1 & Hrun1 & _ & _).
  destruct (draw_confusion_matrix_run rc_figsize cf group_names categories count
              percent cbar xyticks true true false figsize cmap title
              (<[cf := zero_diagonal a]> h) (zero_diagonal a) (zero_diagonal a)
              _ labels2 (lookup_insert_eq _ _ _)
              (stats_text_eq _ true false Hsq' Hc') eq_refl Hl2)
    as (fig2 & Hrun2 & Hdata & Hx).
  exists (<[cf := zero_diagonal a]> h), fig1, fig2.
  split; [exact Hrun1|]. split; [exact Hrun2|]. split; [exact Hdata|].
  split; [exact Hx|]. by apply zero_diagonal_trace.
Qed.

Lemma draw_after_omit_diagonal_witness :
  exists h1 fig1 fig2,
    @draw_confusion_matrix example_pyplot (6.5, 4.75) 1%positive None ticks_auto
      true true true true true true true None "Blues" None example_heap
    = (h1, @drawn example_pyplot fig1) /\
    @draw_confusion_matrix example_pyplot (6.5, 4.75) 1%positive None ticks_auto
      true true true true true true false None "Blues" None h1
    = (h1, @drawn example_pyplot fig2) /\
    heat_data fig2 = [[0; 1]; [2; 0]]%Z /\
    fig_xlabel fig2
    = "Predicted label" +:+ binary_text (0 / 3) (0 / 1) (0 / 2)
                              (2 * (0 / 1) * (0 / 2) / (0 / 1 + 0 / 2)) /\
    total_of (np_diagonal [[0; 1]; [2; 0]]%Z) = 0%Z.
Proof.
  apply (@draw_after_omit_diagonal example_pyplot (6.5, 4.75) 1%positive None ticks_auto
           true true true true true true None "Blues" None example_heap binary_cf).
  - reflexivity.
  - split; [reflexivity | repeat constructor].
  - split; [repeat constructor; lia | reflexivity].
Defined.

(* ================================================================== *)
(** * A plotting call that raises *)

(** X15.  An exception of the heatmap leaves [draw_confusion_matrix]
    as it is, after the array has been changed: when the figure is
    opened and [sns.heatmap] refuses the colormap with [e], the call on
    a square matrix raises [e], no label is set, and with
    [omit_diagonal] the caller's array has lost its diagonal all the
    same. *)
Theorem heatmap_error_after_mutation `{Pyplot} (rc_figsize : float * float)
    (cf : loc) (group_names : option (list string)) (categories : ticklabels)
    (count percent cbar xyticks xyplotlabels sum_stats omit_diagonal : bool)
    (figsize : option (float * float)) (cmap : string) (title : option string)
    (h : heap) (a : ndarray) (e : exception) :
  h !! cf = Some a ->
  square_of (length a) a ->
  Forall (Forall int64) a ->
  plt_figure (default rc_figsize figsize) = inr tt ->
  (forall data annot cbar labels, sns_heatmap data annot cmap cbar labels = inl e) ->
  draw_confusion_matrix rc_figsize cf group_names categories count percent cbar
    xyticks xyplotlabels sum_stats omit_diagonal figsize cmap title h
  = ((if omit_diagonal then <[cf := zero_diagonal a]> h else h), inl e).
Proof.
  intros Hcf Hsq Hint Hfigure Hheat.
  assert (exists text, stats_text a sum_stats omit_diagonal = inr text) as [text Hstats].
  { unfold stats_text. destruct (negb omit_diagonal && sum_stats); [|by eexists].
    unfold nrows. destruct (Nat.eqb_spec (length a) 2) as [Hlen|_]; [|by eexists].
    destruct (square_two a Hsq Hlen) as (p & q & r & s & ->). by eexists. }
  rewrite (draw_confusion_matrix_unfold _ _ _ _ _ _ _ _ _ _ _ _ _ _ _ _ Hcf), Hstats.
  assert (Hdrawn : forall fig, fig_figsize fig = default rc_figsize figsize ->
                               heat_cmap fig = cmap -> drawn fig = inl e).
  { intros fig Hsize Hcmap. unfold drawn, plot.
    by rewrite Hsize, Hfigure, result_bind_inr, Hcmap, Hheat. }
  destruct omit_diagonal.
  - rewrite (isub_diagflat_square a Hsq Hint). cbv zeta.
    destruct (box_labels_inr (zero_diagonal a) group_names count percent true)
      as [labels ->].
    { intros _. destruct (zero_diagonal_square a) as [-> ->].
      destruct Hsq as [_ Hrows]. unfold nrows, ncols.
      destruct a as [|r a]; [done|]. apply Forall_cons in Hrows as [Hr _].
      by symmetry. }
    by rewrite Hdrawn.
  - cbv zeta.
    destruct (box_labels_inr a group_names count percent false) as [labels ->];
      [done|].
    by rewrite Hdrawn.
Qed.

Lemma heatmap_error_after_mutation_witness :
  @draw_confusion_matrix example_pyplot (6.5, 4.75) 1%positive None ticks_auto
    true true true true true true true None "NoSuchMap" None example_heap
  = (<[1%positive := zero_diagonal binary_cf]> example_heap,
     inl (ValueError "not a valid value for cmap")).
Proof.
  apply (@heatmap_error_after_mutation example_pyplot (6.5, 4.75) 1%positive None
           ticks_auto true true true true true true true None "NoSuchMap" None
           example_heap binary_cf).
  - reflexivity.
  - split; [reflexivity | repeat constructor].
  - repeat constructor; done.
  - reflexivity.
  - reflexivity.
Defined.
